(** * TTS dataset utilities: sampler, distribution report, copy tool

  A shallow embedding of the three Python scripts of the repository
  ([utils/sample_tts_files.py], [utils/audio_distribution.py],
  [copy_samples.py]) and the properties their specification states,
  followed by further properties read off the code.

  Layout: the Python runtime values the scripts manipulate (module [Py]),
  then one module per script holding its functions under their own names,
  then the theorems. *)

From Stdlib Require Import ZArith Ascii String Floats.SpecFloat.
From stdpp Require Import gmap strings list pretty.

Open Scope string_scope.
Open Scope list_scope.
Open Scope Z_scope.

(* ===================================================================== *)
(** * Python runtime values                                                *)
(* ===================================================================== *)

Module Py.

(** A Python [float] is an IEEE 754 binary64 value.  [spec_float] is the
    Standard Library's inductive description of such values (zeros,
    infinities, NaN, finite [(-1)^s * m * 2^e]); the values Python can
    build are the ones with [valid_binary prec emax] = [true]. *)
Abbreviation float := spec_float.

Definition prec : Z := 53.
Definition emax : Z := 1024.

(** [float(z)] for an [int] small enough to convert (the constants of the
    bucket tables all are); round-to-nearest-even as in CPython. *)
Definition float_of_int (z : Z) : float := binary_normalize prec emax z 0 false.

(** [float('inf')] and a NaN. *)
Definition inf : float := S754_infinity false.

(** Comparison operators on floats: every comparison with NaN is [False]. *)
Definition le (a b : float) : bool := SFleb a b.
Definition lt (a b : float) : bool := SFltb a b.
Definition ge (a b : float) : bool := le b a.
Definition eqb (a b : float) : bool := SFeqb a b.

(** [str(z)] of an [int]: its decimal numeral. *)
Definition str_int (z : Z) : string := pretty z.

(** ** Exceptions *)

Inductive exn : Set :=
| ValueError (msg : string)
| OverflowError (msg : string)
| KeyError (key : string)
| OSError (msg : string).

(** [float(z)] as the scripts call it on arbitrary ints: an int too large for
    a binary64 raises. *)
Definition to_float (z : Z) : exn + float :=
  match float_of_int z with
  | S754_infinity _ => inl (OverflowError "int too large to convert to float")
  | f => inr f
  end.

(** [a / b] on two floats with [b] nonzero. *)
Definition truediv (a b : float) : float := SFdiv prec emax a b.

(** ** [int(...)] *)

(** [int(f)] of a float truncates toward zero. *)
Definition trunc (f : float) : exn + Z :=
  match f with
  | S754_zero _ => inr 0
  | S754_infinity _ =>
      inl (OverflowError "cannot convert float infinity to integer")
  | S754_nan => inl (ValueError "cannot convert float NaN to integer")
  | S754_finite s m e => inr (cond_Zopp s (Z.shiftl (Zpos m) e))
  end.

(** [int(s)] of a string, base 10, on ASCII input: surrounding whitespace
    (space, the controls 9 to 13 and 28 to 31) is stripped, one sign is
    allowed, then digits, single underscores allowed between digits.
    (Non-ASCII digits and whitespace, and the digit-count limit of recent
    interpreters, are outside this model.) *)
Definition is_space (a : ascii) : bool :=
  let n := nat_of_ascii a in
  bool_decide (n = 32 ∨ 9 ≤ n ≤ 13 ∨ 28 ≤ n ≤ 31)%nat.

Fixpoint lstrip (s : string) : string :=
  match s with
  | String a s' => if is_space a then lstrip s' else s
  | EmptyString => EmptyString
  end.

Definition strip (s : string) : string :=
  String.rev (lstrip (String.rev (lstrip s))).

Definition digit (a : ascii) : option Z :=
  let n := nat_of_ascii a in
  if bool_decide (48 ≤ n ≤ 57)%nat then Some (Z.of_nat n - 48) else None.

Fixpoint digits (s : string) (acc : Z) (after_digit : bool) : option Z :=
  match s with
  | EmptyString => if after_digit then Some acc else None
  | String a s' =>
      match digit a with
      | Some v => digits s' (10 * acc + v) true
      | None =>
          if bool_decide (a = "_"%char) && after_digit
          then digits s' acc false
          else None
      end
  end.

Definition int_of_str (s : string) : option Z :=
  match strip s with
  | String "+" r => digits r 0 false
  | String "-" r => Z.opp <$> digits r 0 false
  | r => digits r 0 false
  end.

(** ** pandas: cells, rows, frames *)

(** The value [row[col]] of a frame read from CSV: an integer, a float (NaN
    for an empty cell), a boolean or a string. *)
Inductive cell : Set :=
| CInt (z : Z)
| CFloat (f : spec_float)
| CBool (b : bool)
| CStr (s : string).

(** [pd.isna(v)] on a scalar. *)
Definition isna (v : cell) : bool :=
  match v with
  | CFloat S754_nan => true
  | _ => false
  end.

(** [int(v)]. *)
Definition int (v : cell) : exn + Z :=
  match v with
  | CInt z => inr z
  | CBool b => inr (if b then 1 else 0)
  | CFloat f => trunc f
  | CStr s =>
      match int_of_str s with
      | Some z => inr z
      | None => inl (ValueError "invalid literal for int() with base 10")
      end
  end.

(** [str(v)]; the shortest-repr printing of floats is a parameter. *)
Definition str (repr_float : spec_float → string) (v : cell) : string :=
  match v with
  | CInt z => str_int z
  | CFloat f => repr_float f
  | CBool b => if b then "True" else "False"
  | CStr s => s
  end.

(** A row: index labels with their values.  A frame: column labels and,
    for each row, the values [iterrows] yields for it, paired with the
    labels by [iterrows]. *)
Abbreviation Series := (list (string * cell)).

Record DataFrame : Set := { columns : list string; values : list (list cell) }.

Definition iterrows (df : DataFrame) : list Series :=
  (λ vs, zip (columns df) vs) <$> values df.

(** [col in row.index] (also [col in row]) and [row[col]]. *)
Definition series_has (row : Series) (col : string) : bool :=
  bool_decide (col ∈ row.*1).

Fixpoint series_get (row : Series) (col : string) : option cell :=
  match row with
  | [] => None
  | (c, v) :: row' => if decide (c = col) then Some v else series_get row' col
  end.

(** [df.rename(columns={old: new})]. *)
Definition rename (old new : string) (df : DataFrame) : DataFrame :=
  {| columns := (λ c, if decide (c = old) then new else c) <$> columns df;
     values := values df |}.

(** [s.lower()] on ASCII letters. *)
Definition lower_ascii (a : ascii) : ascii :=
  let n := nat_of_ascii a in
  if bool_decide (65 ≤ n ≤ 90)%nat then ascii_of_nat (n + 32) else a.

Fixpoint lower (s : string) : string :=
  match s with
  | EmptyString => EmptyString
  | String a s' => String (lower_ascii a) (lower s')
  end.

(** [s.replace(old, new)] for a one-character [old]. *)
Fixpoint replace (old : ascii) (new : string) (s : string) : string :=
  match s with
  | EmptyString => EmptyString
  | String a s' =>
      if decide (a = old) then new +:+ replace old new s'
      else String a (replace old new s')
  end.

(** ** Dictionaries iterated in insertion order *)

(** [d[k] = v]: replaces the value of an existing key in place, appends a
    new key at the end; [d.values()] lists values in insertion order. *)
Fixpoint dict_set {K V : Type} `{EqDecision K} (k : K) (v : V)
    (d : list (K * V)) : list (K * V) :=
  match d with
  | [] => [(k, v)]
  | (k', v') :: d' =>
      if decide (k' = k) then (k', v) :: d' else (k', v') :: dict_set k v d'
  end.

Definition dict_values {K V : Type} (d : list (K * V)) : list V := d.*2.

(** ** Effects: printing, raising, one mutable object *)

(** A computation reads and updates a state [S] (the random generator, the
    file system), prints lines of type [W], and returns or raises.  What was
    printed before an exception is kept. *)
Definition M (S W A : Type) : Type := S → list W * (exn + A * S).

Definition ret {S W A} (a : A) : M S W A := λ s, ([], inr (a, s)).

Definition bind {S W A B} (m : M S W A) (f : A → M S W B) : M S W B :=
  λ s, match m s with
       | (w, inl e) => (w, inl e)
       | (w, inr (a, s')) => let '(w', r) := f a s' in (w ++ w', r)
       end.

#[global] Instance M_ret {S W} : MRet (M S W) := @ret S W.
#[global] Instance M_bind {S W} : MBind (M S W) := λ A B f m, bind m f.

Definition print {S W} (w : W) : M S W unit := λ s, ([w], inr (tt, s)).
Definition raise {S W A} (e : exn) : M S W A := λ s, ([], inl e).

(** An operation of the outside world on the state. *)
Definition act {S W A} (f : S → exn + A * S) : M S W A := λ s, ([], f s).

(** An operation that only changes the state, or raises. *)
Definition update {S W} (f : S → exn + S) : M S W unit :=
  act (λ s, match f s with
            | inl e => inl e
            | inr s' => inr ((), s')
            end).

Definition lift {S W A} (r : exn + A) : M S W A :=
  match r with
  | inl e => raise e
  | inr a => ret a
  end.

(** A [for] loop that threads the variables it assigns. *)
Fixpoint for_ {S W A B} (l : list A) (body : B → A → M S W B) (acc : B)
    : M S W B :=
  match l with
  | [] => mret acc
  | x :: l' => acc' ← body acc x; for_ l' body acc'
  end.

(** ** [random.Random] *)

(** The generator object: [Random(seed)] and [rng.sample(population, k)] for
    [0 <= k <= len(population)], which returns the chosen list and leaves
    the generator in a new state. *)
Class Random (RNG : Type) : Type := {
  Random_seed : Z → RNG;
  Random_sample : ∀ {A : Type}, RNG → list A → nat → list A * RNG;
}.

(** The documented contract of [sample]: a list of [k] elements chosen from
    the population without replacement (by position). *)
Class RandomSpec (RNG : Type) `{!Random RNG} : Prop :=
  Random_sample_spec :
    ∀ (A : Type) (rng : RNG) (population : list A) (k : nat),
      (k ≤ length population)%nat →
      length (Random_sample rng population k).1 = k ∧
      (Random_sample rng population k).1 ⊆+ population.

Definition sample {RNG W A} `{!Random RNG} (population : list A) (k : Z)
    : M RNG W (list A) :=
  if (k <? 0) || (Z.of_nat (length population) <? k)
  then raise (ValueError "Sample larger than population or is negative")
  else λ rng, ([], inr (Random_sample rng population (Z.to_nat k))).

(** ** The outside world the sampler consults *)

Record World : Type := {
  path_join : string → string → string;            (* os.path.join *)
  path_splitext : string → string * string;        (* os.path.splitext *)
  path_relpath : string → string → string;         (* os.path.relpath *)
  path_isdir : string → bool;                      (* os.path.isdir *)
  walk : string → list (string * list string * list string);  (* os.walk *)
  sf_info : string → string + Z * Z;  (* error text, or frames, samplerate *)
  read_csv : string → exn + DataFrame;             (* pd.read_csv *)
  repr_float : spec_float → string;                (* str(float) *)
  round_float : spec_float → Z → spec_float;       (* round(x, ndigits) *)
}.

End Py.

(* ===================================================================== *)
(** * utils/sample_tts_files.py                                            *)
(* ===================================================================== *)

Module sample_tts_files.

(** [BUCKET_DEFS]: name -> (low inclusive, high exclusive or [None]).  A
    Python dict literal iterates in the order written, so the table is the
    list of its items. *)
Definition BUCKET_DEFS : list (string * (Py.float * option Py.float)) :=
  [ ("[0, 1)",   (Py.float_of_int 0,  Some (Py.float_of_int 1)));
    ("[1, 5)",   (Py.float_of_int 1,  Some (Py.float_of_int 5)));
    ("[5, 10)",  (Py.float_of_int 5,  Some (Py.float_of_int 10)));
    ("[10, 15)", (Py.float_of_int 10, Some (Py.float_of_int 15)));
    ("[15, 20)", (Py.float_of_int 15, Some (Py.float_of_int 20)));
    ("[20, 25)", (Py.float_of_int 20, Some (Py.float_of_int 25)));
    ("[25, 30)", (Py.float_of_int 25, Some (Py.float_of_int 30)));
    ("[30+)",    (Py.float_of_int 30, None)) ].

(** The test one pass of the loop of [assign_bucket] performs on an item:
    [duration >= lo] when [hi is None], else [lo <= duration < hi]. *)
Definition bucket_matches (lo : Py.float) (hi : option Py.float)
    (duration : Py.float) : bool :=
  match hi with
  | None => Py.ge duration lo
  | Some hi => Py.le lo duration && Py.lt duration hi
  end.

(** The [for name, (lo, hi) in ...items()] loop: first match returns. *)
Fixpoint assign_bucket_in (defs : list (string * (Py.float * option Py.float)))
    (duration : Py.float) : option string :=
  match defs with
  | [] => None
  | (name, (lo, hi)) :: rest =>
      if bucket_matches lo hi duration then Some name
      else assign_bucket_in rest duration
  end.

Definition assign_bucket (duration : Py.float) : option string :=
  assign_bucket_in BUCKET_DEFS duration.

Definition AUDIO_EXTENSIONS : list string :=
  [".wav"; ".flac"; ".mp3"; ".m4a"; ".ogg"].

Record FileInfo : Set := {
  folder : string;
  path : string;
  rel_path : string;
  duration : Py.float;
  bucket : option string;
}.

(** One constructor per [print] of the script, with the values its f-string
    interpolates. *)
Inductive event : Set :=
| WarnCouldNotRead (path msg : string)
| WarnFolderNotFound (folder_path : string)
| InfoFolderFound (folder_key : string) (found : nat)
| InfoTotalIndexed (total : nat)
| WarnFoundNoFiles (folder bucket_name : string) (n_req : Z)
| InfoTakingAll (folder bucket_name : string) (n_req : Z) (available : nat)
| InfoLoadedPlan (rows : nat) (plan_csv : string)
| WarnNoBucketedFiles (folder_key : string)
| WarnTargetNotMet (folder_key : string) (target : Z) (selected : nat)
| InfoFinalSelected (clips : nat)
| InfoWroteList (output_csv : string).

(** A row of the output CSV, under the [fieldnames] of [run_sampling]. *)
Record manifest_row : Set := {
  row_folder : string;
  row_rel_path : string;
  row_full_path : string;
  row_duration_sec : Py.float;
  row_bucket : option string;
}.

(** *** Functions that do not use the generator

    They are typed over an arbitrary state [S], which they can only pass
    along. *)

Section Indexing.

Context {S : Type} (w : Py.World).

Local Abbreviation M := (Py.M S event).

Definition is_audio_file (path : string) : bool :=
  let '(_, ext) := Py.path_splitext w path in
  bool_decide (Py.lower ext ∈ AUDIO_EXTENSIONS).

(** The [try] body raises when [sf.info] fails or a count is too large to
    convert; the handler prints and returns [None]. *)
Definition get_duration_seconds (path : string) : M (option Py.float) :=
  match Py.sf_info w path with
  | inl e => Py.print (WarnCouldNotRead path e);; mret None
  | inr (frames, samplerate) =>
      if 0 <? samplerate then
        match Py.to_float frames, Py.to_float samplerate with
        | inr f, inr r => mret (Some (Py.truediv f r))
        | _, _ =>
            Py.print (WarnCouldNotRead path "int too large to convert to float");;
            mret None
        end
      else mret None
  end.

Definition find_files_in_folder (root folder_key : string) : M (list string) :=
  let folder_path := Py.path_join w root folder_key in
  if negb (Py.path_isdir w folder_path) then
    Py.print (WarnFolderNotFound folder_path);;
    mret []
  else
    mret (foldl (λ audio_files '(dirpath, _, filenames),
            foldl (λ audio_files fname,
              let full := Py.path_join w dirpath fname in
              if is_audio_file full then audio_files ++ [full]
              else audio_files) audio_files filenames)
          [] (Py.walk w folder_path)).

Definition load_sampling_plan (plan_csv : string) : M Py.DataFrame :=
  df ← Py.lift (Py.read_csv w plan_csv);
  let df :=
    if bool_decide ("group" ∈ Py.columns df)
       && negb (bool_decide ("Folder" ∈ Py.columns df))
    then Py.rename "group" "Folder" df else df in
  if negb (bool_decide ("Folder" ∈ Py.columns df)) then
    Py.raise (Py.ValueError "Sampling plan must have a 'Folder' or 'group' column.")
  else mret df.

(** [str(row["Folder"])]. *)
Definition folder_key_of (row : Py.Series) : M string :=
  match Py.series_get row "Folder" with
  | Some v => mret (Py.str (Py.repr_float w) v)
  | None => Py.raise (Py.KeyError "Folder")
  end.

(** One pass of the inner loop of [build_file_index], over a file [f]. *)
Definition index_file (audio_root folder_key : string)
    (all_files : list FileInfo) (f : string) : M (list FileInfo) :=
  dur ← get_duration_seconds f;
  match dur with
  | None => mret all_files
  | Some dur =>
      let bucket := assign_bucket dur in
      let rel_path := Py.path_relpath w f audio_root in
      mret (all_files ++ [ {| folder := folder_key; path := f;
                              rel_path := rel_path; duration := dur;
                              bucket := bucket |} ])
  end.

(** One pass of its outer loop, over a plan row. *)
Definition index_folder (audio_root : string) (all_files : list FileInfo)
    (row : Py.Series) : M (list FileInfo) :=
  folder_key ← folder_key_of row;
  files ← find_files_in_folder audio_root folder_key;
  Py.print (InfoFolderFound folder_key (length files));;
  Py.for_ files (index_file audio_root folder_key) all_files.

Definition build_file_index (audio_root : string) (plan_df : Py.DataFrame)
    : M (list FileInfo) :=
  all_files ← Py.for_ (Py.iterrows plan_df) (index_folder audio_root) [];
  Py.print (InfoTotalIndexed (length all_files));;
  mret all_files.

(** The first loop of [sample_for_folder] fills [requested] with the count
    of every bucket that has a [Samples <bucket>] column holding a positive
    value; [request_bucket] is one pass of it. *)
Definition request_bucket (folder_row : Py.Series)
    (requested : list (string * Z)) (bucket_name : string)
    : M (list (string * Z)) :=
  let col := "Samples " +:+ bucket_name in
  if Py.series_has folder_row col then
    match Py.series_get folder_row col with
    | Some v =>
        requested_count ← (if negb (Py.isna v) then Py.lift (Py.int v)
                           else mret 0);
        if 0 <? requested_count
        then mret (Py.dict_set bucket_name requested_count requested)
        else mret requested
    | None => Py.raise (Py.KeyError col)
    end
  else mret requested.

Definition requested_counts (folder_row : Py.Series) : M (list (string * Z)) :=
  Py.for_ (BUCKET_DEFS.*1) (request_bucket folder_row) [].

End Indexing.

(** One pass of the loop of [build_folder_bucket_map]: the two
    [setdefault] calls and the [append]. *)
Definition add_file (mapping : gmap string (gmap string (list FileInfo)))
    (fi : FileInfo) : gmap string (gmap string (list FileInfo)) :=
  match bucket fi with
  | None => mapping
  | Some b =>
      let folder_map := default ∅ (mapping !! folder fi) in
      let bucket_list := default [] (folder_map !! b) in
      <[folder fi := <[b := bucket_list ++ [fi]]> folder_map]> mapping
  end.

Definition build_folder_bucket_map (files : list FileInfo)
    : gmap string (gmap string (list FileInfo)) :=
  foldl add_file ∅ files.

(** The deduplication at the end of [run_sampling]. *)
Definition deduplicate (all_selected : list FileInfo) : list FileInfo :=
  Py.dict_values
    (foldl (λ unique_selected fi,
       Py.dict_set (folder fi, path fi) fi unique_selected) [] all_selected).

(** *** Functions that use the generator *)

Section Sampling.

Context {RNG : Type} `{!Py.Random RNG} (w : Py.World).

Local Abbreviation M := (Py.M RNG event).

(** One pass of the second loop of [sample_for_folder]. *)
Definition sample_bucket (folder : string)
    (folder_buckets : gmap string (list FileInfo))
    (selected : list FileInfo) (item : string * Z) : M (list FileInfo) :=
  let '(bucket_name, n_req) := item in
  let available := default [] (folder_buckets !! bucket_name) in
  match available with
  | [] =>
      Py.print (WarnFoundNoFiles folder bucket_name n_req);;
      mret selected
  | _ =>
      if Z.of_nat (length available) <=? n_req then
        Py.print (InfoTakingAll folder bucket_name n_req (length available));;
        mret (selected ++ available)
      else
        chosen ← Py.sample available n_req;
        mret (selected ++ chosen)
  end.

Definition sample_for_folder (folder : string) (folder_row : Py.Series)
    (folder_buckets : gmap string (list FileInfo)) : M (list FileInfo) :=
  requested ← requested_counts folder_row;
  Py.for_ requested (sample_bucket folder folder_buckets) [].

(** [int(row["Target Samples"]) if ... else None]. *)
Definition target_of (row : Py.Series) : M (option Z) :=
  if Py.series_has row "Target Samples" then
    match Py.series_get row "Target Samples" with
    | Some v => if negb (Py.isna v) then target ← Py.lift (Py.int v);
                                          mret (Some target)
                else mret None
    | None => Py.raise (Py.KeyError "Target Samples")
    end
  else mret None.

(** One pass of the loop of [run_sampling] over the plan rows. *)
Definition sample_row
    (folder_bucket_map : gmap string (gmap string (list FileInfo)))
    (all_selected : list FileInfo) (row : Py.Series) : M (list FileInfo) :=
  folder_key ← folder_key_of w row;
  target ← target_of row;
  let folder_buckets := default ∅ (folder_bucket_map !! folder_key) in
  if bool_decide (folder_buckets = ∅) then
    Py.print (WarnNoBucketedFiles folder_key);;
    mret all_selected
  else
    selected ← sample_for_folder folder_key row folder_buckets;
    match target with
    | Some target =>
        if Z.of_nat (length selected) <? target
        then Py.print (WarnTargetNotMet folder_key target (length selected))
        else mret ()
    | None => mret ()
    end;;
    mret (all_selected ++ selected).

(** The rows written to the output CSV. *)
Definition manifest_of (final_list : list FileInfo) : list manifest_row :=
  (λ fi, {| row_folder := folder fi; row_rel_path := rel_path fi;
            row_full_path := path fi;
            row_duration_sec := Py.round_float w (duration fi) 3;
            row_bucket := bucket fi |}) <$> final_list.

(** The body of [run_sampling] after [rng = random.Random(seed)], in two
    parts: up to the end of the loop over the plan rows, which leaves
    [all_selected]; then deduplication and output.  The value returned is
    the list of rows written to [output_csv] (opening that file for writing
    is taken to succeed). *)
Definition accumulate_selected (plan_csv audio_root : string)
    : M (list FileInfo) :=
  plan_df ← load_sampling_plan w plan_csv;
  Py.print (InfoLoadedPlan (length (Py.values plan_df)) plan_csv);;
  files ← build_file_index w audio_root plan_df;
  let folder_bucket_map := build_folder_bucket_map files in
  Py.for_ (Py.iterrows plan_df) (sample_row folder_bucket_map) [].

Definition run_sampling_with (plan_csv audio_root output_csv : string)
    : M (list manifest_row) :=
  all_selected ← accumulate_selected plan_csv audio_root;
  let final_list := deduplicate all_selected in
  Py.print (InfoFinalSelected (length final_list));;
  Py.print (InfoWroteList output_csv);;
  mret (manifest_of final_list).

Definition run_sampling (plan_csv audio_root output_csv : string) (seed : Z)
    : list event * (Py.exn + list manifest_row * RNG) :=
  run_sampling_with plan_csv audio_root output_csv (Py.Random_seed seed).

End Sampling.

End sample_tts_files.

(* ===================================================================== *)
(** * utils/audio_distribution.py                                          *)
(* ===================================================================== *)

Module audio_distribution.

(** An upper bound of [BUCKETS]: an [int], or the float [float('inf')]. *)
Inductive bound : Set :=
| Int (z : Z)
| FloatInf.

(** Mixed comparison: CPython converts the (small) int to a float. *)
Definition bound_float (b : bound) : Py.float :=
  match b with
  | Int z => Py.float_of_int z
  | FloatInf => Py.inf
  end.

Definition BUCKETS : list (Z * bound) :=
  [ (0, Int 1); (1, Int 5); (5, Int 10); (10, Int 15);
    (15, Int 20); (20, Int 25); (25, Int 30); (30, FloatInf) ].

(** [high == float('inf')]. *)
Definition is_inf (high : bound) : bool := Py.eqb (bound_float high) Py.inf.

(** The two f-strings: [f"[{low}+)"] and [f"[{low}, {high})"].  The second
    is only reached with an [int] as [high]. *)
Definition label (low : Z) (high : bound) : string :=
  if is_inf high then "[" +:+ Py.str_int low +:+ "+)"
  else "[" +:+ Py.str_int low +:+ ", " +:+
       match high with Int h => Py.str_int h | FloatInf => "inf" end +:+ ")".

Fixpoint assign_bucket_in (buckets : list (Z * bound)) (duration : Py.float)
    : string :=
  match buckets with
  | [] => "UNBUCKETED"
  | (low, high) :: rest =>
      if Py.le (Py.float_of_int low) duration
         && Py.lt duration (bound_float high)
      then label low high
      else assign_bucket_in rest duration
  end.

Definition assign_bucket (duration : Py.float) : string :=
  assign_bucket_in BUCKETS duration.

Definition get_bucket_labels : list string :=
  map (fun '(low, high) => label low high) BUCKETS.

(** *** The walk over a structure file

    The JSON structure the report reads: a directory node has a ["name"],
    may list its ["flac_files"], each with a ["duration_seconds"], and may
    list its ["subdirectories"].  A key the script reads with [[...]] may be
    missing ([None]), which raises [KeyError].  The two keys it reads with
    [in] and [.get(..., [])] behave alike when missing and when holding an
    empty list, so they are plain lists here.  A duration is a JSON number,
    taken as a float. *)
Record flac_file : Set := { duration_seconds : option Py.float }.

#[local] Set Warnings "-register-all".

Inductive node : Set :=
| Node (name : option string) (flac_files : list flac_file)
       (subdirectories : list node).

Definition name (n : node) : option string :=
  match n with Node name _ _ => name end.

Definition flac_files (n : node) : list flac_file :=
  match n with Node _ flac_files _ => flac_files end.

Definition subdirectories (n : node) : list node :=
  match n with Node _ _ subdirectories => subdirectories end.

(** The value of [folder_stats[folder_path]]; [buckets] is a dictionary
    created over the labels, in their order. *)
Record stats : Set := {
  buckets : list (string * Z);
  total_files : Z;
  total_duration : Py.float;
}.

(** [{label: 0 for label in get_bucket_labels()}]. *)
Definition zero_counts : list (string * Z) :=
  (λ label, (label, 0)) <$> get_bucket_labels.

(** [d[k] += 1] and [d[k]] on such a dictionary. *)
Fixpoint incr (k : string) (d : list (string * Z)) : Py.exn + list (string * Z) :=
  match d with
  | [] => inl (Py.KeyError k)
  | (k', v) :: d' =>
      if decide (k' = k) then inr ((k', v + 1) :: d')
      else match incr k d' with
           | inl e => inl e
           | inr d'' => inr ((k', v) :: d'')
           end
  end.

Fixpoint get (k : string) (d : list (string * Z)) : Py.exn + Z :=
  match d with
  | [] => inl (Py.KeyError k)
  | (k', v) :: d' => if decide (k' = k) then inr v else get k d'
  end.

(** [d[key]] on a JSON object. *)
Definition item {A : Type} (key : string) (value : option A) : Py.exn + A :=
  match value with
  | Some v => inr v
  | None => inl (Py.KeyError key)
  end.

(** One constructor per kind of line [process_dataset] prints (the rule is
    printed twice); the line of a bucket shows its label, its count and the
    percentage computed from the count and the total. *)
Inductive event : Set :=
| Rule
| InfoDataset (dataset_name : string)
| InfoTotalFiles (total_files : Z)
| InfoTotalFolders (folders : nat)
| DistributionHeader
| InfoBucket (label : string) (count total_files : Z).

Section Walk.

(** [os.path.join]. *)
Context (path_join : string → string → string).

(** The two dictionaries [walk] updates: [folder_stats] and
    [overall_buckets]. *)
Local Abbreviation store := (gmap string stats * list (string * Z))%type.

Local Abbreviation M := (Py.M store event).

(** The [if folder_path not in folder_stats] block. *)
Definition init_folder (folder_path : string) : M unit :=
  Py.update (λ '(folder_stats, overall_buckets),
    inr (match folder_stats !! folder_path with
         | Some _ => folder_stats
         | None =>
             <[folder_path := {| buckets := zero_counts; total_files := 0;
                                 total_duration := S754_zero false |}]>
               folder_stats
         end, overall_buckets)).

(** One pass of the loop over [node["flac_files"]]. *)
Definition count_file (folder_path : string) (f : flac_file) : M unit :=
  dur ← Py.lift (item "duration_seconds" (duration_seconds f));
  let bucket := assign_bucket dur in
  Py.update (λ '(folder_stats, overall_buckets),
    match folder_stats !! folder_path with
    | None => inl (Py.KeyError folder_path)
    | Some st =>
        match incr bucket (buckets st) with
        | inl e => inl e
        | inr folder_buckets =>
            let st' :=
              {| buckets := folder_buckets;
                 total_files := total_files st + 1;
                 total_duration :=
                   SFadd Py.prec Py.emax (total_duration st) dur |} in
            match incr bucket overall_buckets with
            | inl e => inl e
            | inr overall_buckets' =>
                inr (<[folder_path := st']> folder_stats, overall_buckets')
            end
        end
    end).

(** The loop over the subdirectories, given what a recursive call does. *)
Definition walk_subdirectories (walk : node → string → M unit)
    (folder_path : string) : list node → M unit :=
  fix each (subs : list node) : M unit :=
    match subs with
    | [] => mret ()
    | sub :: rest =>
        sub_name ← Py.lift (item "name" (name sub));
        walk sub (path_join folder_path sub_name);;
        each rest
    end.

Fixpoint walk (node : node) (folder_path : string) : M unit :=
  match node with
  | Node _ files subs =>
      init_folder folder_path;;
      Py.for_ files (λ _ f, count_file folder_path f) ();;
      walk_subdirectories walk folder_path subs
  end.

(** [process_dataset] creates the two dictionaries, walks the structure and
    prints the summary; it returns [(overall_buckets, folder_stats,
    total_files)]. *)
Definition summary (dataset_name : string)
    : M (list (string * Z) * gmap string stats * Z) :=
  Py.act (λ s : store, inr (s, s)) ≫= λ '(folder_stats, overall_buckets),
  let total_files := foldl Z.add 0 overall_buckets.*2 in
  Py.print Rule;;
  Py.print (InfoDataset dataset_name);;
  Py.print Rule;;
  Py.print (InfoTotalFiles total_files);;
  Py.print (InfoTotalFolders (size folder_stats));;
  Py.print DistributionHeader;;
  Py.for_ get_bucket_labels (λ _ label,
    count ← Py.lift (get label overall_buckets);
    Py.print (InfoBucket label count total_files)) ();;
  mret (overall_buckets, folder_stats, total_files).

Definition process_dataset (json_data : node) (dataset_name : string)
    : list event * (Py.exn + list (string * Z) * gmap string stats * Z) :=
  let run : M (list (string * Z) * gmap string stats * Z) :=
    root_path ← Py.lift (item "name" (name json_data));
    walk json_data root_path;;
    summary dataset_name in
  match run (∅, zero_counts) with
  | (log, inl e) => (log, inl e)
  | (log, inr (result, _)) => (log, inr result)
  end.

End Walk.

End audio_distribution.

(* ===================================================================== *)
(** * copy_samples.py                                                      *)
(* ===================================================================== *)

Module copy_samples.

(** One constructor per [print]; the two lines about a missing transcript
    are one event, and so are the three closing lines. *)
Inductive event : Set :=
| WarnSourceNotFound (src : string)
| InfoCopied (src dst : string)
| InfoLoaded (rows : nat) (csv_path : string)
| WarnJsonNotFound (src_audio src_json : string)
| InfoDone (copied_audio copied_json : Z).

(** The operating system the script talks to, over a type [FS] of file
    system states: path functions, [os.path.isfile], [os.makedirs(path,
    exist_ok=True)], [shutil.copy2], and [pd.read_csv(path, sep=sep)]. *)
Record OS (FS : Type) : Type := {
  sep : string;
  normpath : string → string;
  join : string → string → string;
  splitext : string → string * string;
  dirname : string → string;
  isfile : FS → string → bool;
  makedirs : string → FS → Py.exn + FS;
  copy2 : string → string → FS → Py.exn + FS;
  read_csv : string → string → Py.exn + Py.DataFrame;
  repr_float : spec_float → string;
}.

Arguments sep {FS}.
Arguments normpath {FS}.
Arguments join {FS}.
Arguments splitext {FS}.
Arguments dirname {FS}.
Arguments isfile {FS}.
Arguments makedirs {FS}.
Arguments copy2 {FS}.
Arguments read_csv {FS}.
Arguments repr_float {FS}.

Section Copy.

Context {FS : Type} (os : OS FS).

Local Abbreviation M := (Py.M FS event).

Definition ensure_dir (path : string) : M unit :=
  Py.update (makedirs os path).

Definition copy_file (src dst : string) : M bool :=
  Py.act (λ fs, inr (isfile os fs src, fs)) ≫= λ found : bool,
  if negb found then
    Py.print (WarnSourceNotFound src);;
    mret false
  else
    ensure_dir (dirname os dst);;
    Py.update (copy2 os src dst);;
    Py.print (InfoCopied src dst);;
    mret true.

(** [row[col]] as a string, for a column the frame is known to have. *)
Definition field (row : Py.Series) (col : string) : M string :=
  match Py.series_get row col with
  | Some v => mret (Py.str (repr_float os) v)
  | None => Py.raise (Py.KeyError col)
  end.

(** The paths one pass of the loop computes from the two fields. *)
Definition src_audio_of (full_path : string) : string := normpath os full_path.

Definition dest_audio_of (dest_root rel_path : string) : string :=
  let rel_norm :=
    Py.replace "\"%char (sep os) (Py.replace "/"%char (sep os) rel_path) in
  normpath os (join os dest_root rel_norm).

Definition json_of (audio : string) : string :=
  (splitext os audio).1 +:+ ".json".

(** One pass of the loop of [main], on the two counters. *)
Definition copy_row (dest_root : string) (copied : Z * Z) (row : Py.Series)
    : M (Z * Z) :=
  let '(copied_audio, copied_json) := copied in
  src_audio_raw ← field row "full_path";
  let src_audio := src_audio_of src_audio_raw in
  rel_raw ← field row "rel_path";
  let dest_audio := dest_audio_of dest_root rel_raw in
  copy_file src_audio dest_audio ≫= λ ok : bool,
  let copied_audio := if ok then copied_audio + 1 else copied_audio in
  let src_json := json_of src_audio in
  let dest_json := json_of dest_audio in
  Py.act (λ fs, inr (isfile os fs src_json, fs)) ≫= λ found : bool,
  if found then
    copy_file src_json dest_json ≫= λ ok : bool,
    mret (copied_audio, if ok then copied_json + 1 else copied_json)
  else
    Py.print (WarnJsonNotFound src_audio src_json);;
    mret (copied_audio, copied_json).

(** [main], after argument parsing, on the values of [--csv], [--dest] and
    [--sep]. *)
Definition main (csv_path dest_root sep_arg : string) : M unit :=
  let sep := if decide (sep_arg = "\t") then String "009"%char "" else sep_arg in
  df ← Py.lift (read_csv os csv_path sep);
  Py.print (InfoLoaded (length (Py.values df)) csv_path);;
  if negb (bool_decide ("rel_path" ∈ Py.columns df)
           && bool_decide ("full_path" ∈ Py.columns df)) then
    Py.raise (Py.ValueError "CSV is missing required columns")
  else
    copied ← Py.for_ (Py.iterrows df) (copy_row dest_root) (0, 0);
    Py.print (InfoDone copied.1 copied.2).

End Copy.

End copy_samples.

(* ===================================================================== *)
(** * Concrete inputs used by the examples                                 *)
(* ===================================================================== *)

Module Inputs.

(** The durations 0.5, 0.8 (nearest binary64), 7.0 and 7.5 seconds. *)
Definition d0_5 : Py.float := binary_normalize Py.prec Py.emax 1 (-1) false.
Definition d0_8 : Py.float := Py.truediv (Py.float_of_int 8) (Py.float_of_int 10).
Definition d7_0 : Py.float := Py.float_of_int 7.
Definition d7_5 : Py.float := binary_normalize Py.prec Py.emax 15 (-1) false.

(** *** A reference generator

    A linear congruential state; [sample] selects by the swap-with-last pool
    scheme: draw a position below the pool size, take that element, move the
    last pool element into the vacancy, shrink the pool. *)
Definition lcg_next (g : Z) : Z := (1103515245 * g + 12345) mod 2147483648.

Definition randbelow (g : Z) (n : nat) : nat * Z :=
  (Z.to_nat (g mod Z.of_nat n), lcg_next g).

Fixpoint pool_sample {A : Type} (k : nat) (pool : list A) (g : Z)
    : list A * Z :=
  match k with
  | O => ([], g)
  | S k' =>
      let n := length pool in
      let '(j, g') := randbelow g n in
      match pool !! j, last pool with
      | Some x, Some y =>
          let '(rest, g'') :=
            pool_sample k' (take (n - 1) (<[j := y]> pool)) g' in
          (x :: rest, g'')
      | _, _ => ([], g')
      end
  end.

#[global] Instance lcg : Py.Random Z := {|
  Py.Random_seed seed := seed mod 2147483648;
  Py.Random_sample A g population k := pool_sample k population g;
|}.

(** *** A small world: one folder [/data/podcastA] with three audio files
    of 0.5 s, 0.8 s and 7.0 s and one text file; several plans. *)

Definition plan_columns : list string :=
  ["Folder"; "Target Samples"; "Samples [0, 1)"; "Samples [5, 10)"].

Definition podcastA_row (n01 n510 : Z) : list Py.cell :=
  [Py.CStr "podcastA"; Py.CInt 3; Py.CInt n01; Py.CInt n510].

Definition ghost_row : list Py.cell :=
  [Py.CStr "ghost"; Py.CInt 2; Py.CInt 1; Py.CInt 1].

Definition plans (plan_csv : string) : Py.exn + Py.DataFrame :=
  if decide (plan_csv = "plan_all.csv") then
    inr {| Py.columns := plan_columns; Py.values := [podcastA_row 2 1] |}
  else if decide (plan_csv = "plan_one.csv") then
    inr {| Py.columns := plan_columns; Py.values := [podcastA_row 1 1] |}
  else if decide (plan_csv = "plan_twice.csv") then
    inr {| Py.columns := plan_columns;
           Py.values := [podcastA_row 2 1; podcastA_row 2 1] |}
  else if decide (plan_csv = "plan_ghost.csv") then
    inr {| Py.columns := plan_columns;
           Py.values := [ghost_row; podcastA_row 1 1] |}
  else if decide (plan_csv = "plan_legacy.csv") then
    inr {| Py.columns := ["group"; "Samples [0, 1)"];
           Py.values := [[Py.CStr "podcastA"; Py.CInt 1]] |}
  else if decide (plan_csv = "plan_nokey.csv") then
    inr {| Py.columns := ["Target Samples"]; Py.values := [[Py.CInt 1]] |}
  else inl (Py.OSError "No such file or directory").

(** [splitext]: the extension starts at the last dot of the name. *)
Fixpoint splitext_go (s : string) (acc : string) : string * string :=
  match s with
  | EmptyString => (String.rev acc, "")
  | String a s' =>
      let '(root, ext) := splitext_go s' (String a acc) in
      if bool_decide (ext = "") && bool_decide (a = "."%char)
      then (String.rev acc, s)
      else (root, ext)
  end.

Definition strip_prefix (pre s : string) : string :=
  if String.prefix pre s then String.substring (String.length pre)
                                (String.length s - String.length pre) s
  else s.

Definition world : Py.World := {|
  Py.path_join a b := a +:+ "/" +:+ b;
  Py.path_splitext p := splitext_go p "";
  Py.path_relpath p start := strip_prefix (start +:+ "/") p;
  Py.path_isdir p := bool_decide (p = "/data/podcastA");
  Py.walk p :=
    if decide (p = "/data/podcastA")
    then [("/data/podcastA", [], ["a.wav"; "b.WAV"; "c.flac"; "notes.txt"])]
    else [];
  Py.sf_info p :=
    if decide (p = "/data/podcastA/a.wav") then inr (8000, 16000)
    else if decide (p = "/data/podcastA/b.WAV") then inr (12800, 16000)
    else if decide (p = "/data/podcastA/c.flac") then inr (112000, 16000)
    else inl "Error opening file";
  Py.read_csv := plans;
  Py.repr_float _ := "nan";
  Py.round_float f _ := f;
|}.

(** *** A small disk for the copy utility: files are path → content, every
    directory can be created, copying a file onto itself is refused. *)

Fixpoint dirname_go (s acc : string) : option string :=
  match s with
  | EmptyString => None
  | String a s' =>
      match dirname_go s' (String a acc) with
      | Some d => Some d
      | None => if decide (a = "/"%char) then Some (String.rev acc) else None
      end
  end.

Definition posix : copy_samples.OS (gmap string string) := {|
  copy_samples.sep := "/";
  copy_samples.normpath p := p;
  copy_samples.join a b := a +:+ "/" +:+ b;
  copy_samples.splitext p := splitext_go p "";
  copy_samples.dirname p := default "" (dirname_go p "");
  copy_samples.isfile fs p := bool_decide (is_Some (fs !! p));
  copy_samples.makedirs p fs := inr fs;
  copy_samples.copy2 src dst fs :=
    match fs !! src with
    | Some content =>
        if decide (src = dst) then inl (Py.OSError "are the same file")
        else inr (<[dst := content]> fs)
    | None => inl (Py.OSError "No such file or directory")
    end;
  copy_samples.read_csv p sep :=
    if decide (p = "samples.csv") then
      inr {| Py.columns := ["folder"; "rel_path"; "full_path"];
             Py.values := [[Py.CStr "podcastA"; Py.CStr "podcastA/a.wav";
                            Py.CStr "/data/podcastA/a.wav"]] |}
    else inl (Py.OSError "No such file or directory");
  copy_samples.repr_float _ := "nan";
|}.


(** *** Two structure files for the report: a folder [create] with one clip
    of 0.5 s and a subfolder [spk1] with clips of 7.0 s and 7.5 s; and the
    same with a clip of infinite duration in the subfolder. *)
Definition clip (d : Py.float) : audio_distribution.flac_file :=
  {| audio_distribution.duration_seconds := Some d |}.

Definition structure : audio_distribution.node :=
  audio_distribution.Node (Some "create") [clip d0_5]
    [audio_distribution.Node (Some "spk1") [clip d7_0; clip d7_5] []].

Definition structure_inf : audio_distribution.node :=
  audio_distribution.Node (Some "create") [clip d0_5]
    [audio_distribution.Node (Some "spk1") [clip d7_0; clip Py.inf] []].

Definition slash_join (a b : string) : string := a +:+ "/" +:+ b.

(** The transcript of [a.wav] is on the disk, the audio file is not. *)
Definition disk : gmap string string :=
  {[ "/data/podcastA/a.json" := "{}" ]}.

Definition manifest_row_a : Py.Series :=
  [("folder", Py.CStr "podcastA"); ("rel_path", Py.CStr "podcastA/a.wav");
   ("full_path", Py.CStr "/data/podcastA/a.wav")].

(** The records the indexer builds for [podcastA] in that world, and the
    plan row requesting one clip of [[0, 1)] and one of [[5, 10)]. *)
Definition files : list sample_tts_files.FileInfo :=
  [ {| sample_tts_files.folder := "podcastA";
       sample_tts_files.path := "/data/podcastA/a.wav";
       sample_tts_files.rel_path := "podcastA/a.wav";
       sample_tts_files.duration := d0_5;
       sample_tts_files.bucket := Some "[0, 1)" |};
    {| sample_tts_files.folder := "podcastA";
       sample_tts_files.path := "/data/podcastA/b.WAV";
       sample_tts_files.rel_path := "podcastA/b.WAV";
       sample_tts_files.duration := d0_8;
       sample_tts_files.bucket := Some "[0, 1)" |};
    {| sample_tts_files.folder := "podcastA";
       sample_tts_files.path := "/data/podcastA/c.flac";
       sample_tts_files.rel_path := "podcastA/c.flac";
       sample_tts_files.duration := d7_0;
       sample_tts_files.bucket := Some "[5, 10)" |} ].

Definition row_one : Py.Series := zip plan_columns (podcastA_row 1 1).
Definition row_all : Py.Series := zip plan_columns (podcastA_row 2 1).

End Inputs.

(* ===================================================================== *)
(** * Vocabulary of the specification                                      *)
(* ===================================================================== *)

Module Spec.

Import sample_tts_files.

(** The column of the plan holding the request for a bucket. *)
Definition samples_column (bucket_name : string) : string :=
  "Samples " +:+ bucket_name.

(** The request a plan row makes for a bucket, as the specification words
    it: a positive count, or no request when the column is absent, the cell
    is empty (NaN), or the count is not positive. *)
Definition request_of (row : Py.Series) (bucket_name : string)
    : option (string * Z) :=
  match Py.series_get row (samples_column bucket_name) with
  | Some v =>
      if Py.isna v then None
      else match Py.int v with
           | inr n => if 0 <? n then Some (bucket_name, n) else None
           | inl _ => None
           end
  | None => None
  end.

(** A cell [int(...)] accepts, or an empty one. *)
Definition convertible (v : Py.cell) : Prop :=
  Py.isna v = true ∨ ∃ n, Py.int v = inr n.

(** The files of a folder and bucket among the indexed ones, in index order. *)
Definition available_in (files : list FileInfo) (folder_key bucket_name : string)
    : list FileInfo :=
  filter (λ fi, folder fi = folder_key ∧ bucket fi = Some bucket_name) files.

(** [mapping.get(f, {}).get(b, [])]. *)
Definition files_at (mapping : gmap string (gmap string (list FileInfo)))
    (f b : string) : list FileInfo :=
  default [] (default ∅ (mapping !! f) !! b).

(** The files under each bucket of the dictionary carry that bucket. *)
Definition bucketed (folder_buckets : gmap string (list FileInfo)) : Prop :=
  ∀ b fi, fi ∈ default [] (folder_buckets !! b) → bucket fi = Some b.

(** The part of a selection that belongs to a bucket. *)
Definition of_bucket (bucket_name : string) (selected : list FileInfo)
    : list FileInfo :=
  filter (λ fi, bucket fi = Some bucket_name) selected.

(** The key of the final deduplication, on a file record and on a row of
    the manifest. *)
Definition key (fi : FileInfo) : string * string := (folder fi, path fi).

Definition row_key (r : manifest_row) : string * string :=
  (row_folder r, row_full_path r).

(** *** The traversal the specification prescribes

    One generator, threaded through the plan rows in plan order and, within
    a row, through the buckets in the order of the eight labels. *)

Section Traversal.

Context {RNG : Type} `{!Py.Random RNG}.

(** What a requested bucket contributes: every available file when there
    are no more than requested (none when none is available), the generator
    untouched; else a draw of exactly the requested number. *)
Definition choose (rng : RNG) (available : list FileInfo) (n_req : Z)
    : list FileInfo * RNG :=
  if Z.of_nat (length available) <=? n_req then (available, rng)
  else Py.Random_sample rng available (Z.to_nat n_req).

(** What is printed for it. *)
Definition bucket_log (folder bucket_name : string) (n_req : Z)
    (available : list FileInfo) : list event :=
  match available with
  | [] => [WarnFoundNoFiles folder bucket_name n_req]
  | _ => if Z.of_nat (length available) <=? n_req
         then [InfoTakingAll folder bucket_name n_req (length available)]
         else []
  end.

Fixpoint select_buckets (rng : RNG)
    (folder_buckets : gmap string (list FileInfo))
    (requested : list (string * Z)) : list FileInfo * RNG :=
  match requested with
  | [] => ([], rng)
  | (bucket_name, n_req) :: rest =>
      let '(chosen, rng1) :=
        choose rng (default [] (folder_buckets !! bucket_name)) n_req in
      let '(more, rng2) := select_buckets rng1 folder_buckets rest in
      (chosen ++ more, rng2)
  end.

(** The selection of a folder: its requests, bucket by bucket in label
    order. *)
Definition select_folder (rng : RNG) (row : Py.Series)
    (folder_buckets : gmap string (list FileInfo)) : list FileInfo * RNG :=
  select_buckets rng folder_buckets (omap (request_of row) (BUCKET_DEFS.*1)).

(** The selection of a plan row: skipped when its folder has no bucketed
    file. *)
Definition select_row (w : Py.World) (rng : RNG)
    (folder_bucket_map : gmap string (gmap string (list FileInfo)))
    (row : Py.Series) : list FileInfo * RNG :=
  let folder_key :=
    default "" (Py.str (Py.repr_float w) <$> Py.series_get row "Folder") in
  let folder_buckets := default ∅ (folder_bucket_map !! folder_key) in
  if bool_decide (folder_buckets = ∅) then ([], rng)
  else select_folder rng row folder_buckets.

(** The selection of a plan: its rows in plan order. *)
Fixpoint select_plan (w : Py.World) (rng : RNG)
    (folder_bucket_map : gmap string (gmap string (list FileInfo)))
    (rows : list Py.Series) : list FileInfo * RNG :=
  match rows with
  | [] => ([], rng)
  | row :: rest =>
      let '(selected, rng1) := select_row w rng folder_bucket_map row in
      let '(more, rng2) := select_plan w rng1 folder_bucket_map rest in
      (selected ++ more, rng2)
  end.

End Traversal.

(** *** Vocabulary of the index, the copy utility and the generator *)

(** The audio files below a folder, in the order [os.walk] lists them. *)
Definition audio_paths (w : Py.World) (folder_path : string) : list string :=
  concat ((λ entry : string * list string * list string,
             filter (λ full, is_audio_file w full = true)
                    (Py.path_join w entry.1.1 <$> entry.2))
          <$> Py.walk w folder_path).

(** The duration [get_duration_seconds] returns for a file, if any. *)
Definition duration_of (w : Py.World) (f : string) : option Py.float :=
  match (get_duration_seconds (S := unit) w f ()).2 with
  | inr (dur, _) => dur
  | inl _ => None
  end.

(** The record [build_file_index] appends for a file of a folder whose
    duration was read. *)
Definition record_of (w : Py.World) (audio_root folder_key f : string)
    (dur : Py.float) : FileInfo :=
  {| folder := folder_key; path := f;
     rel_path := Py.path_relpath w f audio_root;
     duration := dur; bucket := assign_bucket dur |}.

(** The records of a folder key: one for each audio file below the folder
    whose duration can be read, in the order the files are found; none when
    the folder is not a directory. *)
Definition folder_records (w : Py.World) (audio_root folder_key : string)
    : list FileInfo :=
  if Py.path_isdir w (Py.path_join w audio_root folder_key) then
    omap (λ f, record_of w audio_root folder_key f <$> duration_of w f)
         (audio_paths w (Py.path_join w audio_root folder_key))
  else [].

(** The folder key of a plan row: [str(row["Folder"])]. *)
Definition folder_of (w : Py.World) (row : Py.Series) : option string :=
  Py.str (Py.repr_float w) <$> Py.series_get row "Folder".

(** The number of copies a log of the copy utility reports. *)
Definition is_copied (e : copy_samples.event) : bool :=
  match e with
  | copy_samples.InfoCopied _ _ => true
  | _ => false
  end.

Definition copies (log : list copy_samples.event) : Z :=
  Z.of_nat (length (filter (λ e, is_copied e = true) log)).

(** A relative path with each slash and each backslash replaced by a
    separator. *)
Fixpoint with_separator (sep : string) (rel_path : string) : string :=
  match rel_path with
  | EmptyString => EmptyString
  | String a rest =>
      if bool_decide (a = "/"%char ∨ a = "\"%char)
      then sep +:+ with_separator sep rest
      else String a (with_separator sep rest)
  end.

(** The characters of a string. *)
Fixpoint chars (s : string) : list ascii :=
  match s with
  | EmptyString => []
  | String a s' => a :: chars s'
  end.

(** *** Vocabulary of the distribution report *)

(** The files of a structure in the order [walk] meets them, and the
    directories below a node. *)
Fixpoint tree_files (n : audio_distribution.node)
    : list audio_distribution.flac_file :=
  match n with
  | audio_distribution.Node _ files subs =>
      files ++ concat (tree_files <$> subs)
  end.

Fixpoint descendants (n : audio_distribution.node)
    : list audio_distribution.node :=
  match n with
  | audio_distribution.Node _ _ subs =>
      concat ((λ sub, sub :: descendants sub) <$> subs)
  end.

(** The folders [walk] visits from a node reached under [path], in order,
    each with its path and its own files. *)
Fixpoint folders (path_join : string → string → string)
    (n : audio_distribution.node) (path : string)
    : list (string * list audio_distribution.flac_file) :=
  match n with
  | audio_distribution.Node _ files subs =>
      (path, files)
      :: concat ((λ sub, folders path_join sub
                           (path_join path
                              (default "" (audio_distribution.name sub))))
                 <$> subs)
  end.

(** The own files of the folders visited under a path. *)
Definition own_files (path : string)
    (visited : list (string * list audio_distribution.flac_file))
    : list audio_distribution.flac_file :=
  concat (filter (λ entry, entry.1 = path) visited).*2.

Definition durations (files : list audio_distribution.flac_file)
    : list Py.float :=
  omap audio_distribution.duration_seconds files.

(** A duration the report can classify: [0 <= d < float('inf')]. *)
Definition bucketable (d : Py.float) : bool :=
  Py.le (Py.float_of_int 0) d && Py.lt d Py.inf.

(** The number of durations the report puts under a label. *)
Definition count_in (label : string) (ds : list Py.float) : Z :=
  Z.of_nat (length (filter (λ d, audio_distribution.assign_bucket d = label) ds)).

(** A dictionary of counts, and the statistics of a folder, after a list
    of durations has been counted. *)
Definition bump (counts : list (string * Z)) (ds : list Py.float)
    : list (string * Z) :=
  (λ item, (item.1, item.2 + count_in item.1 ds)) <$> counts.

Definition tally (st : audio_distribution.stats) (ds : list Py.float)
    : audio_distribution.stats :=
  {| audio_distribution.buckets := bump (audio_distribution.buckets st) ds;
     audio_distribution.total_files :=
       audio_distribution.total_files st + Z.of_nat (length ds);
     audio_distribution.total_duration :=
       foldl (SFadd Py.prec Py.emax)
             (audio_distribution.total_duration st) ds |}.

Definition zero_stats : audio_distribution.stats :=
  {| audio_distribution.buckets := audio_distribution.zero_counts;
     audio_distribution.total_files := 0;
     audio_distribution.total_duration := S754_zero false |}.

(** What [walk] has done to [folder_stats] once it has visited a folder. *)
Definition visit (folder_stats : gmap string audio_distribution.stats)
    (entry : string * list audio_distribution.flac_file)
    : gmap string audio_distribution.stats :=
  <[entry.1 := tally (default zero_stats (folder_stats !! entry.1))
                     (durations entry.2)]> folder_stats.

(** Both dictionaries have the labels of the report as the keys of their
    counts. *)
Definition labelled (folder_stats : gmap string audio_distribution.stats)
    (overall_buckets : list (string * Z)) : Prop :=
  overall_buckets.*1 = audio_distribution.get_bucket_labels ∧
  ∀ p st, folder_stats !! p = Some st →
          (audio_distribution.buckets st).*1
          = audio_distribution.get_bucket_labels.

(** A computation that neither reads nor writes the state: from any state
    it prints the same lines and returns the same value or raises the same
    exception, leaving the state it was started in. *)
Definition stateless {S W A : Type} (m : Py.M S W A) : Prop :=
  ∀ s s', m s' = ((m s).1,
                  match (m s).2 with
                  | inl e => inl e
                  | inr (a, _) => inr (a, s')
                  end).

(** The keys of a list in the order of their first occurrence. *)
Fixpoint first_occurrences {K : Type} `{EqDecision K} (keys : list K)
    : list K :=
  match keys with
  | [] => []
  | k :: rest => k :: filter (λ k', k' ≠ k) (first_occurrences rest)
  end.

End Spec.

(* ===================================================================== *)
(** * Theorems                                                             *)
(* ===================================================================== *)

(** ** Order facts on floats *)

Section FloatOrder.

Implicit Types a b c d : Py.float.

Lemma SFcompare_sym a b : SFcompare b a = CompOpp <$> SFcompare a b.
Proof.
  destruct a as [[]|[]| |[] m1 e1], b as [[]|[]| |[] m2 e2]; try reflexivity;
    simpl; rewrite (Z.compare_antisym e1 e2);
    change (Pos.compare_cont Eq m2 m1) with (m2 ?= m1)%positive;
    change (Pos.compare_cont Eq m1 m2) with (m1 ?= m2)%positive;
    rewrite (Pos.compare_antisym m1 m2);
    destruct (e1 ?= e2); simpl; try reflexivity;
    destruct (m1 ?= m2)%positive; reflexivity.
Qed.

(** On two comparable floats, [b <= a] is the negation of [a < b]. *)
Lemma le_negb_lt a b :
  is_Some (SFcompare a b) → Py.le b a = negb (Py.lt a b).
Proof.
  intros [c Hc]. unfold Py.le, Py.lt, SFleb, SFltb.
  rewrite (SFcompare_sym a b), Hc. by destruct c.
Qed.

Lemma le_comparable a b : Py.le a b = true → is_Some (SFcompare a b).
Proof. unfold Py.le, SFleb. destruct (SFcompare a b); [eauto | discriminate]. Qed.

Lemma comparable_sym a b : is_Some (SFcompare a b) → is_Some (SFcompare b a).
Proof. rewrite (SFcompare_sym a b). intros [c ->]. simpl. eauto. Qed.

(** A float comparable with one non-NaN float is comparable with any other. *)
Lemma comparable_other a b c :
  is_Some (SFcompare a b) → is_Some (SFcompare c c) → is_Some (SFcompare a c).
Proof.
  destruct a as [|[]| |[]], b as [|[]| |[]], c as [|[]| |[]]; simpl;
    intros [? ?] [? ?]; try discriminate; eauto.
Qed.

Local Ltac cmp_cases :=
  repeat match goal with
  | |- context [Pos.compare_cont Eq ?p ?q] =>
      change (Pos.compare_cont Eq p q) with (p ?= q)%positive
  | H : context [Pos.compare_cont Eq ?p ?q] |- _ =>
      change (Pos.compare_cont Eq p q) with (p ?= q)%positive in H
  end;
  repeat match goal with
  | H : context [(?x ?= ?y)%Z] |- _ =>
      destruct (Z.compare_spec x y); simpl in H; try discriminate H
  | H : context [(?p ?= ?q)%positive] |- _ =>
      destruct (Pos.compare_spec p q); simpl in H; try discriminate H
  | |- context [(?x ?= ?y)%Z] =>
      destruct (Z.compare_spec x y); simpl; try lia
  | |- context [(?p ?= ?q)%positive] =>
      destruct (Pos.compare_spec p q); simpl; try lia
  end;
  try reflexivity; try lia.

(** [a < b] and [b <= c] give [a < c]: the order of [SFcompare] (sign, then
    exponent, then mantissa) is transitive on all of [spec_float]. *)
Lemma lt_le_trans a b c :
  Py.lt a b = true → Py.le b c = true → Py.lt a c = true.
Proof.
  unfold Py.lt, Py.le, SFltb, SFleb.
  destruct a as [[]|[]| |[] m1 e1], b as [[]|[]| |[] m2 e2],
    c as [[]|[]| |[] m3 e3]; simpl; intros H1 H2;
    try discriminate; try reflexivity; cmp_cases.
Qed.

End FloatOrder.

(** ** The bucket classifiers *)

Section Buckets.

Implicit Types d : Py.float.

Abbreviation F := Py.float_of_int.

(** A duration [d >= 0] is comparable with every bucket bound, so each test
    [t <= d] is the negation of [d < t]. *)
Lemma bound_le_negb_lt d (t : Z) :
  Py.ge d (F 0) = true → is_Some (SFcompare (F t) (F t)) →
  Py.le (F t) d = negb (Py.lt d (F t)).
Proof.
  intros Hd Ht. apply le_negb_lt, comparable_other with (F 0); [|done].
  by apply comparable_sym, le_comparable.
Qed.

(** Splits on the seven booleans [d < 1], [d < 5], ..., [d < 30] for a
    duration [d >= 0], keeping only the eight monotone combinations, and
    records the value of every test [t <= d] and [d < t] of the tables. *)
Local Ltac lt_above E t :=
  let E' := fresh "E" in
  pose proof (lt_le_trans _ _ (F t) E eq_refl) as E'.

Local Ltac le_bound d Hd t :=
  let L := fresh "L" in
  pose proof (bound_le_negb_lt d t Hd ltac:(vm_compute; eauto)) as L.

Local Ltac split_on_bounds d Hd :=
  le_bound d Hd 1; le_bound d Hd 5; le_bound d Hd 10; le_bound d Hd 15;
  le_bound d Hd 20; le_bound d Hd 25; le_bound d Hd 30;
  destruct (Py.lt d (F 1)) eqn:E1;
    [ lt_above E1 5; lt_above E1 10; lt_above E1 15; lt_above E1 20;
      lt_above E1 25; lt_above E1 30
    | destruct (Py.lt d (F 5)) eqn:E5;
      [ lt_above E5 10; lt_above E5 15; lt_above E5 20; lt_above E5 25;
        lt_above E5 30
      | destruct (Py.lt d (F 10)) eqn:E10;
        [ lt_above E10 15; lt_above E10 20; lt_above E10 25; lt_above E10 30
        | destruct (Py.lt d (F 15)) eqn:E15;
          [ lt_above E15 20; lt_above E15 25; lt_above E15 30
          | destruct (Py.lt d (F 20)) eqn:E20;
            [ lt_above E20 25; lt_above E20 30
            | destruct (Py.lt d (F 25)) eqn:E25;
              [ lt_above E25 30
              | destruct (Py.lt d (F 30)) eqn:E30 ] ] ] ] ] ];
  repeat match goal with
  | L : Py.le _ d = negb (Py.lt d ?t), E : Py.lt d ?t = _ |- _ =>
      rewrite E in L; change (negb false) with true in L;
      change (negb true) with false in L
  end.

Local Ltac use_bounds :=
  repeat match goal with
  | E : Py.lt _ _ = _ |- _ => rewrite !E
  | L : Py.le _ _ = _ |- _ => rewrite !L
  end.

(** C1. For every duration [d >= 0] the sampler's [assign_bucket] returns a
    label, never [None]; that label is one of the eight of [BUCKET_DEFS],
    and the range of a table entry contains [d] exactly when the entry
    carries the returned label, so the eight ranges cover [d >= 0] with no
    gap and no overlap.  Each boundary 1, 5, 10, 15, 20, 25, 30 is classified
    into the bucket that starts there. *)
Theorem assign_bucket_partition d :
  Py.ge d (F 0) = true →
  (∃ name,
      sample_tts_files.assign_bucket d = Some name ∧
      name ∈ sample_tts_files.BUCKET_DEFS.*1 ∧
      ∀ item, item ∈ sample_tts_files.BUCKET_DEFS →
        sample_tts_files.bucket_matches item.2.1 item.2.2 d = true
        ↔ item.1 = name) ∧
  length sample_tts_files.BUCKET_DEFS = 8%nat ∧
  NoDup sample_tts_files.BUCKET_DEFS.*1 ∧
  sample_tts_files.assign_bucket (F 1) = Some "[1, 5)" ∧
  sample_tts_files.assign_bucket (F 5) = Some "[5, 10)" ∧
  sample_tts_files.assign_bucket (F 10) = Some "[10, 15)" ∧
  sample_tts_files.assign_bucket (F 15) = Some "[15, 20)" ∧
  sample_tts_files.assign_bucket (F 20) = Some "[20, 25)" ∧
  sample_tts_files.assign_bucket (F 25) = Some "[25, 30)" ∧
  sample_tts_files.assign_bucket (F 30) = Some "[30+)".
Proof.
  intros Hd. split; [| split; [reflexivity|]; split;
    [by apply (bool_decide_unpack _); vm_compute | by vm_compute]].
  assert (H0 : Py.le (F 0) d = true) by exact Hd.
  split_on_bounds d Hd; (eexists; (split; [| split]);
    [ unfold sample_tts_files.assign_bucket, sample_tts_files.BUCKET_DEFS,
        sample_tts_files.assign_bucket_in, sample_tts_files.bucket_matches,
        Py.ge; use_bounds; reflexivity
    | unfold sample_tts_files.BUCKET_DEFS; simpl; rewrite !elem_of_cons; tauto
    | apply Forall_forall; unfold sample_tts_files.BUCKET_DEFS;
      repeat apply Forall_cons_2; try apply Forall_nil_2;
      unfold sample_tts_files.bucket_matches, Py.ge, fst, snd;
      use_bounds; simpl; split; congruence ]).
Qed.

(** The theorem above at the duration 7.5 s. *)
Lemma assign_bucket_partition_witness :
  Py.ge Inputs.d7_5 (F 0) = true ∧
  sample_tts_files.assign_bucket Inputs.d7_5 = Some "[5, 10)" ∧
  ∀ item, item ∈ sample_tts_files.BUCKET_DEFS →
    sample_tts_files.bucket_matches item.2.1 item.2.2 Inputs.d7_5 = true
    ↔ item.1 = "[5, 10)".
Proof.
  split; [reflexivity|].
  destruct (assign_bucket_partition Inputs.d7_5 eq_refl)
    as [(name & Hname & _ & Hranges) _].
  assert (name = "[5, 10)") as -> by (vm_compute in Hname; congruence).
  split; [exact Hname | exact Hranges].
Defined.

(** C8, as amended. For every finite duration [d >= 0] (that is, [d >= 0] and
    [d < float('inf')]) the classifier of the distribution report and the
    classifier of the sampler return the same label string. *)
Theorem assign_bucket_agree_finite d :
  Py.ge d (F 0) = true →
  Py.lt d Py.inf = true →
  sample_tts_files.assign_bucket d = Some (audio_distribution.assign_bucket d).
Proof.
  intros Hd Hfin.
  assert (H0 : Py.le (F 0) d = true) by exact Hd.
  unfold sample_tts_files.assign_bucket, sample_tts_files.BUCKET_DEFS,
    sample_tts_files.assign_bucket_in, sample_tts_files.bucket_matches,
    audio_distribution.assign_bucket, audio_distribution.BUCKETS,
    audio_distribution.assign_bucket_in, audio_distribution.bound_float, Py.ge.
  change (Py.lt d Py.inf) with (SFltb d (S754_infinity false)) in Hfin.
  change (Py.lt d Py.inf) with (SFltb d (S754_infinity false)).
  rewrite Hfin.
  split_on_bounds d Hd; use_bounds; reflexivity.
Qed.

Lemma assign_bucket_agree_finite_witness :
  Py.ge Inputs.d7_5 (F 0) = true ∧ Py.lt Inputs.d7_5 Py.inf = true ∧
  sample_tts_files.assign_bucket Inputs.d7_5
  = Some (audio_distribution.assign_bucket Inputs.d7_5).
Proof.
  split; [reflexivity|]. split; [reflexivity|].
  exact (assign_bucket_agree_finite Inputs.d7_5 eq_refl eq_refl).
Defined.

(** C8 as stated fails at [d = float('inf')], which satisfies [d >= 0]: the
    sampler tests [d >= 30.0] for its last bucket and answers ["[30+)"],
    the report tests [30 <= d < float('inf')] and falls through to
    ["UNBUCKETED"]. *)
Lemma assign_bucket_disagree_inf :
  Py.ge Py.inf (F 0) = true ∧
  sample_tts_files.assign_bucket Py.inf = Some "[30+)" ∧
  audio_distribution.assign_bucket Py.inf = "UNBUCKETED" ∧
  ¬ (∀ d, Py.ge d (F 0) = true →
       sample_tts_files.assign_bucket d
       = Some (audio_distribution.assign_bucket d)).
Proof.
  repeat split; try reflexivity.
  intros H. specialize (H Py.inf eq_refl). vm_compute in H. discriminate H.
Qed.

End Buckets.

(** ** The effect monad *)

Section MonadFacts.

Context {S W : Type}.

Implicit Types s : S.

Lemma run_bind {A B} (m : Py.M S W A) (f : A → Py.M S W B) s :
  (m ≫= f) s =
  match m s with
  | (w, inl e) => (w, inl e)
  | (w, inr (a, s')) => let '(w', r) := f a s' in (w ++ w', r)
  end.
Proof. reflexivity. Qed.

Lemma run_bind_ok {A B} (m : Py.M S W A) (f : A → Py.M S W B) s w a s' :
  m s = (w, inr (a, s')) →
  (m ≫= f) s = (w ++ (f a s').1, (f a s').2).
Proof. intros E. rewrite run_bind, E. by destruct (f a s'). Qed.

Lemma run_bind_err {A B} (m : Py.M S W A) (f : A → Py.M S W B) s w e :
  m s = (w, inl e) → (m ≫= f) s = (w, inl e).
Proof. intros E. by rewrite run_bind, E. Qed.

Lemma run_ret {A} (a : A) s : (mret a : Py.M S W A) s = ([], inr (a, s)).
Proof. reflexivity. Qed.


End MonadFacts.

(** ** Rows and insertion-ordered dictionaries *)

Section Containers.

Lemma series_has_get (row : Py.Series) (col : string) :
  Py.series_has row col = true ↔ is_Some (Py.series_get row col).
Proof.
  unfold Py.series_has. rewrite bool_decide_eq_true.
  induction row as [|[c v] row IH]; simpl.
  - rewrite elem_of_nil. split; [done | by intros [? ?]].
  - rewrite elem_of_cons. destruct (decide (c = col)) as [->|Hne].
    + split; eauto.
    + rewrite <-IH. split; [intros [?|?]; [congruence | done] | eauto].
Qed.

Lemma series_has_false (row : Py.Series) (col : string) :
  Py.series_has row col = false ↔ Py.series_get row col = None.
Proof.
  rewrite <-not_true_iff_false, series_has_get, eq_None_not_Some. done.
Qed.

Lemma dict_set_fresh {K V} `{EqDecision K} (k : K) (v : V) (d : list (K * V)) :
  k ∉ d.*1 → Py.dict_set k v d = d ++ [(k, v)].
Proof.
  induction d as [|[k' v'] d IH]; simpl; [done|].
  rewrite not_elem_of_cons. intros [Hne Hnin].
  destruct (decide (k' = k)); [congruence|]. by rewrite IH.
Qed.

Lemma dict_set_keys_present {K V} `{EqDecision K} (k : K) (v : V)
    (d : list (K * V)) :
  k ∈ d.*1 → (Py.dict_set k v d).*1 = d.*1.
Proof.
  induction d as [|[k' v'] d IH]; simpl; [by rewrite elem_of_nil|].
  rewrite elem_of_cons. intros Hin.
  destruct (decide (k' = k)) as [->|Hne]; [done|].
  simpl. f_equal. apply IH. by destruct Hin.
Qed.

End Containers.

(** ** Loading the plan *)

Section Plan.

Context {S : Type} (w : Py.World).

Implicit Types s : S.

(** C7. Once [pd.read_csv] has produced a frame, [load_sampling_plan] raises
    exactly when the frame has neither a ["Folder"] nor a ["group"] column;
    with ["group"] and no ["Folder"] it returns the frame with ["group"]
    renamed to ["Folder"]; and whatever it returns has a ["Folder"] column. *)
Theorem load_sampling_plan_folder_column (plan_csv : string)
    (df : Py.DataFrame) s :
  Py.read_csv w plan_csv = inr df →
  ((∃ log e, sample_tts_files.load_sampling_plan w plan_csv s = (log, inl e))
   ↔ ("Folder" ∉ Py.columns df) ∧ ("group" ∉ Py.columns df)) ∧
  ("group" ∈ Py.columns df → "Folder" ∉ Py.columns df →
   sample_tts_files.load_sampling_plan w plan_csv s
   = ([], inr (Py.rename "group" "Folder" df, s))) ∧
  (∀ log df' s',
     sample_tts_files.load_sampling_plan w plan_csv s = (log, inr (df', s')) →
     "Folder" ∈ Py.columns df').
Proof.
  intros Hread. unfold sample_tts_files.load_sampling_plan.
  rewrite run_bind, Hread. simpl.
  assert (Hren : "group" ∈ Py.columns df →
                 "Folder" ∈ Py.columns (Py.rename "group" "Folder" df)).
  { intros Hg. simpl. apply list_elem_of_fmap. exists "group".
    by rewrite decide_True. }
  destruct (decide ("group" ∈ Py.columns df)) as [Hg|Hg],
    (decide ("Folder" ∈ Py.columns df)) as [Hf|Hf];
    rewrite ?(bool_decide_eq_true_2 _ Hg), ?(bool_decide_eq_false_2 _ Hg),
      ?(bool_decide_eq_true_2 _ Hf), ?(bool_decide_eq_false_2 _ Hf); simpl;
    try (pose proof (Hren Hg) as Hr; simpl in Hr;
         rewrite ?(bool_decide_eq_true_2 _ Hr); simpl).
  - split; [split; [by intros (? & ? & ?) | tauto]|].
    split; [tauto|]. by intros ??? [= _ <- _].
  - split; [split; [by intros (? & ? & ?) | tauto]|].
    split; [done|]. by intros ??? [= _ <- _].
  - split; [split; [by intros (? & ? & ?) | tauto]|].
    split; [tauto|]. by intros ??? [= _ <- _].
  - split; [split; [done | eauto]|]. split; [tauto|]. by intros ??? [=].
Qed.

End Plan.

(** The theorem above on the legacy plan of the sample world, whose columns
    are ["group"] and ["Samples [0, 1)"]. *)
Lemma load_sampling_plan_folder_column_witness :
  sample_tts_files.load_sampling_plan Inputs.world "plan_legacy.csv" ()
  = ([], inr ({| Py.columns := ["Folder"; "Samples [0, 1)"];
                 Py.values := [[Py.CStr "podcastA"; Py.CInt 1]] |}, ())).
Proof.
  destruct (load_sampling_plan_folder_column Inputs.world "plan_legacy.csv"
              {| Py.columns := ["group"; "Samples [0, 1)"];
                 Py.values := [[Py.CStr "podcastA"; Py.CInt 1]] |} ()
              eq_refl) as (_ & Hrename & _).
  rewrite Hrename; [reflexivity | |].
  - apply (bool_decide_unpack _). by vm_compute.
  - apply (bool_decide_unpack _). by vm_compute.
Defined.

(** ** The requests of a plan row *)

Section Requests.

Context {S : Type}.

Implicit Types (s : S) (row : Py.Series) (v : Py.cell).

Local Abbreviation labels := (sample_tts_files.BUCKET_DEFS.*1).

Lemma request_bucket_run row requested b s :
  b ∉ requested.*1 →
  (∀ v, Py.series_get row (Spec.samples_column b) = Some v →
        Spec.convertible v) →
  sample_tts_files.request_bucket row requested b s
  = ([], inr (requested ++ option_list (Spec.request_of row b), s)).
Proof.
  intros Hfresh Hconv.
  unfold sample_tts_files.request_bucket, Spec.request_of.
  change ("Samples " +:+ b) with (Spec.samples_column b).
  destruct (Py.series_has row (Spec.samples_column b)) eqn:Hhas.
  - apply series_has_get in Hhas as [v Hv]. rewrite Hv.
    destruct (Hconv v Hv) as [Hna|[n Hn]]; [| destruct (Py.isna v) eqn:Hna].
    + rewrite Hna. simpl. by rewrite app_nil_r.
    + simpl. by rewrite app_nil_r.
    + rewrite Hn. simpl. rewrite run_bind. simpl.
      destruct (0 <? n); simpl; [| by rewrite app_nil_r].
      by rewrite dict_set_fresh.
  - apply series_has_false in Hhas. rewrite Hhas. simpl.
    by rewrite app_nil_r.
Qed.

Lemma request_loop_run row (ls : list string) requested s :
  NoDup ls → (∀ b, b ∈ ls → b ∉ requested.*1) →
  (∀ b v, b ∈ ls → Py.series_get row (Spec.samples_column b) = Some v →
          Spec.convertible v) →
  Py.for_ ls (sample_tts_files.request_bucket row) requested s
  = ([], inr (requested ++ omap (Spec.request_of row) ls, s)).
Proof.
  revert requested. induction ls as [|b ls IH]; intros requested Hnd Hfresh Hconv.
  - simpl. by rewrite app_nil_r.
  - apply NoDup_cons in Hnd as [Hb Hnd]. simpl Py.for_.
    erewrite run_bind_ok; last first.
    { apply request_bucket_run; [apply Hfresh; left | intros v; apply Hconv; left]. }
    rewrite IH; [| done | | intros b' v' ?; apply Hconv; by right].
    + simpl. f_equal. f_equal. f_equal. rewrite <-app_assoc. f_equal.
      by destruct (Spec.request_of row b).
    + intros b' Hb'. rewrite fmap_app, elem_of_app. intros [Hin|Hin].
      * by apply (Hfresh b'); [right|].
      * unfold Spec.request_of in Hin.
        destruct (Py.series_get row (Spec.samples_column b)) as [v|];
          [| by apply elem_of_nil in Hin].
        destruct (Py.isna v); [by apply elem_of_nil in Hin|].
        destruct (Py.int v) as [|n]; [by apply elem_of_nil in Hin|].
        destruct (0 <? n); [| by apply elem_of_nil in Hin].
        apply list_elem_of_singleton in Hin. simpl in Hin. by subst.
Qed.

Lemma request_loop_raises row (ls : list string) requested s :
  (∃ b v e, b ∈ ls ∧ Py.series_get row (Spec.samples_column b) = Some v ∧
            Py.isna v = false ∧ Py.int v = inl e) →
  ∃ e, Py.for_ ls (sample_tts_files.request_bucket row) requested s
       = ([], inl e).
Proof.
  revert requested. induction ls as [|b0 ls IH]; intros requested
    (b & v & e & Hin & Hv & Hna & Hint).
  { by apply elem_of_nil in Hin. }
  simpl Py.for_. rewrite run_bind.
  unfold sample_tts_files.request_bucket at 1.
  change ("Samples " +:+ b0) with (Spec.samples_column b0).
  assert (Hrest : b ≠ b0 → ∀ requested',
    ∃ e', (let '(w', r) :=
             Py.for_ ls (sample_tts_files.request_bucket row) requested' s
           in ([] ++ w', r)) = ([], inl e')).
  { intros Hne requested'. destruct (IH requested') as [e' He'].
    - exists b, v, e. apply elem_of_cons in Hin as [?|?]; [done | eauto].
    - rewrite He'. eauto. }
  destruct (decide (b = b0)) as [->|Hne].
  - rewrite (proj2 (series_has_get row _)) by eauto. rewrite Hv, Hna. simpl.
    rewrite Hint. simpl. eauto.
  - destruct (Py.series_has row (Spec.samples_column b0)) eqn:Hhas;
      [| by apply Hrest].
    apply series_has_get in Hhas as [v0 Hv0]. rewrite Hv0.
    destruct (Py.isna v0); simpl; [by apply Hrest|].
    destruct (Py.int v0) as [e0|n0]; simpl; [eauto|].
    rewrite run_bind. simpl. destruct (0 <? n0); simpl; by apply Hrest.
Qed.

Lemma requested_counts_run row s :
  (∀ b v, b ∈ labels →
          Py.series_get row (Spec.samples_column b) = Some v →
          Spec.convertible v) →
  sample_tts_files.requested_counts row s
  = ([], inr (omap (Spec.request_of row) labels, s)).
Proof.
  intros Hconv. unfold sample_tts_files.requested_counts.
  rewrite request_loop_run; [done | | | done].
  - apply (bool_decide_unpack _). by vm_compute.
  - intros b _. simpl. apply not_elem_of_nil.
Qed.

End Requests.

Section RequestsClaim.

Context {RNG : Type} `{!Py.Random RNG}.

Local Abbreviation labels := (sample_tts_files.BUCKET_DEFS.*1).

Lemma request_of_Some (row : Py.Series) (b b' : string) (n : Z) :
  Spec.request_of row b = Some (b', n) ↔
  b' = b ∧ ∃ v, Py.series_get row (Spec.samples_column b) = Some v ∧
                Py.isna v = false ∧ Py.int v = inr n ∧ 0 < n.
Proof.
  unfold Spec.request_of.
  destruct (Py.series_get row (Spec.samples_column b)) as [v|];
    [| split; [done | by intros (_ & ? & ? & _)]].
  destruct (Py.isna v) eqn:Hna;
    [split; [done | intros (_ & ? & [= <-] & ? & _); congruence]|].
  destruct (Py.int v) as [e|m] eqn:Hint;
    [split; [done | intros (_ & ? & [= <-] & _ & ? & _); congruence]|].
  destruct (Z.ltb_spec 0 m).
  - split.
    + intros [= <- <-]. eauto 10.
    + intros (-> & ? & [= <-] & _ & ? & _). congruence.
  - split; [done|]. intros (_ & ? & [= <-] & _ & ? & ?).
    assert (m = n) by congruence. lia.
Qed.


End RequestsClaim.



(** ** Deduplication of the selection *)

Section Dedup.

Import sample_tts_files.

Lemma run_bind_inv {S W A B} (m : Py.M S W A) (f : A → Py.M S W B) s w b s'' :
  (m ≫= f) s = (w, inr (b, s'')) →
  ∃ w1 a s' w2, m s = (w1, inr (a, s')) ∧ f a s' = (w2, inr (b, s'')) ∧
                w = w1 ++ w2.
Proof.
  rewrite run_bind. destruct (m s) as [w1 [e|[a s']]]; [done|].
  destruct (f a s') as [w2 r] eqn:E. intros [= <- ->]. eauto 10.
Qed.

Lemma dict_set_NoDup {K V} `{EqDecision K} (k : K) (v : V) (d : list (K * V)) :
  NoDup d.*1 → NoDup (Py.dict_set k v d).*1.
Proof.
  intros Hnd. destruct (decide (k ∈ d.*1)) as [Hin|Hnin].
  - by rewrite dict_set_keys_present.
  - rewrite dict_set_fresh, fmap_app by done. simpl.
    apply NoDup_app. split; [done|]. split; [| apply NoDup_singleton].
    intros k' Hk' ->%list_elem_of_singleton. done.
Qed.

Lemma dict_set_keys {K V} `{EqDecision K} (k k' : K) (v : V) (d : list (K * V)) :
  k' ∈ (Py.dict_set k v d).*1 ↔ k' = k ∨ k' ∈ d.*1.
Proof.
  destruct (decide (k ∈ d.*1)) as [Hin|Hnin].
  - rewrite dict_set_keys_present by done. split; [eauto | by intros [->|?]].
  - rewrite dict_set_fresh, fmap_app, elem_of_app by done. simpl.
    rewrite list_elem_of_singleton. tauto.
Qed.

Lemma dict_set_items {K V} `{EqDecision K} (k k' : K) (v v' : V)
    (d : list (K * V)) :
  NoDup d.*1 → (k', v') ∈ Py.dict_set k v d →
  (k' = k ∧ v' = v) ∨ (k' ≠ k ∧ (k', v') ∈ d).
Proof.
  induction d as [|[k0 v0] d IH]; simpl.
  - intros _ [= -> ->]%list_elem_of_singleton. by left.
  - intros [Hk0 Hnd]%NoDup_cons. destruct (decide (k0 = k)) as [->|Hne].
    + intros [[= -> ->]|Hin]%elem_of_cons; [by left|].
      right. split; [| by right]. intros ->. apply Hk0.
      apply list_elem_of_fmap. by exists (k, v').
    + intros [[= -> ->]|Hin]%elem_of_cons.
      * right. split; [done | by left].
      * destruct (IH Hnd Hin) as [?|[? ?]]; [by left|].
        right. split; [done | by right].
Qed.

(** The dictionary built by the deduplication loop: keys are distinct, each
    value sits under its own key and is the last element of the input with
    that key, and every input key is present. *)
Lemma unique_selected_inv (all_selected : list FileInfo) :
  let unique_selected :=
    foldl (λ unique_selected fi,
             Py.dict_set (folder fi, path fi) fi unique_selected)
          [] all_selected in
  NoDup unique_selected.*1 ∧
  (∀ k fi, (k, fi) ∈ unique_selected →
     Spec.key fi = k ∧
     ∃ l1 l2, all_selected = l1 ++ fi :: l2 ∧ k ∉ Spec.key <$> l2) ∧
  (∀ fi, fi ∈ all_selected → Spec.key fi ∈ unique_selected.*1).
Proof.
  induction all_selected as [|x l IH] using rev_ind; simpl.
  { split; [apply NoDup_nil_2|]. split; [by intros ?? ?%elem_of_nil|].
    by intros ? ?%elem_of_nil. }
  rewrite foldl_app. simpl. destruct IH as (Hnd & Hlast & Hall).
  split; [by apply dict_set_NoDup|]. split.
  - intros k fi Hin. apply dict_set_items in Hin as [[-> ->]|[Hne Hin]]; [| |done].
    + split; [done|]. exists l, []. split; [done|]. simpl. apply not_elem_of_nil.
    + destruct (Hlast k fi Hin) as (Hk & l1 & l2 & -> & Hnin).
      split; [done|]. exists l1, (l2 ++ [x]).
      split; [by rewrite <-app_assoc|].
      rewrite fmap_app, elem_of_app. simpl. rewrite list_elem_of_singleton.
      intros [?|?]; [done|]. by apply Hne.
  - intros fi [Hin| ->%list_elem_of_singleton]%elem_of_app;
      apply dict_set_keys; [right; by apply Hall | by left].
Qed.

End Dedup.

Section DedupClaim.

Import sample_tts_files.

Context {RNG : Type} `{!Py.Random RNG} (w : Py.World).

Lemma manifest_of_keys (final_list : list FileInfo) :
  Spec.row_key <$> manifest_of w final_list = Spec.key <$> final_list.
Proof. unfold manifest_of. rewrite <-list_fmap_compose. done. Qed.

(** C5. The deduplication keeps one record per (folder, absolute path) key:
    the keys of its result are pairwise distinct, every key of the
    accumulated selection is among them, and the record kept for a key is
    the last one accumulated with that key.  So whenever [run_sampling]
    writes a manifest, the manifest is the deduplicated accumulated
    selection, no (folder, path) pair occurs twice in it, and every selected
    pair occurs in it. *)
Theorem manifest_pairs_unique :
  (∀ all_selected : list FileInfo,
     NoDup (Spec.key <$> deduplicate all_selected) ∧
     (∀ fi, fi ∈ all_selected →
            Spec.key fi ∈ Spec.key <$> deduplicate all_selected) ∧
     (∀ fi, fi ∈ deduplicate all_selected →
            ∃ l1 l2, all_selected = l1 ++ fi :: l2 ∧
                     Spec.key fi ∉ Spec.key <$> l2)) ∧
  (∀ plan_csv audio_root output_csv seed log manifest rng',
     run_sampling w plan_csv audio_root output_csv seed
     = (log, inr (manifest, rng')) →
     ∃ log' all_selected,
       accumulate_selected w plan_csv audio_root (Py.Random_seed seed)
       = (log', inr (all_selected, rng')) ∧
       manifest = manifest_of w (deduplicate all_selected) ∧
       NoDup (Spec.row_key <$> manifest) ∧
       ∀ fi, fi ∈ all_selected → Spec.key fi ∈ Spec.row_key <$> manifest).
Proof.
  assert (Hdedup : ∀ all_selected : list FileInfo,
     NoDup (Spec.key <$> deduplicate all_selected) ∧
     (∀ fi, fi ∈ all_selected →
            Spec.key fi ∈ Spec.key <$> deduplicate all_selected) ∧
     (∀ fi, fi ∈ deduplicate all_selected →
            ∃ l1 l2, all_selected = l1 ++ fi :: l2 ∧
                     Spec.key fi ∉ Spec.key <$> l2)).
  { intros l. destruct (unique_selected_inv l) as (Hnd & Hlast & Hall).
    unfold deduplicate, Py.dict_values.
    set (d := foldl _ _ _) in *.
    assert (Hkeys : Spec.key <$> d.*2 = d.*1).
    { rewrite <-list_fmap_compose. apply list_fmap_ext.
      intros i [k fi] Hi. simpl. apply (Hlast k fi).
      by apply list_elem_of_lookup_2 in Hi. }
    rewrite Hkeys. split; [done|]. split; [done|].
    intros fi [[k fi'] [-> Hin]]%list_elem_of_fmap. simpl.
    destruct (Hlast k fi' Hin) as (-> & l1 & l2 & ? & ?). eauto. }
  split; [exact Hdedup|].
  intros plan_csv audio_root output_csv seed log manifest rng'.
  unfold run_sampling, run_sampling_with.
  intros (log' & all_selected & rng1 & w2 & Hacc & Hrest & _)%run_bind_inv.
  simpl in Hrest. injection Hrest as _ <- <-.
  exists log', all_selected. split; [done|]. split; [done|].
  rewrite manifest_of_keys. destruct (Hdedup all_selected) as (? & ? & _).
  done.
Qed.

End DedupClaim.

(** The theorem above on the plan of the sample world that lists
    [podcastA] twice: six records are indexed, three rows are written. *)
Lemma manifest_pairs_unique_witness :
  ∃ log manifest rng',
    sample_tts_files.run_sampling Inputs.world
      "plan_twice.csv" "/data" "out.csv" 43 = (log, inr (manifest, rng')) ∧
    length manifest = 3%nat ∧
    NoDup (Spec.row_key <$> manifest).
Proof.
  destruct (sample_tts_files.run_sampling Inputs.world
              "plan_twice.csv" "/data" "out.csv" 43)
    as [log [e|[manifest rng']]] eqn:E.
  - exfalso. vm_compute in E. discriminate E.
  - exists log, manifest, rng'. split; [reflexivity|].
    destruct (proj2 (manifest_pairs_unique Inputs.world) _ _ _ _ _ _ _ E)
      as (_ & _ & _ & _ & Hnd & _).
    split; [| exact Hnd].
    vm_compute in E. injection E as _ <- _. reflexivity.
Defined.

(** ** The folder → bucket → files index *)

Section FolderBucketMap.

Import sample_tts_files.

Implicit Types (mapping : gmap string (gmap string (list FileInfo)))
  (files : list FileInfo) (fi : FileInfo).

Lemma files_at_add_file mapping fi f b :
  Spec.files_at (add_file mapping fi) f b
  = Spec.files_at mapping f b
    ++ (if decide (folder fi = f ∧ bucket fi = Some b) then [fi] else []).
Proof.
  unfold add_file, Spec.files_at. destruct (bucket fi) as [b0|] eqn:Hb.
  - destruct (decide (folder fi = f)) as [<-|Hf].
    + rewrite lookup_insert_eq. simpl.
      destruct (decide (b0 = b)) as [<-|Hb0].
      * rewrite lookup_insert_eq. simpl. by rewrite decide_True.
      * rewrite lookup_insert_ne by done.
        rewrite decide_False, app_nil_r; [done|]. intros [_ [= ?]]. done.
    + rewrite lookup_insert_ne by done.
      rewrite decide_False, app_nil_r; [done|]. by intros [? _].
  - rewrite decide_False, app_nil_r; [done|]. by intros [_ ?].
Qed.

Lemma files_at_foldl mapping files f b :
  Spec.files_at (foldl add_file mapping files) f b
  = Spec.files_at mapping f b ++ Spec.available_in files f b.
Proof.
  revert mapping. induction files as [|fi files IH]; intros mapping; simpl.
  - by rewrite app_nil_r.
  - rewrite IH, files_at_add_file, <-app_assoc. f_equal.
    unfold Spec.available_in. rewrite filter_cons.
    by destruct (decide (folder fi = f ∧ bucket fi = Some b)).
Qed.

(** The list the sampler finds under a folder and a bucket is the list of
    the indexed files of that folder and bucket, in index order. *)
Lemma build_folder_bucket_map_lookup files f b :
  default [] (default ∅ (build_folder_bucket_map files !! f) !! b)
  = Spec.available_in files f b.
Proof.
  pose proof (files_at_foldl ∅ files f b) as H.
  unfold Spec.files_at in H at 2. rewrite lookup_empty in H. simpl in H.
  rewrite lookup_empty in H. exact H.
Qed.

(** No folder is mapped to an empty dictionary. *)
Lemma add_file_nonempty mapping fi :
  (∀ f folder_map, mapping !! f = Some folder_map → folder_map ≠ ∅) →
  ∀ f folder_map, add_file mapping fi !! f = Some folder_map → folder_map ≠ ∅.
Proof.
  intros Hne f folder_map. unfold add_file.
  destruct (bucket fi) as [b|]; [| apply Hne].
  destruct (decide (folder fi = f)) as [<-|Hf].
  - rewrite lookup_insert_eq. intros [= <-]. apply insert_non_empty.
  - rewrite lookup_insert_ne by done. apply Hne.
Qed.

Lemma build_folder_bucket_map_nonempty files f folder_map :
  build_folder_bucket_map files !! f = Some folder_map → folder_map ≠ ∅.
Proof.
  unfold build_folder_bucket_map.
  assert (H : ∀ mapping,
    (∀ f fm, mapping !! f = Some fm → fm ≠ ∅) →
    ∀ f fm, foldl add_file mapping files !! f = Some fm → fm ≠ ∅).
  { induction files as [|fi files IH]; intros mapping Hne; simpl; [done|].
    apply IH. by apply add_file_nonempty. }
  apply H. intros ??. by rewrite lookup_empty.
Qed.


End FolderBucketMap.

(** ** One folder *)

Section Folder.

Import sample_tts_files.

Context {RNG : Type} `{!Py.Random RNG}.

Implicit Types (rng : RNG) (folder_buckets : gmap string (list FileInfo))
  (requested : list (string * Z)) (selected : list FileInfo).

Local Abbreviation labels := (BUCKET_DEFS.*1).

(** One pass of the second loop computes [Spec.choose]. *)
Lemma sample_bucket_run folder folder_buckets selected b n rng :
  0 < n →
  sample_bucket folder folder_buckets selected (b, n) rng
  = (Spec.bucket_log folder b n (default [] (folder_buckets !! b)),
     inr (selected ++ (Spec.choose rng (default [] (folder_buckets !! b)) n).1,
          (Spec.choose rng (default [] (folder_buckets !! b)) n).2)).
Proof.
  intros Hn. unfold sample_bucket, Spec.choose, Spec.bucket_log.
  destruct (default [] (folder_buckets !! b)) as [|fi available] eqn:Hav.
  - simpl length. destruct (Z.leb_spec (Z.of_nat 0) n); [|lia].
    simpl. by rewrite app_nil_r.
  - destruct (Z.leb_spec (Z.of_nat (length (fi :: available))) n) as [Hle|Hgt];
      [done|].
    rewrite run_bind. unfold Py.sample.
    destruct (Z.ltb_spec n 0); [lia|].
    destruct (Z.ltb_spec (Z.of_nat (length (fi :: available))) n); [lia|].
    change (false || false) with false. cbv beta iota.
    by destruct (Py.Random_sample rng (fi :: available) (Z.to_nat n)).
Qed.

Lemma sample_loop_run folder folder_buckets requested selected rng :
  (∀ b n, (b, n) ∈ requested → 0 < n) →
  ∃ log,
    Py.for_ requested (sample_bucket folder folder_buckets) selected rng
    = (log,
       inr (selected ++ (Spec.select_buckets rng folder_buckets requested).1,
            (Spec.select_buckets rng folder_buckets requested).2)).
Proof.
  revert selected rng.
  induction requested as [|[b n] requested IH]; intros selected rng Hpos.
  - exists []. simpl. by rewrite app_nil_r.
  - simpl Py.for_. simpl Spec.select_buckets.
    erewrite run_bind_ok;
      [| apply sample_bucket_run, (Hpos b n); by left].
    destruct (Spec.choose rng (default [] (folder_buckets !! b)) n)
      as [chosen rng1].
    destruct (IH (selected ++ chosen) rng1) as [log Hlog].
    { intros b' n' ?. apply (Hpos b' n'). by right. }
    simpl. rewrite Hlog. simpl.
    destruct (Spec.select_buckets rng1 folder_buckets requested) as [more rng2].
    simpl. rewrite <-app_assoc. eauto.
Qed.

(** The requests of a row are positive and their buckets are distinct. *)
Lemma requests_positive (row : Py.Series) (ls : list string) b n :
  (b, n) ∈ omap (Spec.request_of row) ls → 0 < n ∧ b ∈ ls.
Proof.
  intros (b0 & Hin & Hreq)%list_elem_of_omap.
  apply request_of_Some in Hreq as (-> & v & _ & _ & _ & Hn). done.
Qed.

Lemma requests_keys_sublist (row : Py.Series) (ls : list string) :
  (omap (Spec.request_of row) ls).*1 `sublist_of` ls.
Proof.
  induction ls as [|b ls IH]; simpl; [done|].
  destruct (Spec.request_of row b) as [[b' n]|] eqn:Hreq.
  - apply request_of_Some in Hreq as [-> _]. simpl. by constructor.
  - by constructor.
Qed.

Lemma requests_keys_NoDup (row : Py.Series) :
  NoDup (omap (Spec.request_of row) labels).*1.
Proof.
  eapply sublist_NoDup; [| apply requests_keys_sublist].
  apply (bool_decide_unpack _). by vm_compute.
Qed.

End Folder.

Section ListFacts.

Context {A : Type}.

Lemma filter_all (P : A → Prop) `{!∀ x, Decision (P x)} (l : list A) :
  (∀ x, x ∈ l → P x) → filter P l = l.
Proof.
  induction l as [|x l IH]; intros HP; [done|].
  rewrite filter_cons_True by (apply HP; left).
  f_equal. apply IH. intros y ?. apply HP. by right.
Qed.

Lemma filter_none (P : A → Prop) `{!∀ x, Decision (P x)} (l : list A) :
  (∀ x, x ∈ l → ¬ P x) → filter P l = [].
Proof.
  induction l as [|x l IH]; intros HP; [done|].
  rewrite filter_cons_False by (apply HP; left).
  apply IH. intros y ?. apply HP. by right.
Qed.


End ListFacts.

Section FolderDraws.

Import sample_tts_files.

Context {RNG : Type} `{!Py.Random RNG} `{!Py.RandomSpec RNG}.

Implicit Types (rng : RNG) (folder_buckets : gmap string (list FileInfo))
  (requested : list (string * Z)) (selected : list FileInfo).

Local Abbreviation labels := (BUCKET_DEFS.*1).

Lemma choose_submseteq rng (available : list FileInfo) n :
  0 ≤ n → (Spec.choose rng available n).1 ⊆+ available.
Proof.
  intros Hn. unfold Spec.choose.
  destruct (Z.leb_spec (Z.of_nat (length available)) n); [done|].
  apply Py.Random_sample_spec. lia.
Qed.


Lemma choose_all rng (available : list FileInfo) n :
  Z.of_nat (length available) ≤ n →
  Spec.choose rng available n = (available, rng).
Proof.
  intros Hn. unfold Spec.choose.
  by destruct (Z.leb_spec (Z.of_nat (length available)) n); [|lia].
Qed.

(** In the selection of a folder, the records of a bucket are exactly what
    the pass over that bucket chose; a bucket without request has none. *)
Lemma select_buckets_of_bucket rng folder_buckets requested b :
  Spec.bucketed folder_buckets → NoDup requested.*1 →
  (∀ b n, (b, n) ∈ requested → 0 < n) →
  (b ∉ requested.*1 →
   Spec.of_bucket b (Spec.select_buckets rng folder_buckets requested).1 = []) ∧
  (∀ n, (b, n) ∈ requested →
   ∃ rng_b,
     Spec.of_bucket b (Spec.select_buckets rng folder_buckets requested).1
     = (Spec.choose rng_b (default [] (folder_buckets !! b)) n).1).
Proof.
  intros Hwf. revert rng.
  induction requested as [|[b0 n0] requested IH]; intros rng Hnd Hpos.
  { split; [done | by intros ? ?%elem_of_nil]. }
  simpl in Hnd. apply NoDup_cons in Hnd as [Hb0 Hnd].
  assert (Hn0 : 0 < n0) by (apply (Hpos b0); by left).
  assert (Hpos' : ∀ b n, (b, n) ∈ requested → 0 < n).
  { intros b' n' ?. apply (Hpos b'). by right. }
  simpl Spec.select_buckets.
  pose proof (choose_submseteq rng (default [] (folder_buckets !! b0)) n0) as Hsub.
  destruct (Spec.choose rng (default [] (folder_buckets !! b0)) n0)
    as [chosen rng1] eqn:Hchoose.
  specialize (IH rng1 Hnd Hpos') as [IHnone IHsome].
  destruct (Spec.select_buckets rng1 folder_buckets requested) as [more rng2].
  simpl in *. specialize (Hsub ltac:(lia)).
  assert (Hchosen : ∀ fi, fi ∈ chosen → bucket fi = Some b0).
  { intros fi Hfi. apply Hwf. by eapply elem_of_submseteq. }
  unfold Spec.of_bucket in *. rewrite filter_app.
  destruct (decide (b = b0)) as [->|Hne].
  - split; [intros []; by left|].
    intros n [[= ->]|Hin]%elem_of_cons.
    + rewrite (filter_all _ chosen) by done. rewrite IHnone by done.
      exists rng. by rewrite Hchoose, app_nil_r.
    + destruct Hb0. apply list_elem_of_fmap. by exists (b0, n).
  - rewrite (filter_none _ chosen)
      by (intros fi Hfi; rewrite (Hchosen fi Hfi); congruence).
    split.
    + rewrite not_elem_of_cons. intros [_ ?]. by apply IHnone.
    + intros n [[= ? ?]|Hin]%elem_of_cons; [done|]. by apply IHsome.
Qed.

(** On a row whose cells [int(...)] accepts, [sample_for_folder] returns the
    selection the specification prescribes for the folder. *)
Lemma sample_for_folder_run folder (row : Py.Series) folder_buckets rng :
  (∀ b v, b ∈ labels →
          Py.series_get row (Spec.samples_column b) = Some v →
          Spec.convertible v) →
  ∃ log,
    sample_for_folder folder row folder_buckets rng
    = (log, inr (Spec.select_folder rng row folder_buckets)).
Proof.
  intros Hconv. unfold sample_for_folder.
  erewrite run_bind_ok by (by apply requested_counts_run).
  destruct (sample_loop_run folder folder_buckets
              (omap (Spec.request_of row) labels) [] rng) as [log Hlog].
  { intros b n Hin. by apply requests_positive in Hin as [? _]. }
  rewrite Hlog. simpl. exists log. unfold Spec.select_folder.
  by destruct (Spec.select_buckets rng folder_buckets _).
Qed.

End FolderDraws.

(** ** The reference generator meets the contract of [sample] *)

Section ReferenceGenerator.

Context {A : Type}.

Implicit Types (pool : list A) (g : Z).

(** Taking the element at [j] and moving the last element into its place
    leaves the rest of the pool. *)
Lemma swap_with_last pool (j : nat) (x y : A) :
  pool !! j = Some x → last pool = Some y →
  x :: take (length pool - 1) (<[j := y]> pool) ≡ₚ pool.
Proof.
  intros Hj Hlast.
  induction pool as [|y0 pool _] using rev_ind; [done|].
  rewrite last_snoc in Hlast. injection Hlast as ->.
  rewrite length_app. simpl.
  replace (length pool + 1 - 1)%nat with (length pool) by lia.
  destruct (decide (j < length pool)%nat) as [Hlt|Hge].
  - rewrite lookup_app_l in Hj by done.
    rewrite insert_app_l by done.
    rewrite take_app_length' by (by rewrite length_insert).
    apply list_elem_of_split_length in Hj as (l1 & l2 & -> & ->).
    rewrite insert_app_r_alt, Nat.sub_diag by done. simpl.
    rewrite <-app_assoc. simpl.
    rewrite <-(Permutation_middle l1 (l2 ++ [y]) x).
    apply perm_skip, Permutation_app_head, Permutation_cons_append.
  - apply lookup_lt_Some in Hj as Hj'. rewrite length_app in Hj'. simpl in Hj'.
    assert (j = length pool) as -> by lia.
    rewrite list_lookup_middle in Hj by done. injection Hj as ->.
    rewrite insert_app_r_alt, Nat.sub_diag by done. simpl.
    rewrite take_app_length. by rewrite Permutation_app_comm.
Qed.

Lemma pool_sample_spec (k : nat) pool g :
  (k ≤ length pool)%nat →
  length (Inputs.pool_sample k pool g).1 = k ∧
  (Inputs.pool_sample k pool g).1 ⊆+ pool.
Proof.
  revert pool g. induction k as [|k IH]; intros pool g Hk; simpl.
  { split; [done | apply submseteq_nil_l]. }
  assert (Hj : (Z.to_nat (g mod Z.of_nat (length pool)) < length pool)%nat).
  { pose proof (Z.mod_pos_bound g (Z.of_nat (length pool))). lia. }
  destruct (lookup_lt_is_Some_2 pool _ Hj) as [x Hx]. rewrite Hx.
  destruct (last pool) as [y|] eqn:Hlast;
    [| apply last_None in Hlast; subst; simpl in Hk; lia].
  specialize (IH (take (length pool - 1) (<[Z.to_nat (g mod Z.of_nat (length pool)) := y]> pool))
                 (Inputs.lcg_next g)).
  destruct (Inputs.pool_sample k _ (Inputs.lcg_next g)) as [rest g'].
  simpl in *. destruct IH as [Hlen Hsub].
  { rewrite length_take, length_insert. lia. }
  split; [by rewrite Hlen|].
  rewrite <-(swap_with_last pool _ x y Hx Hlast). by apply submseteq_skip.
Qed.

End ReferenceGenerator.

#[global] Instance lcg_spec : Py.RandomSpec Z.
Proof. intros A rng population k Hk. by apply pool_sample_spec. Qed.

(** ** Claims on the per-folder sampler *)

Section FolderClaims.

Import sample_tts_files.

Context {RNG : Type} `{!Py.Random RNG} `{!Py.RandomSpec RNG}.

Implicit Types (rng : RNG) (files : list FileInfo) (row : Py.Series).

Local Abbreviation labels := (BUCKET_DEFS.*1).

Lemma folder_buckets_bucketed files folder_key :
  Spec.bucketed (default ∅ (build_folder_bucket_map files !! folder_key)).
Proof.
  intros b fi. rewrite build_folder_bucket_map_lookup.
  unfold Spec.available_in. rewrite list_elem_of_filter. by intros [[_ ?] _].
Qed.

(** What [sample_for_folder] returns on a row with convertible cells, and
    what it holds for a requested bucket. *)
Lemma sample_for_folder_bucket files folder_key row b K rng :
  (∀ b v, b ∈ labels →
          Py.series_get row (Spec.samples_column b) = Some v →
          Spec.convertible v) →
  b ∈ labels → Spec.request_of row b = Some (b, K) →
  ∃ log selected rng' rng_b,
    sample_for_folder folder_key row
      (default ∅ (build_folder_bucket_map files !! folder_key)) rng
    = (log, inr (selected, rng')) ∧
    Spec.of_bucket b selected
    = (Spec.choose rng_b (Spec.available_in files folder_key b) K).1 ∧
    0 < K.
Proof.
  intros Hconv Hb Hreq.
  destruct (sample_for_folder_run folder_key row
    (default ∅ (build_folder_bucket_map files !! folder_key)) rng Hconv)
    as [log Hrun].
  destruct (select_buckets_of_bucket rng
    (default ∅ (build_folder_bucket_map files !! folder_key))
    (omap (Spec.request_of row) labels) b) as [_ Hsome].
  { apply folder_buckets_bucketed. }
  { apply requests_keys_NoDup. }
  { intros b' n' Hin. by apply requests_positive in Hin as [? _]. }
  destruct (Hsome K) as [rng_b Hrng_b].
  { apply list_elem_of_omap. eauto. }
  rewrite build_folder_bucket_map_lookup in Hrng_b.
  fold (Spec.select_folder rng row
          (default ∅ (build_folder_bucket_map files !! folder_key))) in Hrng_b.
  destruct (Spec.select_folder rng row _) as [selected rng'].
  exists log, selected, rng', rng_b. split; [done|]. split; [done|].
  by apply request_of_Some in Hreq as (_ & v & _ & _ & _ & ?).
Qed.


(** C3. With the same folder and row, for a bucket for which the row
    requests [K] while at most [K] files of the folder are available in it:
    whatever state the generator is in, [sample_for_folder] returns and the
    records of that bucket in its selection are all the available ones, so
    two runs from different seeds select the same for that bucket; and the
    pass over that bucket appends the available files, prints its note and
    leaves the generator as it found it. *)
Theorem sample_for_folder_takes_all files folder_key row b K rng1 rng2 :
  (∀ b v, b ∈ labels →
          Py.series_get row (Spec.samples_column b) = Some v →
          Spec.convertible v) →
  b ∈ labels → Spec.request_of row b = Some (b, K) →
  Z.of_nat (length (Spec.available_in files folder_key b)) ≤ K →
  (∃ log1 selected1 rng1' log2 selected2 rng2',
     sample_for_folder folder_key row
       (default ∅ (build_folder_bucket_map files !! folder_key)) rng1
     = (log1, inr (selected1, rng1')) ∧
     sample_for_folder folder_key row
       (default ∅ (build_folder_bucket_map files !! folder_key)) rng2
     = (log2, inr (selected2, rng2')) ∧
     Spec.of_bucket b selected1 = Spec.available_in files folder_key b ∧
     Spec.of_bucket b selected2 = Spec.of_bucket b selected1) ∧
  (∀ selected rng,
     sample_bucket folder_key
       (default ∅ (build_folder_bucket_map files !! folder_key))
       selected (b, K) rng
     = (Spec.bucket_log folder_key b K (Spec.available_in files folder_key b),
        inr (selected ++ Spec.available_in files folder_key b, rng))).
Proof.
  intros Hconv Hb Hreq HK. split.
  - destruct (sample_for_folder_bucket files folder_key row b K rng1
                Hconv Hb Hreq)
      as (log1 & selected1 & rng1' & rng_b1 & Hrun1 & Hsel1 & _).
    destruct (sample_for_folder_bucket files folder_key row b K rng2
                Hconv Hb Hreq)
      as (log2 & selected2 & rng2' & rng_b2 & Hrun2 & Hsel2 & _).
    exists log1, selected1, rng1', log2, selected2, rng2'.
    rewrite choose_all in Hsel1, Hsel2 by done. simpl in Hsel1, Hsel2.
    split; [done|]. split; [done|]. split; [done|]. congruence.
  - intros selected rng.
    assert (0 < K) by (by apply request_of_Some in Hreq as (_ & v & _ & _ & _ & ?)).
    rewrite sample_bucket_run, build_folder_bucket_map_lookup by done.
    by rewrite choose_all.
Qed.

End FolderClaims.

(** The hypotheses on the rows of the sample plans. *)
Lemma sample_rows_convertible (n01 n510 : Z) b v :
  b ∈ sample_tts_files.BUCKET_DEFS.*1 →
  Py.series_get (zip Inputs.plan_columns (Inputs.podcastA_row n01 n510))
    (Spec.samples_column b) = Some v →
  Spec.convertible v.
Proof.
  intros Hb. simpl in Hb.
  repeat (apply elem_of_cons in Hb as [->|Hb]);
    [ .. | by apply elem_of_nil in Hb]; intros [= <-];
    right; eexists; reflexivity.
Qed.


(** C3 on the sample folder: two clips requested from the two of [[0, 1)],
    from the seeds 42 and 43. *)
Lemma sample_for_folder_takes_all_witness :
  ∃ log1 selected1 rng1' log2 selected2 rng2',
    sample_tts_files.sample_for_folder "podcastA" Inputs.row_all
      (default ∅ (sample_tts_files.build_folder_bucket_map Inputs.files
                    !! "podcastA")) (Py.Random_seed 42)
    = (log1, inr (selected1, rng1')) ∧
    sample_tts_files.sample_for_folder "podcastA" Inputs.row_all
      (default ∅ (sample_tts_files.build_folder_bucket_map Inputs.files
                    !! "podcastA")) (Py.Random_seed 43)
    = (log2, inr (selected2, rng2')) ∧
    Spec.of_bucket "[0, 1)" selected1
    = Spec.available_in Inputs.files "podcastA" "[0, 1)" ∧
    Spec.of_bucket "[0, 1)" selected2 = Spec.of_bucket "[0, 1)" selected1.
Proof.
  refine (proj1 (sample_for_folder_takes_all Inputs.files "podcastA"
                   Inputs.row_all "[0, 1)" 2 _ _ _ _ _ _)).
  - apply sample_rows_convertible.
  - by left.
  - reflexivity.
  - by vm_compute.
Defined.

(** ** Loops that return *)

Section Loops.

Context {S W A B : Type}.

Implicit Types (body : B → A → Py.M S W B) (l : list A) (s : S).



Lemma for_cons_run x l body acc s logx acc' s' log r :
  body acc x s = (logx, inr (acc', s')) →
  Py.for_ l body acc' s' = (log, r) →
  Py.for_ (x :: l) body acc s = (logx ++ log, r).
Proof. intros H1 H2. simpl. rewrite run_bind, H1, H2. done. Qed.

Lemma for_cons_inv x l body acc s log acc'' s'' :
  Py.for_ (x :: l) body acc s = (log, inr (acc'', s'')) →
  ∃ logx acc' s' log',
    body acc x s = (logx, inr (acc', s')) ∧
    Py.for_ l body acc' s' = (log', inr (acc'', s'')) ∧
    log = logx ++ log'.
Proof. simpl. apply run_bind_inv. Qed.

(** A property of the loop variables and the state that every returning pass
    preserves holds when the loop returns. *)
Lemma for_invariant (P : B → S → Prop) l body acc s log acc' s' :
  P acc s →
  (∀ acc x s log acc' s', x ∈ l → P acc s →
     body acc x s = (log, inr (acc', s')) → P acc' s') →
  Py.for_ l body acc s = (log, inr (acc', s')) →
  P acc' s'.
Proof.
  revert acc s log. induction l as [|x l IH]; intros acc s log HP Hbody.
  - by intros [= _ <- <-].
  - intros (logx & acc1 & s1 & log1 & Hx & Hl & _)%for_cons_inv.
    eapply IH; [| | exact Hl].
    + eapply Hbody; [by left | exact HP | exact Hx].
    + intros ?????? Hin. apply Hbody. by right.
Qed.

End Loops.

(** ** One plan row *)

Section Row.

Import sample_tts_files.

Context {RNG : Type} `{!Py.Random RNG} (w : Py.World).

Implicit Types (rng : RNG) (row : Py.Series) (all_selected : list FileInfo)
  (folder_bucket_map : gmap string (gmap string (list FileInfo))).

Local Abbreviation labels := (BUCKET_DEFS.*1).

(** Either [int(...)] accepts every non-empty cell under the given bucket
    columns, or it rejects one. *)
Lemma cells_dichotomy row (ls : list string) :
  (∀ b v, b ∈ ls → Py.series_get row (Spec.samples_column b) = Some v →
          Spec.convertible v) ∨
  (∃ b v e, b ∈ ls ∧ Py.series_get row (Spec.samples_column b) = Some v ∧
            Py.isna v = false ∧ Py.int v = inl e).
Proof.
  induction ls as [|b ls [IH|(b' & v & e & Hin & ?)]];
    [left; by intros ?? ?%elem_of_nil | | right; exists b', v, e; by split; [right|]].
  destruct (Py.series_get row (Spec.samples_column b)) as [v|] eqn:Hv.
  - destruct (Py.isna v) eqn:Hna; [| destruct (Py.int v) as [e|n] eqn:Hint].
    + left. intros b' v' [->|?]%elem_of_cons; [| by apply IH].
      rewrite Hv. intros [= <-]. by left.
    + right. exists b, v, e. by split; [left|].
    + left. intros b' v' [->|?]%elem_of_cons; [| by apply IH].
      rewrite Hv. intros [= <-]. right. eauto.
  - left. intros b' v' [->|?]%elem_of_cons; [| by apply IH]. by rewrite Hv.
Qed.

(** When [sample_for_folder] returns, it returns the prescribed selection. *)
Lemma sample_for_folder_inv folder row
    (folder_buckets : gmap string (list FileInfo)) rng log selected rng' :
  sample_for_folder folder row folder_buckets rng = (log, inr (selected, rng')) →
  Spec.select_folder rng row folder_buckets = (selected, rng').
Proof.
  intros Hrun. destruct (cells_dichotomy row labels) as [Hconv|Hbad].
  - destruct (sample_for_folder_run folder row folder_buckets rng Hconv)
      as [log' Hlog'].
    rewrite Hlog' in Hrun. by injection Hrun as _ ->.
  - unfold sample_for_folder in Hrun.
    destruct (request_loop_raises row labels [] rng Hbad) as [e He].
    fold (requested_counts row rng) in He.
    by rewrite (run_bind_err _ _ _ _ _ He) in Hrun.
Qed.

Lemma folder_key_of_inv {S} row (s s' : S) log folder_key :
  folder_key_of w row s = (log, inr (folder_key, s')) →
  log = [] ∧ s' = s ∧
  ∃ v, Py.series_get row "Folder" = Some v ∧
       folder_key = Py.str (Py.repr_float w) v.
Proof.
  unfold folder_key_of. destruct (Py.series_get row "Folder") as [v|]; [|done].
  intros [= <- <- <-]. eauto.
Qed.

Lemma target_of_inv row rng log target rng' :
  target_of row rng = (log, inr (target, rng')) → log = [] ∧ rng' = rng.
Proof.
  unfold target_of.
  destruct (Py.series_has row "Target Samples"); [| by intros [= <- _ <-]].
  destruct (Py.series_get row "Target Samples") as [v|]; [|done].
  destruct (Py.isna v); simpl; [by intros [= <- _ <-]|].
  rewrite run_bind. destruct (Py.int v); simpl; [done | by intros [= <- _ <-]].
Qed.


(** When a pass over a plan row returns, it has appended the prescribed
    selection of the row. *)
Lemma sample_row_inv folder_bucket_map all_selected row rng log all_selected' rng' :
  sample_row w folder_bucket_map all_selected row rng
  = (log, inr (all_selected', rng')) →
  ∃ selected,
    Spec.select_row w rng folder_bucket_map row = (selected, rng') ∧
    all_selected' = all_selected ++ selected.
Proof.
  unfold sample_row, Spec.select_row.
  intros (log1 & folder_key & rng1 & log2 & Hkey & Hrest & _)%run_bind_inv.
  apply folder_key_of_inv in Hkey as (_ & -> & v & Hv & ->).
  apply run_bind_inv in Hrest
    as (log3 & target & rng2 & log4 & Htarget & Hrest & _).
  apply target_of_inv in Htarget as [_ ->]. rewrite Hv. simpl.
  destruct (bool_decide (default ∅ (folder_bucket_map
              !! Py.str (Py.repr_float w) v) = ∅)).
  - simpl in Hrest. injection Hrest as _ <- <-.
    exists []. by rewrite app_nil_r.
  - apply run_bind_inv in Hrest
      as (log5 & selected & rng3 & log6 & Hsel & Hrest & _).
    apply sample_for_folder_inv in Hsel. exists selected.
    apply run_bind_inv in Hrest as (log7 & [] & rng4 & log8 & Hwarn & Hret & _).
    simpl in Hret. injection Hret as _ <- <-. split; [|done].
    rewrite Hsel. f_equal.
    destruct target as [target|]; [destruct (_ <? target)|];
      simpl in Hwarn; by injection Hwarn as _ <-.
Qed.

Lemma sample_rows_inv folder_bucket_map (rows : list Py.Series)
    all_selected rng log all_selected' rng' :
  Py.for_ rows (sample_row w folder_bucket_map) all_selected rng
  = (log, inr (all_selected', rng')) →
  ∃ selected,
    Spec.select_plan w rng folder_bucket_map rows = (selected, rng') ∧
    all_selected' = all_selected ++ selected.
Proof.
  revert all_selected rng log.
  induction rows as [|row rows IH]; intros all_selected rng log.
  - intros [= _ <- <-]. exists []. by rewrite app_nil_r.
  - intros (logx & acc1 & rng1 & log1 & Hrow & Hrows & _)%for_cons_inv.
    apply sample_row_inv in Hrow as (sel & Hsel & ->).
    apply IH in Hrows as (more & Hmore & ->).
    exists (sel ++ more). simpl. rewrite Hsel, Hmore.
    by rewrite app_assoc.
Qed.

End Row.

(** ** Loading and indexing leave the state alone *)

Section Index.

Import sample_tts_files.

Context {S : Type} (w : Py.World).

Implicit Types (s : S) (row : Py.Series) (all_files : list FileInfo).

Lemma load_sampling_plan_inv plan_csv s log plan_df s' :
  load_sampling_plan w plan_csv s = (log, inr (plan_df, s')) →
  log = [] ∧ s' = s ∧ "Folder" ∈ Py.columns plan_df.
Proof.
  unfold load_sampling_plan. rewrite run_bind.
  destruct (Py.read_csv w plan_csv) as [e|df]; simpl; [done|].
  match goal with
  | |- context [bool_decide ("Folder" ∈ Py.columns ?d)] =>
      destruct (decide ("Folder" ∈ Py.columns d)) as [Hf|Hf];
        [rewrite (bool_decide_eq_true_2 _ Hf)
        |rewrite (bool_decide_eq_false_2 _ Hf)]
  end; simpl; [| done].
  by intros [= <- <- <-].
Qed.

Lemma get_duration_seconds_run (path : string) s :
  ∃ log dur, get_duration_seconds w path s = (log, inr (dur, s)).
Proof.
  unfold get_duration_seconds.
  destruct (Py.sf_info w path) as [e|[frames samplerate]]; simpl; [eauto|].
  destruct (0 <? samplerate); [| simpl; eauto].
  destruct (Py.to_float frames), (Py.to_float samplerate); simpl; eauto.
Qed.

Lemma find_files_in_folder_run (root folder_key : string) s :
  ∃ log files,
    find_files_in_folder w root folder_key s = (log, inr (files, s)) ∧
    (Py.path_isdir w (Py.path_join w root folder_key) = false →
     log = [WarnFolderNotFound (Py.path_join w root folder_key)] ∧ files = []).
Proof.
  unfold find_files_in_folder.
  destruct (Py.path_isdir w (Py.path_join w root folder_key)); simpl.
  - eexists _, _. by split.
  - eexists _, _. by split.
Qed.

(** A pass over a file leaves the state alone and appends at most one record,
    of the folder being indexed. *)
Lemma index_file_run (audio_root folder_key : string) all_files (f : string) s :
  ∃ log all_files',
    index_file w audio_root folder_key all_files f s
    = (log, inr (all_files', s)) ∧
    ∀ fi, fi ∈ all_files' → fi ∈ all_files ∨ folder fi = folder_key.
Proof.
  unfold index_file.
  destruct (get_duration_seconds_run f s) as (log & dur & Hdur).
  rewrite run_bind, Hdur. destruct dur as [dur|]; simpl.
  - eexists _, _. split; [done|].
    intros fi [?|Hfi%list_elem_of_singleton]%elem_of_app; [by left|].
    right. by rewrite Hfi.
  - eexists _, _. split; [done|]. by left.
Qed.

Lemma index_files_run (audio_root folder_key : string) (files : list string)
    all_files s :
  ∃ log all_files',
    Py.for_ files (index_file w audio_root folder_key) all_files s
    = (log, inr (all_files', s)) ∧
    (files = [] → all_files' = all_files ∧ log = []) ∧
    ∀ fi, fi ∈ all_files' → fi ∈ all_files ∨ folder fi = folder_key.
Proof.
  revert all_files. induction files as [|f files IH]; intros all_files.
  - exists [], all_files. split; [done|]. split; [done | by left].
  - destruct (index_file_run audio_root folder_key all_files f s)
      as (log1 & acc1 & Hf & Hin1).
    destruct (IH acc1) as (log2 & acc2 & Hfiles & _ & Hin2).
    exists (log1 ++ log2), acc2. split; [by eapply for_cons_run|].
    split; [done|]. intros fi Hfi.
    destruct (Hin2 fi Hfi) as [?|?]; [by apply Hin1 | by right].
Qed.

(** A pass over a plan row that returns leaves the state alone; what it adds
    to the index belongs to the folder of the row, which is a directory; for
    a folder that is not a directory it adds nothing. *)
Lemma index_folder_inv (audio_root : string) all_files row s log all_files' s' :
  index_folder w audio_root all_files row s = (log, inr (all_files', s')) →
  s' = s ∧
  ∃ v, Py.series_get row "Folder" = Some v ∧
    (∀ fi, fi ∈ all_files' →
       fi ∈ all_files ∨
       (folder fi = Py.str (Py.repr_float w) v ∧
        Py.path_isdir w (Py.path_join w audio_root (folder fi)) = true)) ∧
    (Py.path_isdir w
       (Py.path_join w audio_root (Py.str (Py.repr_float w) v)) = false →
     all_files' = all_files ∧
     log = [WarnFolderNotFound
              (Py.path_join w audio_root (Py.str (Py.repr_float w) v));
            InfoFolderFound (Py.str (Py.repr_float w) v) 0]).
Proof.
  unfold index_folder.
  intros (log1 & folder_key & s1 & log2 & Hkey & Hrest & ->)%run_bind_inv.
  apply folder_key_of_inv in Hkey as (-> & -> & v & Hv & ->).
  destruct (find_files_in_folder_run audio_root
              (Py.str (Py.repr_float w) v) s) as (logf & files & Hfind & Hghost).
  rewrite run_bind, Hfind in Hrest. simpl in Hrest.
  destruct (index_files_run audio_root (Py.str (Py.repr_float w) v)
              files all_files s) as (logi & acc & Hindex & Hnil & Hin).
  rewrite run_bind in Hrest. simpl in Hrest. rewrite Hindex in Hrest.
  injection Hrest as <- <- <-. simpl.
  split; [done|]. exists v. split; [done|]. split.
  - intros fi Hfi.
    destruct (Py.path_isdir w (Py.path_join w audio_root
                (Py.str (Py.repr_float w) v))) eqn:Hdir.
    + destruct (Hin fi Hfi) as [?|Hfolder]; [by left|].
      right. by rewrite Hfolder.
    + destruct (Hghost eq_refl) as [_ ->].
      destruct (Hnil eq_refl) as [-> _]. by left.
  - intros Hdir. destruct (Hghost Hdir) as [-> ->].
    destruct (Hnil eq_refl) as [-> ->]. done.
Qed.

End Index.

Section IndexWhole.

Import sample_tts_files.

Context {S : Type} (w : Py.World).

Implicit Types (s : S) (plan_df : Py.DataFrame) (files : list FileInfo).

(** When the indexer returns, the state is as it found it and every indexed
    record belongs to a folder that is a directory under the root. *)
Lemma index_rows_inv (audio_root : string) (rows : list Py.Series)
    all_files s log files s' :
  (∀ fi, fi ∈ all_files →
     Py.path_isdir w (Py.path_join w audio_root (folder fi)) = true) →
  Py.for_ rows (index_folder w audio_root) all_files s
  = (log, inr (files, s')) →
  s' = s ∧
  ∀ fi, fi ∈ files →
    Py.path_isdir w (Py.path_join w audio_root (folder fi)) = true.
Proof.
  intros Hall Hrun.
  apply (for_invariant
    (λ acc s'', s'' = s ∧ ∀ fi, fi ∈ acc →
       Py.path_isdir w (Py.path_join w audio_root (folder fi)) = true)
    rows (index_folder w audio_root) all_files s log files s');
    [done | | done].
  intros acc row s1 log1 acc' s1' _ [-> Hacc] Hrow.
  apply index_folder_inv in Hrow as (-> & v & _ & Hin & _).
  split; [done|]. intros fi Hfi.
  destruct (Hin fi Hfi) as [?|[_ ?]]; [by apply Hacc | done].
Qed.

Lemma build_file_index_inv (audio_root : string) plan_df s log files s' :
  build_file_index w audio_root plan_df s = (log, inr (files, s')) →
  s' = s ∧
  ∀ fi, fi ∈ files →
    Py.path_isdir w (Py.path_join w audio_root (folder fi)) = true.
Proof.
  unfold build_file_index.
  intros (log1 & acc & s1 & log2 & Hrows & Hrest & _)%run_bind_inv.
  simpl in Hrest. injection Hrest as _ <- <-.
  eapply index_rows_inv; [| exact Hrows]. by intros ? ?%elem_of_nil.
Qed.

End IndexWhole.

(** ** The whole run *)

Section Run.

Import sample_tts_files.

Context {RNG : Type} `{!Py.Random RNG} (w : Py.World).

(** What a returning run went through. *)
Lemma accumulate_selected_inv (plan_csv audio_root : string) (rng : RNG)
    log all_selected rng' :
  accumulate_selected w plan_csv audio_root rng
  = (log, inr (all_selected, rng')) →
  ∃ plan_df log1 files log2,
    load_sampling_plan w plan_csv rng = ([], inr (plan_df, rng)) ∧
    build_file_index w audio_root plan_df rng = (log1, inr (files, rng)) ∧
    Py.for_ (Py.iterrows plan_df)
      (sample_row w (build_folder_bucket_map files)) [] rng
    = (log2, inr (all_selected, rng')) ∧
    log = InfoLoadedPlan (length (Py.values plan_df)) plan_csv :: log1 ++ log2.
Proof.
  unfold accumulate_selected.
  intros (log0 & plan_df & rng0 & logr & Hload & Hrest & ->)%run_bind_inv.
  pose proof Hload as (-> & -> & _)%load_sampling_plan_inv.
  rewrite run_bind in Hrest. simpl in Hrest.
  match type of Hrest with
  | context [?m rng] => destruct (m rng) as [logr' r] eqn:Hrest'
  end.
  injection Hrest as <- ->.
  apply run_bind_inv in Hrest'
    as (log1 & files & rng1 & log2 & Hindex & Hloop & ->).
  pose proof Hindex as [-> _]%build_file_index_inv.
  exists plan_df, log1, files, log2. done.
Qed.

(** C4. When [run_sampling] writes a manifest: the plan was loaded and the
    files were indexed with the generator still in the state
    [Random(seed)] gave it; the accumulated selection and the final
    generator state are those of the prescribed traversal started from
    [Random(seed)], rows in plan order and, within a row, buckets in the
    order of the eight labels; the manifest is the deduplicated selection in
    that order.  The run is a function of the seed and its other arguments,
    so a second run with an equal seed returns the same log, rows and
    order. *)
Theorem run_sampling_deterministic (plan_csv audio_root output_csv : string)
    (seed : Z) log manifest (rng' : RNG) :
  run_sampling w plan_csv audio_root output_csv seed
  = (log, inr (manifest, rng')) →
  (∃ plan_df log1 files all_selected,
     load_sampling_plan w plan_csv (Py.Random_seed seed)
     = ([], inr (plan_df, Py.Random_seed seed)) ∧
     build_file_index w audio_root plan_df (Py.Random_seed seed)
     = (log1, inr (files, Py.Random_seed seed)) ∧
     Spec.select_plan w (Py.Random_seed seed)
       (build_folder_bucket_map files) (Py.iterrows plan_df)
     = (all_selected, rng') ∧
     manifest = manifest_of w (deduplicate all_selected)) ∧
  (∀ seed', seed' = seed →
     run_sampling w plan_csv audio_root output_csv seed'
     = (log, inr (manifest, rng'))).
Proof.
  intros Hrun. split; [| by intros ? ->].
  unfold run_sampling, run_sampling_with in Hrun.
  apply run_bind_inv in Hrun
    as (log0 & all_selected & rng1 & logr & Hacc & Hrest & _).
  simpl in Hrest. injection Hrest as _ <- <-.
  apply accumulate_selected_inv in Hacc
    as (plan_df & log1 & files & log2 & Hload & Hindex & Hloop & _).
  apply sample_rows_inv in Hloop as (selected & Hsel & ->).
  exists plan_df, log1, files, selected. done.
Qed.

End Run.

(** C4 on the sample world: the plan requesting one clip of [[0, 1)] and
    one of [[5, 10)], seed 42. *)
Lemma run_sampling_deterministic_witness :
  ∃ log manifest rng',
    sample_tts_files.run_sampling Inputs.world
      "plan_one.csv" "/data" "out.csv" 42 = (log, inr (manifest, rng')) ∧
    (∀ seed', seed' = 42 →
       sample_tts_files.run_sampling Inputs.world
         "plan_one.csv" "/data" "out.csv" seed'
       = (log, inr (manifest, rng'))) ∧
    ∃ files all_selected,
      Spec.select_plan Inputs.world (Py.Random_seed 42)
        (sample_tts_files.build_folder_bucket_map files)
        [Inputs.row_one] = (all_selected, rng') ∧
      manifest = sample_tts_files.manifest_of Inputs.world
                   (sample_tts_files.deduplicate all_selected).
Proof.
  destruct (sample_tts_files.run_sampling Inputs.world
              "plan_one.csv" "/data" "out.csv" 42)
    as [log [e|[manifest rng']]] eqn:E.
  - exfalso. vm_compute in E. discriminate E.
  - exists log, manifest, rng'. split; [reflexivity|].
    destruct (run_sampling_deterministic Inputs.world _ _ _ _ _ _ _ E)
      as [(plan_df & log1 & files & all_selected & Hload & _ & Hsel & Hman) Hdet].
    split; [exact Hdet|]. exists files, all_selected.
    assert (plan_df = {| Py.columns := Inputs.plan_columns;
                         Py.values := [Inputs.podcastA_row 1 1] |}) as ->.
    { vm_compute in Hload. by injection Hload as <-. }
    split; [exact Hsel | exact Hman].
Defined.

(** ** A plan row whose folder is not on disk *)

Section MissingFolder.

Import sample_tts_files.

Context {RNG : Type} `{!Py.Random RNG} (w : Py.World).

Implicit Types (rng : RNG) (row : Py.Series) (v : Py.cell).





End MissingFolder.

Section MissingFolderClaim.

Import sample_tts_files.

Context {RNG : Type} `{!Py.Random RNG} (w : Py.World).


End MissingFolderClaim.


(** ** The copy utility *)

Section CopyClaim.

Import copy_samples.

Context {FS : Type} (os : OS FS).

Implicit Types (fs : FS) (row : Py.Series).

Lemma copy_file_missing (src dst : string) fs :
  isfile os fs src = false →
  copy_file os src dst fs = ([WarnSourceNotFound src], inr (false, fs)).
Proof. intros Hsrc. unfold copy_file. rewrite run_bind. simpl. by rewrite Hsrc. Qed.

Lemma copy_file_copies (src dst : string) fs fs1 fs2 :
  isfile os fs src = true →
  makedirs os (dirname os dst) fs = inr fs1 →
  copy2 os src dst fs1 = inr fs2 →
  copy_file os src dst fs = ([InfoCopied src dst], inr (true, fs2)).
Proof.
  intros Hsrc Hdirs Hcopy. unfold copy_file, ensure_dir, Py.update.
  rewrite run_bind. simpl. rewrite Hsrc. simpl.
  rewrite run_bind. simpl. rewrite Hdirs. simpl.
  rewrite run_bind. simpl. rewrite Hcopy. done.
Qed.

(** C10. For a manifest row with its two fields: when the source audio file
    is missing, [copy_file] prints its warning, returns [False] and leaves
    the file system alone; whatever the audio copy returned, a transcript
    that is a file afterwards is copied to the destination (directories
    made, [copy2] done) and counted, the audio counter moving only if the
    audio copy returned [True]; so with the audio missing and the transcript
    present, the pass prints the warning and the copy, leaves the audio
    counter and adds one to the transcript counter. *)
Theorem json_copied_without_audio (dest_root : string)
    (copied_audio copied_json : Z) row (vf vr : Py.cell)
    (src_audio dest_audio src_json dest_json : string) fs :
  Py.series_get row "full_path" = Some vf →
  Py.series_get row "rel_path" = Some vr →
  src_audio = src_audio_of os (Py.str (repr_float os) vf) →
  dest_audio = dest_audio_of os dest_root (Py.str (repr_float os) vr) →
  src_json = json_of os src_audio →
  dest_json = json_of os dest_audio →
  (isfile os fs src_audio = false →
   copy_file os src_audio dest_audio fs
   = ([WarnSourceNotFound src_audio], inr (false, fs))) ∧
  (∀ log_audio (ok : bool) fs_audio fs1 fs2,
     copy_file os src_audio dest_audio fs = (log_audio, inr (ok, fs_audio)) →
     isfile os fs_audio src_json = true →
     makedirs os (dirname os dest_json) fs_audio = inr fs1 →
     copy2 os src_json dest_json fs1 = inr fs2 →
     copy_row os dest_root (copied_audio, copied_json) row fs
     = (log_audio ++ [InfoCopied src_json dest_json],
        inr ((if ok then copied_audio + 1 else copied_audio,
              copied_json + 1), fs2))) ∧
  (∀ fs1 fs2,
     isfile os fs src_audio = false →
     isfile os fs src_json = true →
     makedirs os (dirname os dest_json) fs = inr fs1 →
     copy2 os src_json dest_json fs1 = inr fs2 →
     copy_row os dest_root (copied_audio, copied_json) row fs
     = ([WarnSourceNotFound src_audio; InfoCopied src_json dest_json],
        inr ((copied_audio, copied_json + 1), fs2))).
Proof.
  intros Hvf Hvr -> -> -> ->.
  assert (Hgeneral : ∀ log_audio (ok : bool) fs_audio fs1 fs2,
    copy_file os (src_audio_of os (Py.str (repr_float os) vf))
      (dest_audio_of os dest_root (Py.str (repr_float os) vr)) fs
    = (log_audio, inr (ok, fs_audio)) →
    isfile os fs_audio
      (json_of os (src_audio_of os (Py.str (repr_float os) vf))) = true →
    makedirs os
      (dirname os (json_of os (dest_audio_of os dest_root
                                 (Py.str (repr_float os) vr)))) fs_audio
    = inr fs1 →
    copy2 os (json_of os (src_audio_of os (Py.str (repr_float os) vf)))
      (json_of os (dest_audio_of os dest_root (Py.str (repr_float os) vr)))
      fs1 = inr fs2 →
    copy_row os dest_root (copied_audio, copied_json) row fs
    = (log_audio
       ++ [InfoCopied
             (json_of os (src_audio_of os (Py.str (repr_float os) vf)))
             (json_of os (dest_audio_of os dest_root
                            (Py.str (repr_float os) vr)))],
       inr ((if ok then copied_audio + 1 else copied_audio,
             copied_json + 1), fs2))).
  { intros log_audio ok fs_audio fs1 fs2 Haudio Hjson Hdirs Hcopy.
    unfold copy_row, field. rewrite Hvf, Hvr.
    rewrite run_bind. simpl. rewrite run_bind. simpl.
    rewrite run_bind, Haudio. rewrite run_bind. simpl. rewrite Hjson.
    rewrite run_bind.
    rewrite (copy_file_copies _ _ fs_audio fs1 fs2 Hjson Hdirs Hcopy).
    done. }
  split; [apply copy_file_missing|]. split; [exact Hgeneral|].
  intros fs1 fs2 Haudio Hjson Hdirs Hcopy.
  apply (Hgeneral [WarnSourceNotFound _] false fs fs1 fs2);
    [by apply copy_file_missing | done..].
Qed.

End CopyClaim.

(** C10 on the sample disk, which holds [a.json] and not [a.wav]. *)
Lemma json_copied_without_audio_witness :
  copy_samples.copy_row Inputs.posix "/out" (0, 0) Inputs.manifest_row_a
    Inputs.disk
  = ([copy_samples.WarnSourceNotFound "/data/podcastA/a.wav";
      copy_samples.InfoCopied "/data/podcastA/a.json" "/out/podcastA/a.json"],
     inr ((0, 1), <["/out/podcastA/a.json" := "{}"]> Inputs.disk)).
Proof.
  assert (H := json_copied_without_audio Inputs.posix "/out" 0 0
    Inputs.manifest_row_a (Py.CStr "/data/podcastA/a.wav")
    (Py.CStr "podcastA/a.wav")
    "/data/podcastA/a.wav" "/out/podcastA/a.wav"
    "/data/podcastA/a.json" "/out/podcastA/a.json" Inputs.disk).
  destruct H as (_ & _ & H); [vm_compute; reflexivity .. | ].
  apply (H Inputs.disk); vm_compute; reflexivity.
Defined.

(** ** The scenarios of the specification on the sample world *)

Section Scenarios.

Import sample_tts_files.

(** The report and the sampler name their buckets alike. *)
Lemma bucket_labels_agree :
  audio_distribution.get_bucket_labels = BUCKET_DEFS.*1.
Proof. by vm_compute. Qed.

(** Two clips requested of [[0, 1)] where two are available, one of
    [[5, 10)] where one is: all three files are in the manifest. *)
Example end_to_end_takes_all :
  row_full_path <$>
    match (run_sampling Inputs.world "plan_all.csv" "/data" "out.csv" 42).2 with
    | inr (manifest, _) => manifest
    | inl _ => []
    end
  = ["/data/podcastA/a.wav"; "/data/podcastA/b.WAV"; "/data/podcastA/c.flac"].
Proof. by vm_compute. Qed.

(** One clip requested of the two of [[0, 1)]: the seeds 42 and 43 select
    one clip each, and not the same one. *)
Example end_to_end_seeds :
  row_full_path <$>
    match (run_sampling Inputs.world "plan_one.csv" "/data" "out.csv" 42).2 with
    | inr (manifest, _) => manifest
    | inl _ => []
    end
  = ["/data/podcastA/a.wav"; "/data/podcastA/c.flac"] ∧
  row_full_path <$>
    match (run_sampling Inputs.world "plan_one.csv" "/data" "out.csv" 43).2 with
    | inr (manifest, _) => manifest
    | inl _ => []
    end
  = ["/data/podcastA/b.WAV"; "/data/podcastA/c.flac"].
Proof. by vm_compute. Qed.

(** A plan without [Folder] or [group] column aborts the run. *)
Example end_to_end_no_folder_column :
  run_sampling Inputs.world "plan_nokey.csv" "/data" "out.csv" 42
  = ([], inl (Py.ValueError
                "Sampling plan must have a 'Folder' or 'group' column.")).
Proof. by vm_compute. Qed.

(** The indexer on the sample world builds the records of [Inputs.files]. *)
Example index_of_sample_world :
  build_file_index Inputs.world "/data"
    {| Py.columns := Inputs.plan_columns;
       Py.values := [Inputs.podcastA_row 1 1] |} ()
  = ([InfoFolderFound "podcastA" 3; InfoTotalIndexed 3],
     inr (Inputs.files, ())).
Proof. by vm_compute. Qed.

(** The copy utility on the sample disk: one transcript copied, no audio. *)
Example copy_main_on_sample_disk :
  (copy_samples.main Inputs.posix "samples.csv" "/out" "," Inputs.disk).1
  = [copy_samples.InfoLoaded 1 "samples.csv";
     copy_samples.WarnSourceNotFound "/data/podcastA/a.wav";
     copy_samples.InfoCopied "/data/podcastA/a.json" "/out/podcastA/a.json";
     copy_samples.InfoDone 0 1].
Proof. by vm_compute. Qed.

End Scenarios.

(* ===================================================================== *)
(** * Further properties of the code                                       *)
(* ===================================================================== *)

(** ** Finding the audio files of a folder *)

Section FindFiles.

Import sample_tts_files.

Context {S : Type} (w : Py.World).

Lemma foldl_collect {A B : Type} (f : A → B) (p : B → bool) (l : list A)
    (acc : list B) :
  foldl (λ acc x, if p (f x) then acc ++ [f x] else acc) acc l
  = acc ++ filter (λ y, p y = true) (f <$> l).
Proof.
  revert acc. induction l as [|x l IH]; intros acc; simpl.
  - by rewrite app_nil_r.
  - rewrite IH, filter_cons. destruct (p (f x)) eqn:Hp.
    + rewrite decide_True by done. by rewrite <-app_assoc.
    + rewrite decide_False by congruence. done.
Qed.

Lemma find_files_in_folder_dir (root folder_key : string) (s : S) :
  Py.path_isdir w (Py.path_join w root folder_key) = true →
  find_files_in_folder w root folder_key s
  = ([], inr (Spec.audio_paths w (Py.path_join w root folder_key), s)).
Proof.
  intros Hdir. unfold find_files_in_folder. rewrite Hdir. simpl.
  unfold Spec.audio_paths.
  generalize (Py.walk w (Py.path_join w root folder_key)).
  intros entries.
  assert (H : ∀ acc,
    foldl (λ audio_files '(dirpath, _, filenames),
      foldl (λ audio_files fname,
        if is_audio_file w (Py.path_join w dirpath fname)
        then audio_files ++ [Py.path_join w dirpath fname]
        else audio_files) audio_files filenames) acc entries
    = acc ++ concat ((λ entry : string * list string * list string,
           filter (λ full, is_audio_file w full = true)
                  (Py.path_join w entry.1.1 <$> entry.2)) <$> entries)).
  { induction entries as [|[[dirpath dirnames] filenames] entries IH];
      intros acc; simpl.
    - by rewrite app_nil_r.
    - rewrite IH.
      rewrite (foldl_collect (Py.path_join w dirpath) (is_audio_file w)).
      by rewrite <-app_assoc. }
  by rewrite (H []).
Qed.

(** X1. For a folder that is a directory, [find_files_in_folder] prints
    nothing, raises nothing and returns, in the order of [os.walk], exactly
    the joined paths [dirpath/fname] that [is_audio_file] accepts: every
    returned path is such a file, and every such file is returned. *)
Theorem find_files_in_folder_lists (root folder_key : string) (s : S) :
  Py.path_isdir w (Py.path_join w root folder_key) = true →
  find_files_in_folder w root folder_key s
  = ([], inr (Spec.audio_paths w (Py.path_join w root folder_key), s)) ∧
  ∀ full,
    full ∈ Spec.audio_paths w (Py.path_join w root folder_key) ↔
    is_audio_file w full = true ∧
    ∃ dirpath dirnames filenames fname,
      (dirpath, dirnames, filenames)
        ∈ Py.walk w (Py.path_join w root folder_key) ∧
      fname ∈ filenames ∧ full = Py.path_join w dirpath fname.
Proof.
  intros Hdir. split; [by apply find_files_in_folder_dir|].
  intros full. unfold Spec.audio_paths.
  rewrite list_elem_of_In, in_concat. split.
  - intros (l & Hl & Hfull).
    apply list_elem_of_In in Hl, Hfull. apply list_elem_of_fmap in Hl
      as ([[dirpath dirnames] filenames] & -> & Hentry).
    apply list_elem_of_filter in Hfull as [Haudio Hfull].
    apply list_elem_of_fmap in Hfull as (fname & -> & Hfname).
    split; [done|]. by exists dirpath, dirnames, filenames, fname.
  - intros (Haudio & dirpath & dirnames & filenames & fname
            & Hentry & Hfname & ->).
    eexists. split.
    + apply list_elem_of_In, list_elem_of_fmap.
      exists (dirpath, dirnames, filenames). split; [done|exact Hentry].
    + simpl. apply list_elem_of_In, list_elem_of_filter. split; [done|].
      by apply list_elem_of_fmap_2.
Qed.

End FindFiles.

(** X1 on the sample world: the text file of [podcastA] is left out, the
    file with the upper-case extension is kept. *)
Lemma find_files_in_folder_lists_witness :
  sample_tts_files.find_files_in_folder Inputs.world "/data" "podcastA" ()
  = ([], inr (["/data/podcastA/a.wav"; "/data/podcastA/b.WAV";
               "/data/podcastA/c.flac"], ())).
Proof.
  destruct (find_files_in_folder_lists Inputs.world "/data" "podcastA" ())
    as [Hrun _]; [vm_compute; reflexivity|].
  rewrite Hrun. vm_compute. reflexivity.
Defined.

(** ** Grouping the index by folder and bucket *)

Section Grouping.

Import sample_tts_files.

Implicit Types (mapping : gmap string (gmap string (list FileInfo)))
  (files : list FileInfo) (fi : FileInfo).

(** No bucket of a folder is mapped to an empty list. *)
Lemma add_file_lists_nonempty mapping fi :
  (∀ f folder_map b l,
     mapping !! f = Some folder_map → folder_map !! b = Some l → l ≠ []) →
  ∀ f folder_map b l,
    add_file mapping fi !! f = Some folder_map → folder_map !! b = Some l →
    l ≠ [].
Proof.
  intros Hne f folder_map b l. unfold add_file.
  destruct (bucket fi) as [b0|]; [| apply Hne].
  destruct (decide (folder fi = f)) as [<-|Hf].
  - rewrite lookup_insert_eq. intros [= <-].
    destruct (decide (b0 = b)) as [<-|Hb].
    + rewrite lookup_insert_eq. intros [= <-]. by destruct (default [] _).
    + rewrite lookup_insert_ne by done.
      destruct (mapping !! folder fi) as [folder_map|] eqn:Hm; simpl.
      * by apply Hne with (folder fi).
      * by rewrite lookup_empty.
  - rewrite lookup_insert_ne by done. apply Hne.
Qed.

Lemma build_folder_bucket_map_lists_nonempty files f folder_map b l :
  build_folder_bucket_map files !! f = Some folder_map →
  folder_map !! b = Some l → l ≠ [].
Proof.
  unfold build_folder_bucket_map.
  assert (H : ∀ mapping,
    (∀ f fm b l, mapping !! f = Some fm → fm !! b = Some l → l ≠ []) →
    ∀ f fm b l, foldl add_file mapping files !! f = Some fm →
                fm !! b = Some l → l ≠ []).
  { induction files as [|fi files IH]; intros mapping Hne; simpl; [done|].
    apply IH. by apply add_file_lists_nonempty. }
  apply H. intros ????. by rewrite lookup_empty.
Qed.

(** X2. [build_folder_bucket_map] groups the index by folder and bucket and
    keeps index order: the list under a folder and a bucket holds exactly
    the indexed files of that folder and bucket; a folder is a key exactly
    when one of its indexed files has a bucket, and a bucket is a key of a
    folder's dictionary exactly when an indexed file of the folder is in
    it, so neither an empty dictionary nor an empty list is ever stored;
    files without a bucket appear nowhere. *)
Theorem build_folder_bucket_map_groups files :
  (∀ f b, Spec.files_at (build_folder_bucket_map files) f b
          = Spec.available_in files f b) ∧
  (∀ f, is_Some (build_folder_bucket_map files !! f) ↔
        ∃ fi, fi ∈ files ∧ folder fi = f ∧ is_Some (bucket fi)) ∧
  (∀ f folder_map b,
     build_folder_bucket_map files !! f = Some folder_map →
     (is_Some (folder_map !! b) ↔
      ∃ fi, fi ∈ files ∧ folder fi = f ∧ bucket fi = Some b) ∧
     (∀ l, folder_map !! b = Some l →
           l = Spec.available_in files f b ∧ l ≠ [])) ∧
  (∀ f b fi, fi ∈ Spec.files_at (build_folder_bucket_map files) f b →
             fi ∈ files ∧ folder fi = f ∧ bucket fi = Some b).
Proof.
  assert (Hlookup : ∀ f b fm l,
    build_folder_bucket_map files !! f = Some fm → fm !! b = Some l →
    l = Spec.available_in files f b).
  { intros f b fm l Hf Hb.
    rewrite <-(build_folder_bucket_map_lookup files f b), Hf. simpl.
    by rewrite Hb. }
  split; [| split; [| split]].
  - intros f b. apply build_folder_bucket_map_lookup.
  - intros f. split.
    + intros [fm Hfm].
      destruct (map_choose fm) as (b & l & Hb);
        [by eapply build_folder_bucket_map_nonempty|].
      pose proof (build_folder_bucket_map_lists_nonempty _ _ _ _ _ Hfm Hb)
        as Hne.
      rewrite (Hlookup _ _ _ _ Hfm Hb) in Hne.
      destruct (Spec.available_in files f b) as [|fi l'] eqn:Ha; [done|].
      assert (Hin : fi ∈ Spec.available_in files f b)
        by (rewrite Ha; left).
      apply list_elem_of_filter in Hin as [[Hf Hbk] Hin].
      exists fi. by rewrite Hbk.
    + intros (fi & Hin & Hf & [b Hb]).
      destruct (build_folder_bucket_map files !! f) as [fm|] eqn:Hfm; [done|].
      assert (Ha : fi ∈ Spec.available_in files f b)
        by (apply list_elem_of_filter; done).
      rewrite <-build_folder_bucket_map_lookup, Hfm in Ha. simpl in Ha.
      rewrite lookup_empty in Ha. by apply elem_of_nil in Ha.
  - intros f fm b Hfm. split.
    + split.
      * intros [l Hl].
        pose proof (build_folder_bucket_map_lists_nonempty _ _ _ _ _ Hfm Hl)
          as Hne.
        rewrite (Hlookup _ _ _ _ Hfm Hl) in Hne.
        destruct (Spec.available_in files f b) as [|fi l'] eqn:Ha; [done|].
        assert (Hin : fi ∈ Spec.available_in files f b)
          by (rewrite Ha; left).
        apply list_elem_of_filter in Hin as [[Hf Hbk] Hin]. by exists fi.
      * intros (fi & Hin & Hf & Hb).
        destruct (fm !! b) as [l|] eqn:Hl; [done|].
        assert (Ha : fi ∈ Spec.available_in files f b)
          by (apply list_elem_of_filter; done).
        rewrite <-build_folder_bucket_map_lookup, Hfm in Ha. simpl in Ha.
        rewrite Hl in Ha. by apply elem_of_nil in Ha.
    + intros l Hl. split; [by eapply Hlookup|].
      by eapply build_folder_bucket_map_lists_nonempty.
  - intros f b fi. unfold Spec.files_at.
    rewrite build_folder_bucket_map_lookup.
    intros [[? ?] ?]%list_elem_of_filter. done.
Qed.

End Grouping.

(** ** The final deduplication *)

Section Deduplicate.

Import sample_tts_files.

Lemma filter_filter_l {A} (P Q : A → Prop) `{!∀ x, Decision (P x)}
    `{!∀ x, Decision (Q x)} (l : list A) :
  (∀ x, x ∈ l → P x → Q x) → filter P (filter Q l) = filter P l.
Proof.
  intros HPQ. induction l as [|x l IH]; [done|].
  rewrite !(filter_cons _ x).
  assert (IH' : filter P (filter Q l) = filter P l).
  { apply IH. intros y Hy. apply HPQ. by right. }
  destruct (decide (Q x)) as [HQ|HQ].
  - rewrite filter_cons. by rewrite IH'.
  - rewrite decide_False; [done|]. intros HP. apply HQ, HPQ; [left|done].
Qed.

(** The keys of the dictionary after the loop has run from [d] over [l]. *)
Lemma dict_set_foldl_keys {K V} `{EqDecision K} (key : V → K) (l : list V)
    (d : list (K * V)) :
  (foldl (λ d v, Py.dict_set (key v) v d) d l).*1
  = d.*1 ++ filter (λ k, k ∉ d.*1) (Spec.first_occurrences (key <$> l)).
Proof.
  revert d. induction l as [|v l IH]; intros d; simpl.
  - by rewrite app_nil_r.
  - rewrite IH, filter_cons. destruct (decide (key v ∈ d.*1)) as [Hin|Hnin].
    + rewrite dict_set_keys_present by done.
      rewrite decide_False by (intros Hn; by apply Hn).
      f_equal. symmetry. apply filter_filter_l.
      intros k _ Hk ->. done.
    + rewrite dict_set_fresh by done. rewrite decide_True by done.
      rewrite fmap_app, <-app_assoc. simpl. do 2 f_equal.
      rewrite list_filter_filter. apply list_filter_iff.
      intros k. rewrite elem_of_app, list_elem_of_singleton. tauto.
Qed.

Lemma dict_set_foldl_fresh {K V} `{EqDecision K} (key : V → K) (l : list V)
    (d : list (K * V)) :
  NoDup (d.*1 ++ (key <$> l)) →
  foldl (λ d v, Py.dict_set (key v) v d) d l = d ++ ((λ v, (key v, v)) <$> l).
Proof.
  revert d. induction l as [|v l IH]; intros d; csimpl.
  - intros _. by rewrite app_nil_r.
  - intros Hnd.
    assert (Hnin : key v ∉ d.*1).
    { apply NoDup_app in Hnd as (_ & Hdis & _). intros Hin.
      apply (Hdis _ Hin). left. }
    rewrite dict_set_fresh by done. rewrite IH.
    + by rewrite <-app_assoc.
    + rewrite fmap_app, <-app_assoc. exact Hnd.
Qed.

(** X3. The deduplication keeps one record for each (folder, path) key, at
    the position of the key's first occurrence: the keys of the result are
    the keys of the input in order of first occurrence.  So a selection
    whose keys are already distinct is returned as it is, in the same
    order; deduplicating twice is deduplicating once; and the result is
    never longer than the input. *)
Theorem deduplicate_first_occurrences (all_selected : list FileInfo) :
  Spec.key <$> deduplicate all_selected
  = Spec.first_occurrences (Spec.key <$> all_selected) ∧
  (NoDup (Spec.key <$> all_selected) →
   deduplicate all_selected = all_selected) ∧
  deduplicate (deduplicate all_selected) = deduplicate all_selected ∧
  (length (deduplicate all_selected) ≤ length all_selected)%nat.
Proof.
  assert (Hid : ∀ l : list FileInfo,
    NoDup (Spec.key <$> l) → deduplicate l = l).
  { intros l Hnd. unfold deduplicate, Py.dict_values.
    rewrite (dict_set_foldl_fresh Spec.key l []) by done. simpl.
    rewrite <-list_fmap_compose. apply list_fmap_id. }
  assert (Hkeys : ∀ l : list FileInfo,
    Spec.key <$> deduplicate l
    = (foldl (λ d fi, Py.dict_set (Spec.key fi) fi d) [] l).*1).
  { intros l. unfold deduplicate, Py.dict_values.
    destruct (unique_selected_inv l) as (_ & Hval & _). simpl in Hval.
    change (λ (unique_selected : list (string * string * FileInfo)) fi,
              Py.dict_set (folder fi, path fi) fi unique_selected)
      with (λ (d : list (string * string * FileInfo)) fi,
              Py.dict_set (Spec.key fi) fi d) in *.
    generalize dependent
      (foldl (λ (d : list (string * string * FileInfo)) fi,
                Py.dict_set (Spec.key fi) fi d) [] l).
    intros d Hd. induction d as [|[k fi] d IH]; [done|].
    simpl. f_equal.
    - apply (Hd k fi). left.
    - apply IH. intros k' fi' Hin. apply Hd. by right. }
  split; [| split; [| split]].
  - rewrite Hkeys, (dict_set_foldl_keys Spec.key all_selected []). simpl.
    apply filter_all. intros k _. apply not_elem_of_nil.
  - apply Hid.
  - apply Hid. rewrite Hkeys.
    by destruct (unique_selected_inv all_selected) as (Hnd & _).
  - assert (Hlen : ∀ (l : list FileInfo) d,
      (length (foldl (λ d fi, Py.dict_set (folder fi, path fi) fi d) d l)
       ≤ length d + length l)%nat).
    { induction l as [|fi l IH]; intros d; simpl; [lia|].
      etrans; [apply IH|].
      destruct (decide ((folder fi, path fi) ∈ d.*1)) as [Hin|Hnin].
      - assert (length (Py.dict_set (folder fi, path fi) fi d) = length d).
        { rewrite <-(length_fmap fst), dict_set_keys_present by done.
          by rewrite length_fmap. }
        lia.
      - rewrite dict_set_fresh, length_app by done. simpl. lia. }
    unfold deduplicate, Py.dict_values. rewrite length_fmap.
    etrans; [apply Hlen|]. simpl. lia.
Qed.

End Deduplicate.

(** ** The index *)

Section IndexRecords.

Import sample_tts_files.

Context {S : Type} (w : Py.World).

Implicit Types (s : S) (row : Py.Series) (all_files : list FileInfo).

(** The duration returned does not depend on the state the function is run
    in. *)
Lemma get_duration_seconds_value (f : string) s :
  ∃ log, get_duration_seconds w f s = (log, inr (Spec.duration_of w f, s)).
Proof.
  unfold Spec.duration_of, get_duration_seconds.
  destruct (Py.sf_info w f) as [e|[frames samplerate]]; [by eexists|].
  destruct (0 <? samplerate); [| by eexists].
  destruct (Py.to_float frames) as [?|?], (Py.to_float samplerate) as [?|?];
    by eexists.
Qed.

Lemma index_file_value (audio_root folder_key : string) all_files (f : string) s :
  ∃ log,
    index_file w audio_root folder_key all_files f s
    = (log, inr (all_files ++ option_list
                   (Spec.record_of w audio_root folder_key f
                      <$> Spec.duration_of w f), s)).
Proof.
  unfold index_file. destruct (get_duration_seconds_value f s) as [log Hd].
  rewrite run_bind, Hd.
  destruct (Spec.duration_of w f) as [dur|]; simpl.
  - rewrite app_nil_r. by eexists.
  - rewrite !app_nil_r. by eexists.
Qed.

Lemma index_files_value (audio_root folder_key : string) (files : list string)
    all_files s :
  ∃ log,
    Py.for_ files (index_file w audio_root folder_key) all_files s
    = (log, inr (all_files ++
                   omap (λ f, Spec.record_of w audio_root folder_key f
                                <$> Spec.duration_of w f) files, s)).
Proof.
  revert all_files. induction files as [|f files IH]; intros all_files.
  - exists []. simpl. by rewrite app_nil_r.
  - destruct (index_file_value audio_root folder_key all_files f s)
      as [log1 H1].
    destruct (IH (all_files ++ option_list
                    (Spec.record_of w audio_root folder_key f
                       <$> Spec.duration_of w f))) as [log2 H2].
    exists (log1 ++ log2). rewrite (for_cons_run _ _ _ _ _ _ _ _ _ _ H1 H2).
    do 3 f_equal. rewrite <-app_assoc. f_equal.
    simpl. by destruct (Spec.duration_of w f).
Qed.

Lemma index_folder_value (audio_root : string) all_files row (key : string) s :
  Spec.folder_of w row = Some key →
  ∃ log,
    index_folder w audio_root all_files row s
    = (log, inr (all_files ++ Spec.folder_records w audio_root key, s)).
Proof.
  unfold Spec.folder_of, index_folder, folder_key_of. intros Hkey.
  destruct (Py.series_get row "Folder") as [v|]; [|done].
  injection Hkey as <-. rewrite run_bind. simpl.
  unfold Spec.folder_records.
  destruct (Py.path_isdir w _) eqn:Hdir.
  - rewrite run_bind, (find_files_in_folder_dir w audio_root _ s Hdir).
    simpl.
    destruct (index_files_value audio_root (Py.str (Py.repr_float w) v)
                (Spec.audio_paths w (Py.path_join w audio_root
                   (Py.str (Py.repr_float w) v))) all_files s) as [log H].
    rewrite run_bind. simpl. rewrite H. by eexists.
  - unfold find_files_in_folder. rewrite Hdir. simpl.
    rewrite app_nil_r. by eexists.
Qed.

Lemma index_rows_value (audio_root : string) (rows : list Py.Series)
    all_files s :
  (∀ row, row ∈ rows → is_Some (Spec.folder_of w row)) →
  ∃ log,
    Py.for_ rows (index_folder w audio_root) all_files s
    = (log, inr (all_files ++
         concat ((λ row, Spec.folder_records w audio_root
                           (default "" (Spec.folder_of w row))) <$> rows), s)).
Proof.
  revert all_files. induction rows as [|row rows IH]; intros all_files Hrows.
  - exists []. simpl. by rewrite app_nil_r.
  - destruct (Hrows row) as [key Hkey]; [left|].
    destruct (index_folder_value audio_root all_files row key s Hkey)
      as [log1 H1].
    destruct (IH (all_files ++ Spec.folder_records w audio_root key))
      as [log2 H2].
    { intros row' Hin. apply Hrows. by right. }
    exists (log1 ++ log2). rewrite (for_cons_run _ _ _ _ _ _ _ _ _ _ H1 H2).
    do 3 f_equal. rewrite <-app_assoc. f_equal. csimpl. by rewrite Hkey.
Qed.

Lemma build_file_index_value (audio_root : string) (plan_df : Py.DataFrame) s :
  (∀ row, row ∈ Py.iterrows plan_df → is_Some (Spec.folder_of w row)) →
  ∃ log files,
    build_file_index w audio_root plan_df s
    = (log ++ [InfoTotalIndexed (length files)], inr (files, s)) ∧
    files = concat ((λ row, Spec.folder_records w audio_root
                              (default "" (Spec.folder_of w row)))
                    <$> Py.iterrows plan_df).
Proof.
  intros Hrows.
  destruct (index_rows_value audio_root (Py.iterrows plan_df) [] s Hrows)
    as [log Hrun].
  simpl in Hrun. eexists log, _. split; [|done].
  unfold build_file_index. rewrite run_bind, Hrun. simpl. done.
Qed.

(** X4. On a plan every row of which has a [Folder] cell, [build_file_index]
    raises nothing, leaves the state as it found it, ends its output with
    the total, and returns, row after row, the records of each row's folder
    key.  So a record is in the index exactly when it describes an audio
    file found below the folder of a plan row that is a directory and whose
    duration could be read; its bucket is the one [assign_bucket] gives its
    duration, and its relative path is taken from the audio root. *)
Theorem build_file_index_records (audio_root : string)
    (plan_df : Py.DataFrame) s :
  (∀ row, row ∈ Py.iterrows plan_df → is_Some (Spec.folder_of w row)) →
  ∃ log files,
    build_file_index w audio_root plan_df s
    = (log ++ [InfoTotalIndexed (length files)], inr (files, s)) ∧
    files = concat ((λ row, Spec.folder_records w audio_root
                              (default "" (Spec.folder_of w row)))
                    <$> Py.iterrows plan_df) ∧
    (∀ fi, fi ∈ files ↔
       ∃ row f dur,
         row ∈ Py.iterrows plan_df ∧
         Spec.folder_of w row = Some (folder fi) ∧
         Py.path_isdir w (Py.path_join w audio_root (folder fi)) = true ∧
         f ∈ Spec.audio_paths w (Py.path_join w audio_root (folder fi)) ∧
         Spec.duration_of w f = Some dur ∧
         fi = Spec.record_of w audio_root (folder fi) f dur) ∧
    (∀ fi, fi ∈ files →
       bucket fi = assign_bucket (duration fi) ∧
       rel_path fi = Py.path_relpath w (path fi) audio_root ∧
       Spec.duration_of w (path fi) = Some (duration fi)).
Proof.
  intros Hrows.
  destruct (build_file_index_value audio_root plan_df s Hrows)
    as (log & files0 & Hrun & ->).
  set (files := concat ((λ row, Spec.folder_records w audio_root
                                  (default "" (Spec.folder_of w row)))
                        <$> Py.iterrows plan_df)) in *.
  assert (Hmem : ∀ fi, fi ∈ files ↔
       ∃ row f dur,
         row ∈ Py.iterrows plan_df ∧
         Spec.folder_of w row = Some (folder fi) ∧
         Py.path_isdir w (Py.path_join w audio_root (folder fi)) = true ∧
         f ∈ Spec.audio_paths w (Py.path_join w audio_root (folder fi)) ∧
         Spec.duration_of w f = Some dur ∧
         fi = Spec.record_of w audio_root (folder fi) f dur).
  { intros fi. unfold files. rewrite list_elem_of_In, in_concat. split.
    - intros (l & Hl & Hfi). apply list_elem_of_In in Hl, Hfi.
      apply list_elem_of_fmap in Hl as (row & -> & Hrow).
      destruct (Hrows row Hrow) as [key Hkey]. rewrite Hkey in Hfi.
      simpl in Hfi. unfold Spec.folder_records in Hfi.
      destruct (Py.path_isdir w (Py.path_join w audio_root key)) eqn:Hdir;
        [| by apply elem_of_nil in Hfi].
      apply list_elem_of_omap in Hfi as (f & Hf & Hrec).
      destruct (Spec.duration_of w f) as [dur|] eqn:Hdur; [|done].
      injection Hrec as <-. simpl. by exists row, f, dur.
    - intros (row & f & dur & Hrow & Hkey & Hdir & Hf & Hdur & Hfi).
      eexists. split.
      + apply list_elem_of_In, list_elem_of_fmap. by exists row.
      + apply list_elem_of_In. rewrite Hkey. simpl.
        unfold Spec.folder_records. rewrite Hdir.
        apply list_elem_of_omap. exists f. split; [done|].
        by rewrite Hdur, Hfi. }
  exists log, files. split; [done | split; [done | split; [done|]]].
  intros fi (row & f & dur & _ & _ & _ & _ & Hdur & ->)%Hmem. done.
Qed.

End IndexRecords.

(** X4 on the sample world: the three audio files of [podcastA], each with
    the bucket of its duration. *)
Lemma build_file_index_records_witness :
  ∃ log,
    sample_tts_files.build_file_index Inputs.world "/data"
      {| Py.columns := Inputs.plan_columns;
         Py.values := [Inputs.podcastA_row 1 1] |} ()
    = (log ++ [sample_tts_files.InfoTotalIndexed 3], inr (Inputs.files, ())).
Proof.
  destruct (build_file_index_records Inputs.world "/data"
              {| Py.columns := Inputs.plan_columns;
                 Py.values := [Inputs.podcastA_row 1 1] |} ())
    as (log & files & Hrun & Hfiles & _).
  { intros row ->%list_elem_of_singleton. by eexists. }
  exists log. rewrite Hrun, Hfiles. vm_compute. reflexivity.
Defined.

(** ** The selection of a folder as a whole *)

Section FolderSelection.

Import sample_tts_files.

Context {RNG : Type} `{!Py.Random RNG} `{!Py.RandomSpec RNG}.

Implicit Types (rng : RNG) (files : list FileInfo) (row : Py.Series).

Local Abbreviation labels := (BUCKET_DEFS.*1).

Lemma filter_disjoint_app {A} (P Q R : A → Prop) `{!∀ x, Decision (P x)}
    `{!∀ x, Decision (Q x)} `{!∀ x, Decision (R x)} (l : list A) :
  (∀ x, P x → Q x → False) → (∀ x, R x ↔ P x ∨ Q x) →
  filter P l ++ filter Q l ≡ₚ filter R l.
Proof.
  intros Hdis HR. induction l as [|x l IH]; [done|].
  rewrite !(filter_cons _ x).
  destruct (decide (P x)) as [HP|HP], (decide (Q x)) as [HQ|HQ].
  - destruct (Hdis x HP HQ).
  - rewrite decide_True by (apply HR; by left). simpl. by rewrite IH.
  - rewrite decide_True by (apply HR; by right).
    rewrite <-Permutation_middle. by rewrite IH.
  - rewrite decide_False; [done|]. intros [?|?]%HR; done.
Qed.

(** What is chosen over a list of requests is drawn, without replacement,
    from the indexed files of the folder lying in the requested buckets. *)
Lemma select_buckets_submseteq rng files folder_key
    (requested : list (string * Z)) :
  NoDup requested.*1 → (∀ b n, (b, n) ∈ requested → 0 < n) →
  (Spec.select_buckets rng
     (default ∅ (build_folder_bucket_map files !! folder_key)) requested).1
  ⊆+ filter (λ fi, folder fi = folder_key ∧
                   bucket fi ∈ Some <$> requested.*1) files.
Proof.
  revert rng. induction requested as [|[b0 n0] requested IH];
    intros rng Hnd Hpos.
  { simpl. apply submseteq_nil_l. }
  csimpl in Hnd. apply NoDup_cons in Hnd as [Hb0 Hnd].
  assert (Hn0 : 0 < n0) by (apply (Hpos b0); by left).
  simpl Spec.select_buckets.
  pose proof (choose_submseteq rng
    (default [] (default ∅ (build_folder_bucket_map files !! folder_key)
                 !! b0)) n0 ltac:(lia)) as Hsub.
  destruct (Spec.choose rng _ n0) as [chosen rng1].
  specialize (IH rng1 Hnd) as IH'.
  destruct (Spec.select_buckets rng1 _ requested) as [more rng2].
  simpl in *. rewrite build_folder_bucket_map_lookup in Hsub.
  rewrite <-(filter_disjoint_app
    (λ fi, folder fi = folder_key ∧ bucket fi = Some b0)
    (λ fi, folder fi = folder_key ∧ bucket fi ∈ Some <$> requested.*1)).
  - apply submseteq_app; [exact Hsub|]. apply IH'.
    intros b n ?. apply (Hpos b). by right.
  - intros fi [_ Hb] [_ Hin]. rewrite Hb in Hin.
    apply list_elem_of_fmap in Hin as (b & [= <-] & Hin). done.
  - intros fi. csimpl. rewrite elem_of_cons. split.
    + intros [? [->|?]]; [left | right]; done.
    + intros [[? ->]|[? ?]]; (split; [done|]); [by left | by right].
Qed.


End FolderSelection.


(** ** The whole run: what the manifest holds, and when it is written *)

Section RunRows.

Import sample_tts_files.

Context {RNG : Type} `{!Py.Random RNG} (w : Py.World).

Implicit Types (rng : RNG) (row : Py.Series) (all_selected : list FileInfo)
  (folder_bucket_map : gmap string (gmap string (list FileInfo))).

Local Abbreviation labels := (BUCKET_DEFS.*1).





End RunRows.


Section ManifestRows.

Import sample_tts_files.

Context {RNG : Type} `{!Py.Random RNG} `{!Py.RandomSpec RNG} (w : Py.World).

Implicit Types (rng : RNG) (row : Py.Series) (files : list FileInfo).

Local Abbreviation labels := (BUCKET_DEFS.*1).

(** What a pass over a plan row appends comes from the indexed files of the
    row's folder, out of buckets the row requests. *)
Lemma sample_row_sound files (all_selected : list FileInfo) row rng log
    all_selected' rng' :
  sample_row w (build_folder_bucket_map files) all_selected row rng
  = (log, inr (all_selected', rng')) →
  ∃ selected,
    all_selected' = all_selected ++ selected ∧
    ∀ fi, fi ∈ selected →
      fi ∈ files ∧ Spec.folder_of w row = Some (folder fi) ∧
      ∃ b K, b ∈ labels ∧ bucket fi = Some b ∧
             Spec.request_of row b = Some (b, K).
Proof.
  intros Hrun. pose proof Hrun as Hinv.
  apply sample_row_inv in Hinv as (selected & Hsel & ->).
  exists selected. split; [done|]. intros fi Hfi.
  unfold sample_row in Hrun.
  apply run_bind_inv in Hrun as (? & key & ? & ? & Hkey & _).
  apply folder_key_of_inv in Hkey as (_ & _ & v & Hv & ->).
  unfold Spec.select_row, Spec.folder_of in *. rewrite Hv in *. simpl in *.
  destruct (bool_decide _); [injection Hsel as <- _; by apply elem_of_nil in Hfi|].
  unfold Spec.select_folder in Hsel.
  pose proof (select_buckets_submseteq rng files (Py.str (Py.repr_float w) v)
    (omap (Spec.request_of row) labels) (requests_keys_NoDup row)) as Hsub.
  rewrite Hsel in Hsub. cbn [fst] in Hsub.
  eapply elem_of_submseteq in Hsub; [| exact Hfi |].
  - apply list_elem_of_filter in Hsub as [[Hfolder Hb] Hin].
    split; [done|]. split; [by rewrite Hfolder|].
    apply list_elem_of_fmap in Hb as (b & Hb & Hreq).
    apply list_elem_of_fmap in Hreq as ([b' K] & -> & Hreq).
    apply list_elem_of_omap in Hreq as (b'' & Hb'' & Hreq).
    apply request_of_Some in Hreq as Hreq'. destruct Hreq' as [-> _].
    by exists b'', K.
  - intros b n Hin. by apply requests_positive in Hin as [? _].
Qed.

Lemma sample_rows_sound files (rows : list Py.Series)
    (all_selected : list FileInfo) rng log all_selected' rng' :
  Py.for_ rows (sample_row w (build_folder_bucket_map files)) all_selected rng
  = (log, inr (all_selected', rng')) →
  ∀ fi, fi ∈ all_selected' →
    fi ∈ all_selected ∨
    (fi ∈ files ∧
     ∃ row b K, row ∈ rows ∧ Spec.folder_of w row = Some (folder fi) ∧
                b ∈ labels ∧ bucket fi = Some b ∧
                Spec.request_of row b = Some (b, K)).
Proof.
  revert all_selected rng log.
  induction rows as [|row rows IH]; intros all_selected rng log Hrun fi Hfi.
  - simpl in Hrun. injection Hrun as _ <- _. by left.
  - apply for_cons_inv in Hrun as (log1 & acc & rng1 & log2 & H1 & H2 & _).
    apply sample_row_sound in H1 as (selected & -> & Hsound).
    destruct (IH _ _ _ H2 fi Hfi) as [[Hin|Hin]%elem_of_app|Hin].
    + by left.
    + right. destruct (Hsound fi Hin) as (? & ? & b & K & ? & ? & ?).
      split; [done|]. exists row, b, K. split; [left|done].
    + right. destruct Hin as (? & row' & b & K & ? & ?).
      split; [done|]. exists row', b, K. split; [by right|done].
Qed.

(** X7. Every row of a manifest that [run_sampling] writes describes an indexed
    file: its fields are those of a record of the index, the folder of that
    record is the key of a plan row, and that plan row requests the bucket
    of the record.  So the sampler writes no file it has not found and
    measured, none without a bucket, and none from a bucket that no row of
    its folder asks for. *)
Theorem manifest_rows_indexed (plan_csv audio_root output_csv : string)
    (seed : Z) log manifest (rng' : RNG) :
  run_sampling w plan_csv audio_root output_csv seed
  = (log, inr (manifest, rng')) →
  ∃ plan_df log1 files,
    load_sampling_plan w plan_csv (Py.Random_seed seed)
    = ([], inr (plan_df, Py.Random_seed seed)) ∧
    build_file_index w audio_root plan_df (Py.Random_seed seed)
    = (log1, inr (files, Py.Random_seed seed)) ∧
    ∀ r, r ∈ manifest →
      ∃ fi row b K,
        fi ∈ files ∧ [r] = manifest_of w [fi] ∧
        row ∈ Py.iterrows plan_df ∧
        Spec.folder_of w row = Some (row_folder r) ∧
        b ∈ labels ∧ row_bucket r = Some b ∧
        Spec.request_of row b = Some (b, K).
Proof.
  intros Hrun. unfold run_sampling, run_sampling_with in Hrun.
  apply run_bind_inv in Hrun
    as (log0 & all_selected & rng1 & logr & Hacc & Hrest & _).
  simpl in Hrest. injection Hrest as _ <- <-.
  apply accumulate_selected_inv in Hacc
    as (plan_df & log1 & files & log2 & Hload & Hindex & Hloop & _).
  exists plan_df, log1, files. split; [done|]. split; [done|].
  intros r Hr. unfold manifest_of in Hr.
  apply list_elem_of_fmap in Hr as (fi & -> & Hfi).
  assert (Hin : fi ∈ all_selected).
  { unfold deduplicate, Py.dict_values in Hfi.
    apply list_elem_of_fmap in Hfi as ([k fi'] & -> & Hfi).
    destruct (unique_selected_inv all_selected) as (_ & Hlast & _).
    destruct (Hlast k fi' Hfi) as (_ & l1 & l2 & -> & _).
    apply elem_of_app. right. left. }
  destruct (sample_rows_sound files _ _ _ _ _ _ Hloop fi Hin)
    as [Hnil|(Hfiles & row & b & K & Hrow & Hkey & Hb & Hbucket & Hreq)];
    [by apply elem_of_nil in Hnil|].
  by exists fi, row, b, K.
Qed.

End ManifestRows.

(** X7 on the sample world: both rows of the manifest come from the three
    indexed files of [podcastA]. *)
Lemma manifest_rows_indexed_witness :
  ∃ log manifest (rng' : Z),
    sample_tts_files.run_sampling Inputs.world
      "plan_one.csv" "/data" "out.csv" 42 = (log, inr (manifest, rng')) ∧
    ∀ r, r ∈ manifest →
      ∃ fi, fi ∈ Inputs.files ∧
            [r] = sample_tts_files.manifest_of Inputs.world [fi].
Proof.
  destruct (sample_tts_files.run_sampling Inputs.world
              "plan_one.csv" "/data" "out.csv" 42)
    as [log [e|[manifest rng']]] eqn:E; [by vm_compute in E|].
  exists log, manifest, rng'. split; [reflexivity|].
  destruct (manifest_rows_indexed Inputs.world _ _ _ _ _ _ _ E)
    as (plan_df & log1 & files & Hload & Hindex & Hrows).
  vm_compute in Hload. injection Hload as <-.
  vm_compute in Hindex. injection Hindex as _ <-.
  intros r Hr. destruct (Hrows r Hr) as (fi & _ & _ & _ & Hfi & Hr' & _).
  exists fi. split; [exact Hfi | exact Hr'].
Defined.

(** ** What stops a run, and what a row's selection depends on *)

Section RowCells.

Import sample_tts_files.

Context {RNG : Type} `{!Py.Random RNG} (w : Py.World).

Implicit Types (rng : RNG) (row : Py.Series) (all_selected : list FileInfo)
  (folder_bucket_map : gmap string (gmap string (list FileInfo))).

Local Abbreviation labels := (BUCKET_DEFS.*1).







End RowCells.



(** ** The copy utility *)

Section CopyRuns.

Import copy_samples.

Context {FS : Type} (os : OS FS).

Implicit Types (fs : FS) (row : Py.Series) (log : list event).

Lemma copies_app log1 log2 :
  Spec.copies (log1 ++ log2) = Spec.copies log1 + Spec.copies log2.
Proof. unfold Spec.copies. rewrite filter_app, length_app. lia. Qed.

Lemma run_bind_raises {S W A B} (m : Py.M S W A) (f : A → Py.M S W B) s w e :
  (m ≫= f) s = (w, inl e) →
  (∃ w1, m s = (w1, inl e)) ∨
  (∃ w1 a s' w2, m s = (w1, inr (a, s')) ∧ f a s' = (w2, inl e)).
Proof.
  rewrite run_bind. destruct (m s) as [w1 [e1|[a s']]].
  - intros [= _ <-]. left. by eexists.
  - destruct (f a s') as [w2 r] eqn:E. intros [= _ ->]. right. by eexists _, _, _, _.
Qed.

Lemma for_raises_inv {S W A B} (body : B → A → Py.M S W B) (l : list A)
    acc s (out : list W) e :
  Py.for_ l body acc s = (out, inl e) →
  ∃ x acc0 s0 outx, x ∈ l ∧ body acc0 x s0 = (outx, inl e).
Proof.
  revert acc s out. induction l as [|x l IH]; intros acc s out; [done|].
  simpl. intros [[w1 H1]|(w1 & acc' & s' & w2 & H1 & H2)]%run_bind_raises.
  - exists x, acc, s, w1. split; [left|done].
  - destruct (IH _ _ _ H2) as (y & acc0 & s0 & logy & Hy & Hbody).
    exists y, acc0, s0, logy. split; [by right|done].
Qed.

(** What [copy_file] does when it returns, and what can make it raise. *)
Lemma copy_file_returns (src dst : string) fs log (ok : bool) fs' :
  copy_file os src dst fs = (log, inr (ok, fs')) →
  ok = isfile os fs src ∧ Spec.copies log = (if ok then 1 else 0) ∧
  (ok = false → fs' = fs).
Proof.
  unfold copy_file. rewrite run_bind. simpl.
  destruct (isfile os fs src); simpl.
  - unfold ensure_dir, Py.update, Py.act. rewrite run_bind.
    destruct (makedirs os (dirname os dst) fs) as [e|fs1]; [done|]. simpl.
    rewrite run_bind.
    destruct (copy2 os src dst fs1) as [e|fs2]; [done|]. simpl.
    by intros [= <- <- <-].
  - by intros [= <- <- <-].
Qed.

Lemma copy_file_raises (src dst : string) fs log e :
  copy_file os src dst fs = (log, inl e) →
  isfile os fs src = true ∧
  (makedirs os (dirname os dst) fs = inl e ∨
   ∃ fs1, makedirs os (dirname os dst) fs = inr fs1 ∧
          copy2 os src dst fs1 = inl e).
Proof.
  unfold copy_file. rewrite run_bind. simpl.
  destruct (isfile os fs src); simpl; [|done].
  unfold ensure_dir, Py.update, Py.act. rewrite run_bind.
  destruct (makedirs os (dirname os dst) fs) as [e1|fs1]; simpl.
  { intros [= _ <-]. split; [done|]. by left. }
  rewrite run_bind.
  destruct (copy2 os src dst fs1) as [e2|fs2] eqn:Hcopy; simpl; [|done].
  intros [= _ <-]. split; [done|]. right. by exists fs1.
Qed.

Lemma field_inv row (col : string) fs log (v : string) fs' :
  field os row col fs = (log, inr (v, fs')) → log = [] ∧ fs' = fs.
Proof.
  unfold field. destruct (Py.series_get row col); [|done].
  by intros [= <- _ <-].
Qed.

Lemma field_raises row (col : string) fs log e :
  field os row col fs = (log, inl e) → e = Py.KeyError col.
Proof.
  unfold field. destruct (Py.series_get row col); [done|].
  by intros [= _ <-].
Qed.

(** One pass of the loop raises each counter by at most one, by as much as
    it reports copies. *)
Lemma copy_row_counts (dest_root : string) (a j : Z) row fs log (a' j' : Z) fs' :
  copy_row os dest_root (a, j) row fs = (log, inr ((a', j'), fs')) →
  a ≤ a' ≤ a + 1 ∧ j ≤ j' ≤ j + 1 ∧ (a' - a) + (j' - j) = Spec.copies log.
Proof.
  unfold copy_row.
  intros (l1 & full & fs1 & l2 & Hfull & Hrest & ->)%run_bind_inv.
  apply field_inv in Hfull as [-> ->].
  apply run_bind_inv in Hrest as (l3 & rel & fs2 & l4 & Hrel & Hrest & ->).
  apply field_inv in Hrel as [-> ->].
  apply run_bind_inv in Hrest as (l5 & ok & fs3 & l6 & Haudio & Hrest & ->).
  apply copy_file_returns in Haudio as (_ & Hc1 & _).
  apply run_bind_inv in Hrest as (l7 & found & fs4 & l8 & Hfound & Hrest & ->).
  simpl in Hfound. injection Hfound as <- <- <-.
  rewrite !copies_app, Hc1. simpl.
  destruct (isfile os fs3 _).
  - apply run_bind_inv in Hrest as (l9 & ok2 & fs5 & l10 & Hjson & Hret & ->).
    apply copy_file_returns in Hjson as (_ & Hc2 & _).
    simpl in Hret. injection Hret as <- <- <- <-.
    rewrite copies_app, Hc2. unfold Spec.copies. simpl.
    destruct ok, ok2; lia.
  - simpl in Hrest. injection Hrest as <- <- <- <-.
    unfold Spec.copies. simpl. destruct ok; lia.
Qed.

Lemma copy_rows_counts (dest_root : string) (rows : list Py.Series)
    (a j : Z) fs log (a' j' : Z) fs' :
  Py.for_ rows (copy_row os dest_root) (a, j) fs = (log, inr ((a', j'), fs')) →
  a ≤ a' ≤ a + Z.of_nat (length rows) ∧
  j ≤ j' ≤ j + Z.of_nat (length rows) ∧
  (a' - a) + (j' - j) = Spec.copies log.
Proof.
  revert a j fs log. induction rows as [|row rows IH]; intros a j fs log.
  - simpl. intros [= <- <- <- _]. unfold Spec.copies. simpl. lia.
  - intros (l1 & [a1 j1] & fs1 & l2 & H1 & H2 & ->)%for_cons_inv.
    apply copy_row_counts in H1. apply IH in H2.
    rewrite copies_app. simpl length. lia.
Qed.

(** X10. When [main] returns, the totals of its closing lines add up to the
    number of copies it has reported, and neither total exceeds the number
    of rows of the manifest. *)
Theorem main_totals (csv_path dest_root sep_arg : string) fs log fs' :
  main os csv_path dest_root sep_arg fs = (log, inr ((), fs')) →
  ∃ df log0 copied_audio copied_json,
    read_csv os csv_path
      (if decide (sep_arg = "\t") then String "009"%char "" else sep_arg)
    = inr df ∧
    log = InfoLoaded (length (Py.values df)) csv_path :: log0
          ++ [InfoDone copied_audio copied_json] ∧
    copied_audio + copied_json = Spec.copies log ∧
    0 ≤ copied_audio ≤ Z.of_nat (length (Py.values df)) ∧
    0 ≤ copied_json ≤ Z.of_nat (length (Py.values df)).
Proof.
  unfold main.
  intros (l1 & df & fs1 & l2 & Hread & Hrest & ->)%run_bind_inv.
  destruct (read_csv os csv_path _) as [e|df0] eqn:Hcsv; [done|].
  simpl in Hread. injection Hread as <- <- <-.
  apply run_bind_inv in Hrest as (l3 & [] & fs2 & l4 & Hprint & Hrest & ->).
  simpl in Hprint. injection Hprint as <- <-.
  destruct (negb _); [done|].
  apply run_bind_inv in Hrest as (l5 & [a j] & fs3 & l6 & Hloop & Hdone & ->).
  simpl in Hdone. injection Hdone as <- <-.
  apply copy_rows_counts in Hloop as (Ha & Hj & Hsum).
  unfold Py.iterrows in Ha, Hj. rewrite length_fmap in Ha, Hj.
  exists df0, l5, a, j. split; [done|]. split; [done|].
  split; [| lia].
  change (InfoLoaded (length (Py.values df0)) csv_path
          :: l5 ++ [InfoDone a j])
    with ([InfoLoaded (length (Py.values df0)) csv_path]
          ++ l5 ++ [InfoDone a j]).
  unfold Spec.copies in *. rewrite !filter_app, !length_app. simpl. lia.
Qed.

(** X11. [main] raises only what reading the manifest raises, the error for
    a missing column, a [KeyError] for a row without one of the two fields,
    or what [os.makedirs] or [shutil.copy2] raise; and [copy2] is only ever
    called on a source that [os.path.isfile] has accepted, so a file missing
    from the disk never stops the run. *)
Theorem main_error_sources (csv_path dest_root sep_arg : string) fs log e :
  main os csv_path dest_root sep_arg fs = (log, inl e) →
  read_csv os csv_path
    (if decide (sep_arg = "\t") then String "009"%char "" else sep_arg)
  = inl e ∨
  e = Py.ValueError "CSV is missing required columns" ∨
  e = Py.KeyError "full_path" ∨ e = Py.KeyError "rel_path" ∨
  ∃ src dst fs0,
    isfile os fs0 src = true ∧
    (makedirs os (dirname os dst) fs0 = inl e ∨
     ∃ fs1, makedirs os (dirname os dst) fs0 = inr fs1 ∧
            copy2 os src dst fs1 = inl e).
Proof.
  unfold main.
  intros [[l1 Hread]|(l1 & df & fs1 & l2 & Hread & Hrest)]%run_bind_raises.
  { left. destruct (read_csv os csv_path _); [|done].
    simpl in Hread. by injection Hread as _ <-. }
  apply run_bind_raises in Hrest
    as [[? [=]]|(l3 & [] & fs2 & l4 & _ & Hrest)].
  destruct (negb _).
  { right. left. by injection Hrest as _ <-. }
  apply run_bind_raises in Hrest
    as [[l5 Hloop]|(? & ? & ? & ? & _ & [=])].
  apply for_raises_inv in Hloop as (row & [a j] & fs0 & lx & _ & Hrow).
  unfold copy_row in Hrow.
  apply run_bind_raises in Hrow
    as [[? ->%field_raises]|(? & full & ? & ? & Hfull & Hrow)]; [tauto|].
  apply field_inv in Hfull as [_ ->].
  apply run_bind_raises in Hrow
    as [[? ->%field_raises]|(? & rel & ? & ? & Hrel & Hrow)]; [tauto|].
  apply field_inv in Hrel as [_ ->].
  do 4 right.
  apply run_bind_raises in Hrow
    as [[? Haudio]|(? & ok & fs3 & ? & _ & Hrow)].
  { apply copy_file_raises in Haudio as [? ?]. by eexists _, _, _. }
  apply run_bind_raises in Hrow
    as [[? [=]]|(? & found & fs4 & ? & Hfound & Hrow)].
  simpl in Hfound. injection Hfound as _ <- <-.
  destruct (isfile os fs3 _); [|done].
  apply run_bind_raises in Hrow
    as [[? Hjson]|(? & ? & ? & ? & _ & [=])].
  apply copy_file_raises in Hjson as [? ?]. by eexists _, _, _.
Qed.

End CopyRuns.

(** X10 on the sample disk, where only the transcript can be copied. *)
Lemma main_totals_witness :
  ∃ log fs' copied_audio copied_json,
    copy_samples.main Inputs.posix "samples.csv" "/out" "," Inputs.disk
    = (log, inr ((), fs')) ∧
    last log = Some (copy_samples.InfoDone copied_audio copied_json) ∧
    copied_audio + copied_json = Spec.copies log.
Proof.
  destruct (copy_samples.main Inputs.posix "samples.csv" "/out" ","
              Inputs.disk) as [log [e|[[] fs']]] eqn:E.
  { apply (f_equal (λ r : list copy_samples.event
                          * (Py.exn + unit * gmap string string),
                      match r.2 with inl _ => true | inr _ => false end)) in E.
    vm_compute in E. discriminate E. }
  destruct (main_totals Inputs.posix "samples.csv" "/out" "," Inputs.disk
              log fs' E)
    as (df & log0 & a & j & _ & Hlog & Hsum & _).
  exists log, fs', a, j. split; [reflexivity|]. split; [|exact Hsum].
  rewrite Hlog, app_comm_cons. apply last_snoc.
Defined.

(** X11 on the sample disk, copying the manifest's files onto themselves:
    the transcript exists, and [copy2] refuses to copy it onto itself. *)
Lemma main_error_sources_witness :
  ∃ log src dst fs0,
    copy_samples.main Inputs.posix "samples.csv" "/data" "," Inputs.disk
    = (log, inl (Py.OSError "are the same file")) ∧
    copy_samples.isfile Inputs.posix fs0 src = true ∧
    copy_samples.copy2 Inputs.posix src dst fs0
    = inl (Py.OSError "are the same file").
Proof.
  destruct (copy_samples.main Inputs.posix "samples.csv" "/data" ","
              Inputs.disk) as [log [e|[[] fs']]] eqn:E.
  2: { apply (f_equal (λ r : list copy_samples.event
                             * (Py.exn + unit * gmap string string),
                         match r.2 with inl _ => true | inr _ => false end))
         in E.
       vm_compute in E. discriminate E. }
  assert (He : e = Py.OSError "are the same file").
  { vm_compute in E. by injection E as _ <-. }
  subst e. exists log.
  destruct (main_error_sources Inputs.posix _ _ _ _ _ _ E)
    as [Hread|[[=]|[[=]|[[=]|(src & dst & fs0 & Hfile & Hcopy)]]]].
  { vm_compute in Hread. discriminate Hread. }
  destruct Hcopy as [[=]|(fs1 & [= <-] & Hcopy)].
  exists src, dst, fs0. split; [reflexivity|]. split; [exact Hfile|exact Hcopy].
Defined.

(** ** The distribution report *)

Section ReportBuckets.

Import audio_distribution.

Implicit Types (d : Py.float) (ds : list Py.float)
  (counts : list (string * Z)) (st : stats).

Lemma node_induction (P : node → Prop) :
  (∀ name files subs, Forall P subs → P (Node name files subs)) →
  ∀ n, P n.
Proof.
  intros H. fix IH 1. intros [name files subs]. apply H.
  induction subs as [|sub subs IHsubs]; constructor; [apply IH | exact IHsubs].
Qed.

Lemma lt_le d1 d2 : Py.lt d1 d2 = true → Py.le d1 d2 = true.
Proof.
  unfold Py.lt, Py.le, SFltb, SFleb.
  by destruct (SFcompare d1 d2) as [[]|].
Qed.

(** A duration [d >= 0] that is not below infinity is infinity. *)
Lemma not_below_inf d :
  Py.le (Py.float_of_int 0) d = true → Py.lt d Py.inf = false → d = Py.inf.
Proof. by destruct d as [[]|[]| |[] m e]. Qed.

Lemma labels_NoDup : NoDup get_bucket_labels.
Proof. apply (bool_decide_unpack _). by vm_compute. Qed.

Lemma unbucketed_no_label : "UNBUCKETED" ∉ get_bucket_labels.
Proof. apply (bool_decide_unpack _). by vm_compute. Qed.

(** The report classifies exactly the durations [0 <= d < float('inf')]. *)
Lemma assign_bucket_bucketable d :
  Spec.bucketable d = true → assign_bucket d ∈ get_bucket_labels.
Proof.
  unfold Spec.bucketable. intros [Hd Hinf]%andb_true_iff.
  pose proof (bound_le_negb_lt d 1 Hd ltac:(vm_compute; eauto)) as L1.
  pose proof (bound_le_negb_lt d 5 Hd ltac:(vm_compute; eauto)) as L5.
  pose proof (bound_le_negb_lt d 10 Hd ltac:(vm_compute; eauto)) as L10.
  pose proof (bound_le_negb_lt d 15 Hd ltac:(vm_compute; eauto)) as L15.
  pose proof (bound_le_negb_lt d 20 Hd ltac:(vm_compute; eauto)) as L20.
  pose proof (bound_le_negb_lt d 25 Hd ltac:(vm_compute; eauto)) as L25.
  pose proof (bound_le_negb_lt d 30 Hd ltac:(vm_compute; eauto)) as L30.
  unfold assign_bucket, BUCKETS, assign_bucket_in, bound_float.
  rewrite Hd, L1, L5, L10, L15, L20, L25, L30, Hinf.
  destruct (Py.lt d (Py.float_of_int 1)),  (Py.lt d (Py.float_of_int 5)),
    (Py.lt d (Py.float_of_int 10)), (Py.lt d (Py.float_of_int 15)),
    (Py.lt d (Py.float_of_int 20)), (Py.lt d (Py.float_of_int 25)),
    (Py.lt d (Py.float_of_int 30)); cbn [andb negb];
    apply (bool_decide_unpack _); by vm_compute.
Qed.

Lemma assign_bucket_unbucketable d :
  Spec.bucketable d = false → assign_bucket d = "UNBUCKETED".
Proof.
  unfold Spec.bucketable. intros Hd.
  destruct (Py.le (Py.float_of_int 0) d) eqn:H0; simpl in Hd.
  - by rewrite (not_below_inf d H0 Hd).
  - assert (Hle : ∀ t : Z, Py.lt (Py.float_of_int 0) (Py.float_of_int t) = true →
                    Py.le (Py.float_of_int t) d = false).
    { intros t Ht. destruct (Py.le (Py.float_of_int t) d) eqn:Hle; [|done].
      rewrite (lt_le _ _ (lt_le_trans _ _ _ Ht Hle)) in H0. done. }
    unfold assign_bucket, BUCKETS, assign_bucket_in.
    rewrite H0, !Hle by reflexivity. reflexivity.
Qed.

Lemma count_in_app (label : string) ds1 ds2 :
  Spec.count_in label (ds1 ++ ds2)
  = Spec.count_in label ds1 + Spec.count_in label ds2.
Proof. unfold Spec.count_in. rewrite filter_app, length_app. lia. Qed.

Lemma bump_keys counts ds : (Spec.bump counts ds).*1 = counts.*1.
Proof. unfold Spec.bump. rewrite <-list_fmap_compose. done. Qed.

Lemma bump_nil counts : Spec.bump counts [] = counts.
Proof.
  unfold Spec.bump. induction counts as [|[k v] counts IH]; [done|].
  csimpl. rewrite IH. unfold Spec.count_in. simpl. by rewrite Z.add_0_r.
Qed.

Lemma bump_app counts ds1 ds2 :
  Spec.bump (Spec.bump counts ds1) ds2 = Spec.bump counts (ds1 ++ ds2).
Proof.
  unfold Spec.bump. rewrite <-list_fmap_compose. apply list_fmap_ext.
  intros i [k v] _. simpl. rewrite count_in_app. f_equal. lia.
Qed.

Lemma tally_nil st : Spec.tally st [] = st.
Proof.
  destruct st. unfold Spec.tally. simpl. rewrite bump_nil. f_equal. lia.
Qed.

Lemma tally_app st ds1 ds2 :
  Spec.tally (Spec.tally st ds1) ds2 = Spec.tally st (ds1 ++ ds2).
Proof.
  unfold Spec.tally. simpl. rewrite bump_app, foldl_app, length_app.
  f_equal. lia.
Qed.

Lemma incr_absent (k : string) counts :
  k ∉ counts.*1 → incr k counts = inl (Py.KeyError k).
Proof.
  induction counts as [|[k' v] counts IH]; [done|]. csimpl.
  rewrite not_elem_of_cons. intros [Hne Hnin].
  rewrite decide_False by done. by rewrite IH.
Qed.

Lemma incr_present d counts :
  NoDup counts.*1 → assign_bucket d ∈ counts.*1 →
  incr (assign_bucket d) counts = inr (Spec.bump counts [d]).
Proof.
  assert (Hone : ∀ k : string,
    Spec.count_in k [d] = if decide (assign_bucket d = k) then 1 else 0).
  { intros k. unfold Spec.count_in. rewrite filter_cons, filter_nil.
    by destruct (decide (assign_bucket d = k)). }
  induction counts as [|[k' v] counts IH]; csimpl.
  { by intros _ ?%elem_of_nil. }
  intros [Hk' Hnd]%NoDup_cons Hin. rewrite Hone.
  destruct (decide (k' = assign_bucket d)) as [->|Hne].
  - rewrite decide_True by done. do 2 f_equal.
    assert (Hsame : ∀ item, item ∈ counts →
              (item.1, item.2 + Spec.count_in item.1 [d]) = item).
    { intros [k v'] Hitem. simpl. rewrite Hone, decide_False, Z.add_0_r; [done|].
      intros <-. apply Hk'. apply list_elem_of_fmap. by exists (assign_bucket d, v'). }
    clear -Hsame. induction counts as [|item counts IH]; [done|]. csimpl.
    rewrite Hsame by left. f_equal. apply IH. intros ??. apply Hsame. by right.
  - apply elem_of_cons in Hin as [?|Hin]; [done|].
    rewrite IH by done. rewrite decide_False by done. by rewrite Z.add_0_r.
Qed.

End ReportBuckets.

Section ReportWalk.

Import audio_distribution.

Context (path_join : string → string → string).

Implicit Types (d : Py.float) (ds : list Py.float)
  (counts overall_buckets : list (string * Z)) (st : stats)
  (folder_stats : gmap string stats) (f : flac_file) (n : node).

Local Abbreviation all_bucketable ds :=
  (Forall (λ d, Spec.bucketable d = true) ds).

Lemma tally_keys st ds : (buckets (Spec.tally st ds)).*1 = (buckets st).*1.
Proof. apply bump_keys. Qed.

Lemma zero_counts_keys : zero_counts.*1 = get_bucket_labels.
Proof. reflexivity. Qed.

Lemma durations_app (files1 files2 : list flac_file) :
  Spec.durations (files1 ++ files2)
  = Spec.durations files1 ++ Spec.durations files2.
Proof. apply omap_app. Qed.

Lemma labelled_bump folder_stats overall_buckets ds :
  Spec.labelled folder_stats overall_buckets →
  Spec.labelled folder_stats (Spec.bump overall_buckets ds).
Proof. intros [Hov Hfs]. split; [by rewrite bump_keys | done]. Qed.

Lemma visit_labelled folder_stats overall_buckets entry :
  Spec.labelled folder_stats overall_buckets →
  Spec.labelled (Spec.visit folder_stats entry) overall_buckets.
Proof.
  intros [Hov Hfs]. split; [done|].
  intros p st. unfold Spec.visit.
  destruct (decide (entry.1 = p)) as [<-|Hne].
  - rewrite lookup_insert_eq. intros [= <-]. rewrite tally_keys.
    destruct (folder_stats !! entry.1) as [st|] eqn:Hst; simpl.
    + by apply (Hfs entry.1).
    + exact zero_counts_keys.
  - rewrite lookup_insert_ne by done. apply Hfs.
Qed.

Lemma foldl_visit_labelled folder_stats overall_buckets
    (visited : list (string * list flac_file)) :
  Spec.labelled folder_stats overall_buckets →
  Spec.labelled (foldl Spec.visit folder_stats visited) overall_buckets.
Proof.
  revert folder_stats. induction visited as [|entry visited IH];
    intros folder_stats Hlab; [done|].
  simpl. by apply IH, visit_labelled.
Qed.

Lemma count_file_run (path : string) f d folder_stats overall_buckets st :
  Spec.labelled folder_stats overall_buckets →
  folder_stats !! path = Some st →
  duration_seconds f = Some d →
  count_file path f (folder_stats, overall_buckets)
  = ([], if Spec.bucketable d
         then inr ((), (<[path := Spec.tally st [d]]> folder_stats,
                        Spec.bump overall_buckets [d]))
         else inl (Py.KeyError "UNBUCKETED")).
Proof.
  intros [Hov Hfs] Hst Hd. unfold count_file. rewrite Hd, run_bind. simpl.
  unfold Py.update, Py.act. rewrite Hst.
  destruct (Spec.bucketable d) eqn:Hb.
  - apply assign_bucket_bucketable in Hb.
    rewrite !incr_present;
      rewrite ?Hov, ?(Hfs _ _ Hst); auto using labels_NoDup.
  - apply assign_bucket_unbucketable in Hb. rewrite Hb.
    rewrite incr_absent; [done|].
    rewrite (Hfs _ _ Hst). apply unbucketed_no_label.
Qed.

Lemma count_files_run (path : string) (files : list flac_file)
    folder_stats overall_buckets st :
  Spec.labelled folder_stats overall_buckets →
  folder_stats !! path = Some st →
  (∀ f, f ∈ files → is_Some (duration_seconds f)) →
  Py.for_ files (λ _ f, count_file path f) () (folder_stats, overall_buckets)
  = ([], if decide (all_bucketable (Spec.durations files))
         then inr ((), (<[path := Spec.tally st (Spec.durations files)]>
                          folder_stats,
                        Spec.bump overall_buckets (Spec.durations files)))
         else inl (Py.KeyError "UNBUCKETED")).
Proof.
  revert folder_stats overall_buckets st.
  induction files as [|f files IH];
    intros folder_stats overall_buckets st Hlab Hst Hdur.
  - rewrite decide_True by constructor.
    change (Spec.durations []) with (@nil Py.float).
    by rewrite tally_nil, bump_nil, insert_id.
  - destruct (Hdur f) as [d Hd]; [left|].
    simpl. rewrite run_bind.
    rewrite (count_file_run path f d _ _ st Hlab Hst Hd).
    unfold Spec.durations. csimpl. rewrite Hd. csimpl.
    fold (Spec.durations files).
    destruct (Spec.bucketable d) eqn:Hb.
    + rewrite (IH _ _ (Spec.tally st [d])).
      * destruct (decide (all_bucketable (Spec.durations files))) as [Hall|Hall].
        -- rewrite decide_True by (by constructor).
           by rewrite insert_insert_eq, tally_app, bump_app.
        -- rewrite decide_False; [done|]. by intros [_ ?]%Forall_cons_1.
      * destruct Hlab as [Hov Hfs]. split; [by rewrite bump_keys|].
        intros p st'. destruct (decide (path = p)) as [<-|Hne].
        -- rewrite lookup_insert_eq. intros [= <-]. rewrite tally_keys.
           by apply (Hfs path).
        -- rewrite lookup_insert_ne by done. apply Hfs.
      * apply lookup_insert_eq.
      * intros f' Hf'. apply Hdur. by right.
    + rewrite decide_False; [done|].
      intros [? _]%Forall_cons_1. congruence.
Qed.

(** What [walk] does from a state whose counts are keyed by the labels, on
    a structure whose files have durations and whose directories below the
    node have names. *)
Lemma walk_run n :
  ∀ (path : string) folder_stats overall_buckets,
    Spec.labelled folder_stats overall_buckets →
    (∀ f, f ∈ Spec.tree_files n → is_Some (duration_seconds f)) →
    (∀ sub, sub ∈ Spec.descendants n → is_Some (name sub)) →
    walk path_join n path (folder_stats, overall_buckets)
    = ([], if decide (all_bucketable (Spec.durations (Spec.tree_files n)))
           then inr ((), (foldl Spec.visit folder_stats
                            (Spec.folders path_join n path),
                          Spec.bump overall_buckets
                            (Spec.durations (Spec.tree_files n))))
           else inl (Py.KeyError "UNBUCKETED")).
Proof.
  induction n as [nm files subs IHsubs] using node_induction.
  intros path folder_stats overall_buckets Hlab Hdur Hname.
  assert (Hsubs : ∀ folder_stats overall_buckets,
    Spec.labelled folder_stats overall_buckets →
    walk_subdirectories path_join (walk path_join) path subs
      (folder_stats, overall_buckets)
    = ([], if decide (all_bucketable
                        (Spec.durations (concat (Spec.tree_files <$> subs))))
           then inr ((), (foldl Spec.visit folder_stats
                            (concat ((λ sub, Spec.folders path_join sub
                                        (path_join path (default "" (name sub))))
                                     <$> subs)),
                          Spec.bump overall_buckets
                            (Spec.durations
                               (concat (Spec.tree_files <$> subs)))))
           else inl (Py.KeyError "UNBUCKETED"))).
  { assert (Hdur' : ∀ f, f ∈ concat (Spec.tree_files <$> subs) →
                         is_Some (duration_seconds f)).
    { intros f Hf. apply Hdur. simpl. apply elem_of_app. by right. }
    assert (Hname' : ∀ sub, sub ∈ concat ((λ sub, sub :: Spec.descendants sub)
                                           <$> subs) → is_Some (name sub))
      by exact Hname.
    clear Hdur Hname Hlab folder_stats overall_buckets.
    induction IHsubs as [|sub subs IHsub _ IH];
      intros folder_stats overall_buckets Hlab.
    - rewrite decide_True by constructor. simpl.
      change (Spec.durations []) with (@nil Py.float). by rewrite bump_nil.
    - destruct (Hname' sub) as [sub_name Hsub]; [csimpl; left|].
      csimpl. rewrite Hsub. rewrite run_bind. simpl. rewrite run_bind.
      rewrite IHsub; [| done | |].
      2: { intros f Hf. apply Hdur'. csimpl. apply elem_of_app. by left. }
      2: { intros s Hs. apply Hname'. csimpl. right. apply elem_of_app.
           by left. }
      rewrite !durations_app.
      destruct (decide (all_bucketable (Spec.durations (Spec.tree_files sub))))
        as [Hsubok|Hsubbad].
      + rewrite IH.
        * destruct (decide (all_bucketable
            (Spec.durations (concat (Spec.tree_files <$> subs)))))
            as [Hrest|Hrest].
          -- rewrite decide_True by (by apply Forall_app).
             by rewrite foldl_app, bump_app.
          -- rewrite decide_False; [done|]. by intros [_ ?]%Forall_app.
        * intros f Hf. apply Hdur'. csimpl. apply elem_of_app. by right.
        * intros s Hs. apply Hname'. csimpl. right. apply elem_of_app.
          by right.
        * by apply labelled_bump, foldl_visit_labelled.
      + rewrite decide_False; [done|]. by intros [? _]%Forall_app. }
  change (Spec.tree_files (Node nm files subs))
    with (files ++ concat (Spec.tree_files <$> subs)).
  change (Spec.folders path_join (Node nm files subs) path)
    with ((path, files)
          :: concat ((λ sub, Spec.folders path_join sub
                               (path_join path (default "" (name sub))))
                     <$> subs)).
  change (walk path_join (Node nm files subs) path)
    with (init_folder path ≫= λ _,
          Py.for_ files (λ _ f, count_file path f) () ≫= λ _,
          walk_subdirectories path_join (walk path_join) path subs).
  rewrite !durations_app.
  set (folder_stats1 := match folder_stats !! path with
                        | Some _ => folder_stats
                        | None => <[path := Spec.zero_stats]> folder_stats
                        end).
  assert (Hinit : init_folder path (folder_stats, overall_buckets)
                  = ([], inr ((), (folder_stats1, overall_buckets))))
    by reflexivity.
  assert (Hst : folder_stats1 !! path
                = Some (default Spec.zero_stats (folder_stats !! path))).
  { unfold folder_stats1. destruct (folder_stats !! path) eqn:E; [done|].
    by rewrite lookup_insert_eq. }
  assert (Hlab1 : Spec.labelled folder_stats1 overall_buckets).
  { destruct Hlab as [Hov Hfs]. split; [done|]. intros p st. unfold folder_stats1.
    destruct (folder_stats !! path) eqn:E; [apply Hfs|].
    destruct (decide (path = p)) as [<-|Hne].
    - rewrite lookup_insert_eq. intros [= <-]. exact zero_counts_keys.
    - rewrite lookup_insert_ne by done. apply Hfs. }
  assert (Hvisit : <[path := Spec.tally
                      (default Spec.zero_stats (folder_stats !! path))
                      (Spec.durations files)]> folder_stats1
                   = Spec.visit folder_stats (path, files)).
  { unfold Spec.visit, folder_stats1. simpl.
    destruct (folder_stats !! path) eqn:E; [done|]. by rewrite insert_insert_eq. }
  rewrite run_bind, Hinit. cbv beta iota. rewrite run_bind.
  rewrite (count_files_run path files _ _ _ Hlab1 Hst).
  2: { intros f Hf. apply Hdur. simpl. apply elem_of_app. by left. }
  destruct (decide (all_bucketable (Spec.durations files))) as [Hown|Hown].
  - cbv beta iota. rewrite Hsubs.
    + destruct (decide (all_bucketable
        (Spec.durations (concat (Spec.tree_files <$> subs))))) as [Hrest|Hrest].
      * rewrite decide_True by (by apply Forall_app).
        simpl. by rewrite Hvisit, bump_app.
      * rewrite decide_False; [done|]. by intros [_ ?]%Forall_app.
    + rewrite Hvisit. by apply labelled_bump, visit_labelled.
  - rewrite decide_False; [done|]. by intros [? _]%Forall_app.
Qed.

End ReportWalk.

Section ReportSummary.

Import audio_distribution.

Context (path_join : string → string → string).

Implicit Types (d : Py.float) (ds : list Py.float)
  (counts overall_buckets : list (string * Z)) (st : stats)
  (folder_stats : gmap string stats) (f : flac_file) (n : node).

Local Abbreviation all_bucketable ds :=
  (Forall (λ d, Spec.bucketable d = true) ds).

Local Abbreviation sum l := (foldr Z.add 0 l).

Lemma foldl_add (a : Z) (l : list Z) : foldl Z.add a l = a + sum l.
Proof.
  revert a. induction l as [|x l IH]; intros a; simpl; [lia|].
  rewrite IH. lia.
Qed.

Lemma sum_zero {A} (ks : list A) : sum ((λ _, 0) <$> ks) = 0.
Proof. induction ks as [|k ks IH]; [done|]. csimpl. by rewrite IH. Qed.

Lemma sum_add {A} (g h : A → Z) (ks : list A) :
  sum ((λ k, g k + h k) <$> ks) = sum (g <$> ks) + sum (h <$> ks).
Proof. induction ks as [|k ks IH]; [done|]. csimpl. rewrite IH. lia. Qed.

(** Over distinct labels, one duration is counted under its own label
    only. *)
Lemma sum_one (ks : list string) (k0 : string) :
  NoDup ks → k0 ∈ ks →
  sum ((λ k, if decide (k0 = k) then 1 else 0) <$> ks) = 1.
Proof.
  induction ks as [|k ks IH]; [by intros _ ?%elem_of_nil|].
  intros [Hk Hnd]%NoDup_cons Hin. csimpl.
  destruct (decide (k0 = k)) as [->|Hne].
  - assert (Hrest : sum ((λ k', if decide (k = k') then 1 else 0) <$> ks) = 0).
    { etrans; [|apply (sum_zero ks)]. f_equal. apply list_fmap_ext.
      intros i k' Hk'. rewrite decide_False; [done|].
      intros <-. apply Hk. by eapply list_elem_of_lookup_2. }
    rewrite Hrest. lia.
  - apply elem_of_cons in Hin as [?|Hin]; [done|]. rewrite IH by done. lia.
Qed.

(** The counts of the labels add up to the number of classified durations. *)
Lemma sum_count_in ds :
  all_bucketable ds →
  sum ((λ label, Spec.count_in label ds) <$> get_bucket_labels)
  = Z.of_nat (length ds).
Proof.
  induction ds as [|d ds IH]; intros Hall.
  - apply sum_zero.
  - apply Forall_cons_1 in Hall as [Hd Hall].
    transitivity
      (sum ((λ k, (if decide (assign_bucket d = k) then 1 else 0)
                  + Spec.count_in k ds) <$> get_bucket_labels)).
    { f_equal. apply list_fmap_ext. intros i k _.
      unfold Spec.count_in. rewrite filter_cons.
      destruct (decide (assign_bucket d = k)); simpl length; lia. }
    rewrite sum_add, IH by done.
    rewrite (sum_one _ _ labels_NoDup (assign_bucket_bucketable d Hd)).
    simpl length. lia.
Qed.

Lemma bump_zero_counts ds :
  Spec.bump zero_counts ds
  = (λ label, (label, Spec.count_in label ds)) <$> get_bucket_labels.
Proof.
  unfold Spec.bump, zero_counts. rewrite <-list_fmap_compose.
  by apply list_fmap_ext.
Qed.

Lemma get_present (k : string) (v : Z) counts :
  NoDup counts.*1 → (k, v) ∈ counts → get k counts = inr v.
Proof.
  induction counts as [|[k' v'] counts IH]; [by intros _ ?%elem_of_nil|].
  csimpl. intros [Hk' Hnd]%NoDup_cons [[= <- <-]|Hin]%elem_of_cons.
  - by rewrite decide_True.
  - rewrite decide_False; [by apply IH|].
    intros ->. apply Hk'. apply list_elem_of_fmap. by exists (k, v).
Qed.

(** The loop that prints one line for each label. *)
Lemma bucket_lines_run (total : Z) counts (items : list (string * Z))
    (s : gmap string stats * list (string * Z)) :
  NoDup counts.*1 → (∀ item, item ∈ items → item ∈ counts) →
  Py.for_ items.*1 (λ _ label,
    count ← Py.lift (get label counts);
    Py.print (InfoBucket label count total)) () s
  = ((λ item, InfoBucket item.1 item.2 total) <$> items, inr ((), s)).
Proof.
  intros Hnd. induction items as [|[k v] items IH]; intros Hin; [done|].
  csimpl. rewrite run_bind, run_bind.
  rewrite (get_present k v counts Hnd) by (apply Hin; left). simpl.
  rewrite IH by (intros ??; apply Hin; by right). done.
Qed.

Lemma summary_run (dataset_name : string) folder_stats overall_buckets :
  NoDup overall_buckets.*1 →
  overall_buckets.*1 = get_bucket_labels →
  summary dataset_name (folder_stats, overall_buckets)
  = ([Rule; InfoDataset dataset_name; Rule;
      InfoTotalFiles (sum overall_buckets.*2);
      InfoTotalFolders (size folder_stats); DistributionHeader]
     ++ ((λ item, InfoBucket item.1 item.2 (sum overall_buckets.*2))
           <$> overall_buckets),
     inr ((overall_buckets, folder_stats, sum overall_buckets.*2),
          (folder_stats, overall_buckets))).
Proof.
  intros Hnd Hkeys. unfold summary. rewrite run_bind.
  cbn -[get_bucket_labels Py.for_ foldl size].
  rewrite <-Hkeys, !foldl_add, !Z.add_0_l.
  do 6 (rewrite run_bind; cbn -[Py.for_ size]).
  rewrite run_bind.
  rewrite (bucket_lines_run _ overall_buckets overall_buckets) by done.
  cbn -[size]. by rewrite app_nil_r.
Qed.

(** How the report runs on a structure whose root and directories have
    names and whose files have durations. *)
Lemma process_dataset_run n (dataset_name root : string) :
  name n = Some root →
  (∀ sub, sub ∈ Spec.descendants n → is_Some (name sub)) →
  (∀ f, f ∈ Spec.tree_files n → is_Some (duration_seconds f)) →
  process_dataset path_join n dataset_name
  = if decide (all_bucketable (Spec.durations (Spec.tree_files n)))
    then
      let overall_buckets :=
        Spec.bump zero_counts (Spec.durations (Spec.tree_files n)) in
      let folder_stats :=
        foldl Spec.visit ∅ (Spec.folders path_join n root) in
      ([Rule; InfoDataset dataset_name; Rule;
        InfoTotalFiles (sum overall_buckets.*2);
        InfoTotalFolders (size folder_stats); DistributionHeader]
       ++ ((λ item, InfoBucket item.1 item.2 (sum overall_buckets.*2))
             <$> overall_buckets),
       inr (overall_buckets, folder_stats, sum overall_buckets.*2))
    else ([], inl (Py.KeyError "UNBUCKETED")).
Proof.
  intros Hroot Hname Hdur. unfold process_dataset.
  rewrite run_bind, Hroot. simpl. rewrite run_bind.
  rewrite (walk_run path_join n root ∅ zero_counts); [| | done | done].
  2: { split; [exact zero_counts_keys|]. intros p st. by rewrite lookup_empty. }
  destruct (decide (all_bucketable (Spec.durations (Spec.tree_files n))));
    [|done].
  cbv beta iota zeta. rewrite summary_run.
  - done.
  - rewrite bump_keys, zero_counts_keys. apply labels_NoDup.
  - by rewrite bump_keys.
Qed.

End ReportSummary.

Section ReportStatistics.

Import audio_distribution.

Context (path_join : string → string → string).

Implicit Types (d : Py.float) (ds : list Py.float) (st : stats)
  (folder_stats : gmap string stats) (f : flac_file) (n : node)
  (visited : list (string * list flac_file)).

Local Abbreviation all_bucketable ds :=
  (Forall (λ d, Spec.bucketable d = true) ds).

Lemma durations_bucketable (files : list flac_file) :
  (∀ f, f ∈ files →
        ∃ d, duration_seconds f = Some d ∧ Spec.bucketable d = true) →
  all_bucketable (Spec.durations files) ∧
  length (Spec.durations files) = length files.
Proof.
  induction files as [|f files IH]; intros Hfiles.
  - split; [constructor | done].
  - destruct (Hfiles f) as (d & Hd & Hb); [left|].
    destruct IH as [Hall Hlen]; [intros ??; apply Hfiles; by right|].
    unfold Spec.durations in *. csimpl. rewrite Hd. csimpl.
    split; [by constructor | by rewrite Hlen].
Qed.

Lemma own_files_cons (p : string) entry visited :
  Spec.own_files p (entry :: visited)
  = (if decide (entry.1 = p) then entry.2 else []) ++ Spec.own_files p visited.
Proof.
  unfold Spec.own_files. rewrite filter_cons.
  by destruct (decide (entry.1 = p)).
Qed.

(** The entry of a path after [walk] has visited a list of folders. *)
Lemma foldl_visit_lookup visited folder_stats (p : string) :
  foldl Spec.visit folder_stats visited !! p
  = if decide (p ∈ visited.*1)
    then Some (Spec.tally (default Spec.zero_stats (folder_stats !! p))
                 (Spec.durations (Spec.own_files p visited)))
    else folder_stats !! p.
Proof.
  revert folder_stats. induction visited as [|entry visited IH];
    intros folder_stats.
  - by rewrite decide_False by apply not_elem_of_nil.
  - simpl foldl. rewrite IH, own_files_cons, durations_app. unfold Spec.visit.
    csimpl. destruct (decide (entry.1 = p)) as [<-|Hne].
    + rewrite lookup_insert_eq. simpl.
      rewrite (decide_True (P := entry.1 ∈ entry.1 :: visited.*1)) by left.
      rewrite tally_app.
      destruct (decide (entry.1 ∈ visited.*1)) as [Hin|Hnin]; [done|].
      assert (Hnone : Spec.own_files entry.1 visited = []).
      { unfold Spec.own_files. rewrite filter_none; [done|].
        intros e He Heq. apply Hnin. apply list_elem_of_fmap. by exists e. }
      rewrite Hnone. by rewrite app_nil_r.
    + rewrite lookup_insert_ne by done. simpl.
      destruct (decide (p ∈ visited.*1)) as [Hin|Hnin].
      * by rewrite decide_True by (by right).
      * rewrite decide_False; [done|].
        by intros [?|?]%elem_of_cons.
Qed.

Lemma foldl_visit_size visited :
  NoDup visited.*1 →
  size (foldl Spec.visit (∅ : gmap string stats) visited) = length visited.
Proof.
  induction visited as [|entry visited IH] using rev_ind; intros Hnd.
  - simpl. apply map_size_empty.
  - rewrite fmap_app in Hnd. apply NoDup_app in Hnd as (Hnd & Hdis & _).
    rewrite foldl_app, length_app. simpl. unfold Spec.visit at 1.
    rewrite map_size_insert_None.
    + rewrite IH by done. lia.
    + rewrite foldl_visit_lookup, decide_False; [apply lookup_empty|].
      intros Hin. apply (Hdis _ Hin). left.
Qed.


(** X13. Under the same conditions, the statistics [process_dataset] returns
    for the folders: a path has an entry exactly when [walk] visits a
    folder under it; the entry counts the own files of the folders visited
    under the path, not those of their subdirectories; its bucket counts
    are keyed by the labels and add up to its number of files; and when the
    visited paths are distinct there are as many entries as folders. *)
Theorem process_dataset_folders n (dataset_name root : string) :
  name n = Some root →
  (∀ sub, sub ∈ Spec.descendants n → is_Some (name sub)) →
  (∀ f, f ∈ Spec.tree_files n →
        ∃ d, duration_seconds f = Some d ∧ Spec.bucketable d = true) →
  ∃ log overall_buckets folder_stats total,
    process_dataset path_join n dataset_name
    = (log, inr (overall_buckets, folder_stats, total)) ∧
    (∀ p, folder_stats !! p
          = if decide (p ∈ (Spec.folders path_join n root).*1)
            then Some (Spec.tally Spec.zero_stats
                         (Spec.durations
                            (Spec.own_files p (Spec.folders path_join n root))))
            else None) ∧
    (∀ p st, folder_stats !! p = Some st →
       (buckets st).*1 = get_bucket_labels ∧
       total_files st
       = Z.of_nat (length (Spec.own_files p (Spec.folders path_join n root))) ∧
       foldl Z.add 0 (buckets st).*2 = total_files st) ∧
    (NoDup (Spec.folders path_join n root).*1 →
     size folder_stats = length (Spec.folders path_join n root)).
Proof.
  intros Hroot Hname Hfiles.
  destruct (durations_bucketable _ Hfiles) as [Hall Hlen].
  rewrite (process_dataset_run path_join n dataset_name root Hroot Hname).
  2: { intros f Hf. destruct (Hfiles f Hf) as (d & -> & _). by eexists. }
  rewrite decide_True by done. cbv zeta.
  eexists _, _, _, _. split; [reflexivity|].
  assert (Hlookup : ∀ p,
    foldl Spec.visit (∅ : gmap string stats) (Spec.folders path_join n root) !! p
    = if decide (p ∈ (Spec.folders path_join n root).*1)
      then Some (Spec.tally Spec.zero_stats
                   (Spec.durations
                      (Spec.own_files p (Spec.folders path_join n root))))
      else None).
  { intros p. rewrite foldl_visit_lookup, lookup_empty. done. }
  split; [exact Hlookup|]. split; [| apply foldl_visit_size].
  intros p st. rewrite Hlookup.
  destruct (decide (p ∈ (Spec.folders path_join n root).*1)); [|done].
  intros [= <-].
  assert (Hown : ∀ f, f ∈ Spec.own_files p (Spec.folders path_join n root) →
                      f ∈ Spec.tree_files n).
  { clear. revert root. induction n as [nm files subs IH] using node_induction.
    intros root f. unfold Spec.own_files.
    change (Spec.folders path_join (Node nm files subs) root)
      with ((root, files)
            :: concat ((λ sub, Spec.folders path_join sub
                                 (path_join root (default "" (name sub))))
                       <$> subs)).
    change (Spec.tree_files (Node nm files subs))
      with (files ++ concat (Spec.tree_files <$> subs)).
    rewrite list_elem_of_In, in_concat.
    intros (l & Hl & Hf). apply list_elem_of_In in Hl, Hf.
    apply list_elem_of_fmap in Hl as ([p' files'] & -> & Hentry).
    apply list_elem_of_filter in Hentry as [Hp Hentry]. simpl in Hf.
    apply elem_of_app.
    apply elem_of_cons in Hentry as [[= -> ->]|Hentry]; [by left|]. right.
    apply list_elem_of_In, in_concat in Hentry as (visited & Hv & Hentry).
    apply list_elem_of_In in Hv, Hentry.
    apply list_elem_of_fmap in Hv as (sub & -> & Hsub).
    apply list_elem_of_In, in_concat. exists (Spec.tree_files sub).
    split; [by apply list_elem_of_In, list_elem_of_fmap_2|].
    apply list_elem_of_In.
    rewrite Forall_forall in IH.
    apply (IH sub Hsub (path_join root (default "" (name sub)))).
    unfold Spec.own_files. apply list_elem_of_In, in_concat.
    exists files'. split; apply list_elem_of_In; [|done].
    apply list_elem_of_fmap. exists (p', files'). split; [done|].
    by apply list_elem_of_filter. }
  destruct (durations_bucketable
              (Spec.own_files p (Spec.folders path_join n root)))
    as [Hall' Hlen'].
  { intros f Hf. by apply Hfiles, Hown. }
  split; [rewrite tally_keys; exact zero_counts_keys|].
  unfold Spec.tally, Spec.zero_stats. cbn [total_files buckets].
  rewrite Hlen'. split; [lia|].
  rewrite foldl_add, bump_zero_counts, <-list_fmap_compose.
  change (snd ∘ _) with (λ label : string, Spec.count_in label
    (Spec.durations (Spec.own_files p (Spec.folders path_join n root)))).
  rewrite (sum_count_in _ Hall'). lia.
Qed.

(** X14. One file whose duration is not in [0 <= d < float('inf')] (a
    negative, an infinite or a NaN duration) makes the report fail: on a
    structure whose root and directories have names and whose files have
    durations, [process_dataset] then raises [KeyError('UNBUCKETED')] and
    prints no summary. *)
Theorem process_dataset_unbucketed n (dataset_name : string) :
  is_Some (name n) →
  (∀ sub, sub ∈ Spec.descendants n → is_Some (name sub)) →
  (∀ f, f ∈ Spec.tree_files n → is_Some (duration_seconds f)) →
  (∃ f d, f ∈ Spec.tree_files n ∧ duration_seconds f = Some d ∧
          Spec.bucketable d = false) →
  process_dataset path_join n dataset_name
  = ([], inl (Py.KeyError "UNBUCKETED")).
Proof.
  intros [root Hroot] Hname Hdur (f & d & Hf & Hd & Hb).
  rewrite (process_dataset_run path_join n dataset_name root Hroot Hname Hdur).
  rewrite decide_False; [done|]. rewrite Forall_forall. intros Hall.
  assert (Hin : d ∈ Spec.durations (Spec.tree_files n)).
  { apply list_elem_of_omap. by exists f. }
  specialize (Hall d Hin). congruence.
Qed.

End ReportStatistics.


(** X13 on the sample structure: two entries, and the root's entry counts its
    own clip only. *)
Lemma process_dataset_folders_witness :
  ∃ log overall_buckets folder_stats total st,
    audio_distribution.process_dataset Inputs.slash_join Inputs.structure
      "create"
    = (log, inr (overall_buckets, folder_stats, total)) ∧
    size folder_stats = 2%nat ∧
    folder_stats !! "create" = Some st ∧
    audio_distribution.total_files st = 1.
Proof.
  destruct (process_dataset_folders Inputs.slash_join Inputs.structure
              "create" "create")
    as (log & overall_buckets & folder_stats & total & Hrun & Hlookup
        & _ & Hsize).
  - reflexivity.
  - apply Forall_forall. repeat constructor. by eexists.
  - apply Forall_forall. repeat constructor; by eexists.
  - eexists log, overall_buckets, folder_stats, total, _.
    split; [exact Hrun|]. split; [| split].
    + apply Hsize. apply (bool_decide_unpack _). by vm_compute.
    + rewrite Hlookup. rewrite decide_True; [reflexivity|].
      apply (bool_decide_unpack _). by vm_compute.
    + reflexivity.
Defined.

(** X14 on the sample structure with a clip of infinite duration. *)
Lemma process_dataset_unbucketed_witness :
  audio_distribution.process_dataset Inputs.slash_join Inputs.structure_inf
    "create"
  = ([], inl (Py.KeyError "UNBUCKETED")).
Proof.
  apply process_dataset_unbucketed.
  - by eexists.
  - apply Forall_forall. repeat constructor. by eexists.
  - apply Forall_forall. repeat constructor; by eexists.
  - exists (Inputs.clip Py.inf), Py.inf. split; [|split; reflexivity].
    change (Inputs.clip Py.inf
            ∈ [Inputs.clip Inputs.d0_5; Inputs.clip Inputs.d7_0;
               Inputs.clip Py.inf]).
    do 2 right. left.
Defined.

(** ** Destination paths of the copy utility *)

Section Separators.

Import copy_samples.

Context {FS : Type} (os : OS FS).

Lemma replace_same (a : ascii) (s : string) :
  Py.replace a (String a "") s = s.
Proof.
  induction s as [|b s IH]; [done|]. simpl.
  destruct (decide (b = a)) as [->|_]; by rewrite IH.
Qed.

Lemma replace_backslash (s : string) :
  Py.replace "\"%char "/" s = Spec.with_separator "/" s.
Proof.
  induction s as [|b s IH]; [done|]. simpl. rewrite IH.
  destruct (decide (b = "\"%char)) as [->|Hb]; [done|].
  destruct (decide (b = "/"%char)) as [->|Hs]; [done|].
  rewrite bool_decide_eq_false_2; [done|]. by intros [?|?].
Qed.

Lemma replace_slash (s : string) :
  Py.replace "/"%char "\" s = Spec.with_separator "\" s.
Proof.
  induction s as [|b s IH]; [done|]. simpl. rewrite IH.
  destruct (decide (b = "/"%char)) as [->|Hs]; [done|].
  destruct (decide (b = "\"%char)) as [->|Hb]; [done|].
  rewrite bool_decide_eq_false_2; [done|]. by intros [?|?].
Qed.

Lemma with_separator_chars (sep : string) (s : string) (c : ascii) :
  c ∈ Spec.chars (Spec.with_separator sep s) →
  c ∈ Spec.chars sep ∨ (c ∈ Spec.chars s ∧ c ≠ "/"%char ∧ c ≠ "\"%char).
Proof.
  assert (Happ : ∀ s1 s2, Spec.chars (s1 +:+ s2)
                          = Spec.chars s1 ++ Spec.chars s2).
  { induction s1 as [|a s1 IH1]; intros s2; [done|]. simpl. by rewrite IH1. }
  induction s as [|b s IH]; simpl; [by intros ?%elem_of_nil|].
  destruct (bool_decide (b = "/"%char ∨ b = "\"%char)) eqn:Hb.
  - rewrite Happ, elem_of_app. intros [?|Hin]; [by left|].
    destruct (IH Hin) as [?|(? & ? & ?)]; [by left|].
    right. split; [by right|done].
  - apply bool_decide_eq_false in Hb. simpl.
    intros [->|Hin]%elem_of_cons.
    + right. split; [left|]. split; intros ->; apply Hb; tauto.
    + destruct (IH Hin) as [?|(? & ? & ?)]; [by left|].
      right. split; [by right|done].
Qed.

(** X15. Where [os.sep] is the slash or the backslash, the two successive
    [replace] calls turn every slash and every backslash of [rel_path] into
    [os.sep] and change nothing else, whichever of the two the manifest was
    written with: the path joined to the destination root holds no
    separator other than [os.sep]. *)
Theorem dest_path_separators (dest_root rel_path : string) :
  sep os = "/" ∨ sep os = "\" →
  dest_audio_of os dest_root rel_path
  = normpath os (join os dest_root
                   (Spec.with_separator (sep os) rel_path)) ∧
  ∀ c, c ∈ Spec.chars (Spec.with_separator (sep os) rel_path) →
       c = "/"%char ∨ c = "\"%char → String c "" = sep os.
Proof.
  intros Hsep. split.
  - unfold dest_audio_of. do 2 f_equal.
    destruct Hsep as [-> | ->].
    + by rewrite replace_same, replace_backslash.
    + by rewrite replace_same, replace_slash.
  - intros c [Hin|(_ & Hs & Hb)]%with_separator_chars [-> | ->]; try done.
    + destruct Hsep as [Hsep|Hsep]; rewrite Hsep in Hin |- *; [done|].
      simpl in Hin. by apply list_elem_of_singleton in Hin.
    + destruct Hsep as [Hsep|Hsep]; rewrite Hsep in Hin |- *; [|done].
      simpl in Hin. by apply list_elem_of_singleton in Hin.
Qed.

End Separators.

(** X15 on the sample disk, for a relative path written with backslashes. *)
Lemma dest_path_separators_witness :
  copy_samples.dest_audio_of Inputs.posix "/out" "podcastA\clips\a.wav"
  = "/out/podcastA/clips/a.wav".
Proof.
  destruct (dest_path_separators Inputs.posix "/out" "podcastA\clips\a.wav")
    as [Hdest _]; [by left|].
  rewrite Hdest. reflexivity.
Defined.

(** ** Durations are never negative *)

Section Durations.

Import sample_tts_files.

Implicit Types (m e z : Z) (p : positive) (mrs : shr_record).

Local Abbreviation fin_or_inf sx r :=
  (match r with
   | S754_finite s _ _ | S754_infinity s => s = sx
   | _ => False
   end).

Local Abbreviation signed sx r :=
  (match r with
   | S754_nan => False
   | S754_zero s | S754_finite s _ _ | S754_infinity s => s = sx
   end).

Lemma shr_1_div2 mrs : 0 ≤ shr_m mrs → shr_m (shr_1 mrs) = Z.div2 (shr_m mrs).
Proof. destruct mrs as [[|[q|q|]|q] r s]; simpl; intros; done || lia. Qed.

Lemma iter_shr_1 p : ∀ mrs,
  0 ≤ shr_m mrs → shr_m (SpecFloat.iter_pos shr_1 p mrs) = shr_m mrs / 2 ^ Zpos p.
Proof.
  assert (Hdiv : ∀ a b c, 0 < b → 0 < c → a / b / c = a / (b * c)).
  { intros a b c Hb Hc. rewrite Z.div_div by lia. done. }
  induction p as [p IH|p IH|]; intros mrs Hm; simpl SpecFloat.iter_pos.
  - assert (H1 : 0 ≤ shr_m (shr_1 mrs)).
    { rewrite shr_1_div2, Z.div2_div by done. apply Z.div_pos; lia. }
    assert (H2 : 0 ≤ shr_m (SpecFloat.iter_pos shr_1 p (shr_1 mrs))).
    { rewrite IH by done. apply Z.div_pos; [done|]. apply Z.pow_pos_nonneg; lia. }
    rewrite IH, IH, shr_1_div2, Z.div2_div by done.
    rewrite !Hdiv by (try apply Z.pow_pos_nonneg; lia).
    f_equal. replace (Zpos p~1) with (1 + Zpos p + Zpos p) by lia.
    rewrite !Z.pow_add_r by lia. lia.
  - assert (H2 : 0 ≤ shr_m (SpecFloat.iter_pos shr_1 p mrs)).
    { rewrite IH by done. apply Z.div_pos; [done|]. apply Z.pow_pos_nonneg; lia. }
    rewrite IH, IH by done.
    rewrite Hdiv by (apply Z.pow_pos_nonneg; lia).
    f_equal. replace (Zpos p~0) with (Zpos p + Zpos p) by lia.
    rewrite Z.pow_add_r by lia. done.
  - rewrite shr_1_div2, Z.div2_div by done. done.
Qed.

Lemma digits2_pos_lower p : 2 ^ (Zpos (digits2_pos p) - 1) ≤ Zpos p.
Proof.
  induction p as [p IH|p IH|]; simpl digits2_pos; [| |done].
  - rewrite Pos2Z.inj_succ.
    replace (Z.succ (Zpos (digits2_pos p)) - 1)
      with (1 + (Zpos (digits2_pos p) - 1)) by lia.
    rewrite Z.pow_add_r by lia. lia.
  - rewrite Pos2Z.inj_succ.
    replace (Z.succ (Zpos (digits2_pos p)) - 1)
      with (1 + (Zpos (digits2_pos p) - 1)) by lia.
    rewrite Z.pow_add_r by lia. lia.
Qed.

Lemma shr_record_of_loc_m m l : shr_m (shr_record_of_loc m l) = m.
Proof. by destruct l as [|[]]. Qed.

(** Shifting a mantissa to its precision keeps it non-negative, and keeps
    it positive when the exponent is not at the underflow threshold. *)
Lemma shr_fexp_nonneg m e l :
  0 ≤ m → 0 ≤ shr_m (shr_fexp Py.prec Py.emax m e l).1.
Proof.
  intros Hm. unfold shr_fexp, shr.
  destruct (fexp Py.prec Py.emax (Zdigits2 m + e) - e) as [|p|p]; simpl;
    rewrite ?iter_shr_1, ?shr_record_of_loc_m;
    rewrite ?shr_record_of_loc_m; try done.
  apply Z.div_pos; [done|]. apply Z.pow_pos_nonneg; lia.
Qed.

Lemma shr_fexp_pos m e l :
  0 < m → -1022 ≤ e →
  0 < shr_m (shr_fexp Py.prec Py.emax m e l).1 ∧
  e ≤ (shr_fexp Py.prec Py.emax m e l).2.
Proof.
  intros Hm He. unfold shr_fexp, shr.
  destruct m as [|q|q]; [lia| |lia].
  assert (Hd : 1 ≤ Zpos (digits2_pos q)) by lia.
  assert (Hfexp : fexp Py.prec Py.emax (Zdigits2 (Zpos q) + e)
                  = Zpos (digits2_pos q) + e - 53).
  { unfold fexp, emin, Py.prec, Py.emax. simpl Zdigits2. lia. }
  rewrite Hfexp.
  destruct (Zpos (digits2_pos q) + e - 53 - e) as [|p|p] eqn:Hn; simpl;
    rewrite ?shr_record_of_loc_m; try lia.
  rewrite iter_shr_1 by (rewrite shr_record_of_loc_m; lia).
  rewrite shr_record_of_loc_m. split; [|lia].
  apply Z.div_str_pos. split; [apply Z.pow_pos_nonneg; lia|].
  etrans; [|apply digits2_pos_lower].
  apply Z.pow_le_mono_r; lia.
Qed.

Lemma round_nearest_even_nonneg m l : 0 ≤ m → 0 ≤ round_nearest_even m l.
Proof. destruct l as [|[]]; simpl; try destruct (Z.even m); lia. Qed.

Lemma round_nearest_even_pos m l : 0 < m → 0 < round_nearest_even m l.
Proof. destruct l as [|[]]; simpl; try destruct (Z.even m); lia. Qed.

(** Rounding a non-negative mantissa gives no NaN and keeps the sign;
    rounding a positive one above the underflow threshold gives no zero
    either. *)
Lemma binary_round_aux_signed (sx : bool) m e l :
  0 ≤ m → signed sx (binary_round_aux Py.prec Py.emax sx m e l).
Proof.
  intros Hm. unfold binary_round_aux.
  pose proof (shr_fexp_nonneg m e l Hm) as H1.
  destruct (shr_fexp Py.prec Py.emax m e l) as [mrs1 e1]. simpl in H1.
  pose proof (shr_fexp_nonneg
    (round_nearest_even (shr_m mrs1) (loc_of_shr_record mrs1)) e1 loc_Exact
    (round_nearest_even_nonneg _ _ H1)) as H2.
  destruct (shr_fexp Py.prec Py.emax _ e1 loc_Exact) as [mrs2 e2].
  simpl in H2. destruct (shr_m mrs2) as [|q|q]; [done| |lia].
  by destruct (e2 <=? Py.emax - Py.prec).
Qed.

Lemma binary_round_aux_pos (sx : bool) m e l :
  0 < m → -1022 ≤ e →
  fin_or_inf sx (binary_round_aux Py.prec Py.emax sx m e l).
Proof.
  intros Hm He. unfold binary_round_aux.
  pose proof (shr_fexp_pos m e l Hm He) as [H1 He1].
  destruct (shr_fexp Py.prec Py.emax m e l) as [mrs1 e1]. simpl in H1, He1.
  pose proof (shr_fexp_pos
    (round_nearest_even (shr_m mrs1) (loc_of_shr_record mrs1)) e1 loc_Exact
    (round_nearest_even_pos _ _ H1) ltac:(lia)) as [H2 _].
  destruct (shr_fexp Py.prec Py.emax _ e1 loc_Exact) as [mrs2 e2].
  simpl in H2. destruct (shr_m mrs2) as [|q|q]; [lia| |lia].
  by destruct (e2 <=? Py.emax - Py.prec).
Qed.

(** [float(z)] of a positive int is a positive float or overflows. *)
Lemma float_of_int_pos z :
  0 < z → fin_or_inf false (Py.float_of_int z).
Proof.
  intros Hz. destruct z as [|q|q]; [lia| |lia].
  unfold Py.float_of_int, binary_normalize, binary_round.
  assert (Hd : 1 ≤ Zpos (digits2_pos q)) by lia.
  assert (Hfexp : fexp Py.prec Py.emax (Zpos (digits2_pos q) + 0)
                  = Zpos (digits2_pos q) - 53).
  { unfold fexp, emin, Py.prec, Py.emax. lia. }
  rewrite Hfexp. unfold shl_align.
  destruct (Zpos (digits2_pos q) - 53 - 0) eqn:Hn;
    apply binary_round_aux_pos; lia.
Qed.

Lemma to_float_nonneg z (a : Py.float) :
  0 ≤ z → Py.to_float z = inr a →
  (z = 0 ∧ a = S754_zero false) ∨ (0 < z ∧ ∃ q e, a = S754_finite false q e).
Proof.
  intros Hz. unfold Py.to_float.
  destruct (decide (z = 0)) as [->|Hne].
  - intros [= <-]. by left.
  - pose proof (float_of_int_pos z ltac:(lia)) as Hpos.
    destruct (Py.float_of_int z) as [| | |s q e]; try done.
    intros [= <-]. right. split; [lia|]. rewrite Hpos. by eexists _, _.
Qed.

(** A quotient of a non-negative by a positive float is not negative. *)
Lemma truediv_nonneg (a b : Py.float) q e :
  a = S754_zero false ∨ (∃ qa ea, a = S754_finite false qa ea) →
  b = S754_finite false q e →
  Py.ge (Py.truediv a b) (Py.float_of_int 0) = true.
Proof.
  intros Ha ->. unfold Py.truediv.
  assert (Hsigned : signed false (SFdiv Py.prec Py.emax a (S754_finite false q e))).
  { destruct Ha as [->|(qa & ea & ->)]; [done|]. unfold SFdiv.
    destruct (SFdiv_core_binary Py.prec Py.emax (Zpos qa) ea (Zpos q) e)
      as [[mz ez] lz] eqn:Hcore.
    apply binary_round_aux_signed.
    unfold SFdiv_core_binary in Hcore.
    match type of Hcore with
    | context [Z.div_eucl ?m' ?m2] =>
        assert (Hq : 0 ≤ m' / m2);
        [ apply Z.div_pos; [|lia];
          destruct (ea - e - _); try apply Z.shiftl_nonneg; lia
        | unfold Z.div in Hq; destruct (Z.div_eucl m' m2) as [q' r'] ]
    end.
    by injection Hcore as <- _ _. }
  by destruct (SFdiv Py.prec Py.emax a _) as [[]|[]| |[] ? ?].
Qed.

(** A duration [d >= 0] has a bucket in the sampler. *)
Lemma assign_bucket_some (d : Py.float) :
  Py.ge d (Py.float_of_int 0) = true → is_Some (assign_bucket d).
Proof.
  intros Hd.
  pose proof (bound_le_negb_lt d 1 Hd ltac:(vm_compute; eauto)) as L1.
  pose proof (bound_le_negb_lt d 5 Hd ltac:(vm_compute; eauto)) as L5.
  pose proof (bound_le_negb_lt d 10 Hd ltac:(vm_compute; eauto)) as L10.
  pose proof (bound_le_negb_lt d 15 Hd ltac:(vm_compute; eauto)) as L15.
  pose proof (bound_le_negb_lt d 20 Hd ltac:(vm_compute; eauto)) as L20.
  pose proof (bound_le_negb_lt d 25 Hd ltac:(vm_compute; eauto)) as L25.
  pose proof (bound_le_negb_lt d 30 Hd ltac:(vm_compute; eauto)) as L30.
  unfold assign_bucket, BUCKET_DEFS, assign_bucket_in, bucket_matches.
  unfold Py.ge in *. rewrite Hd, L1, L5, L10, L15, L20, L25, L30.
  destruct (Py.lt d (Py.float_of_int 1)),  (Py.lt d (Py.float_of_int 5)),
    (Py.lt d (Py.float_of_int 10)), (Py.lt d (Py.float_of_int 15)),
    (Py.lt d (Py.float_of_int 20)), (Py.lt d (Py.float_of_int 25)),
    (Py.lt d (Py.float_of_int 30)); cbn [andb negb]; by eexists.
Qed.

(** X16. A file for which [soundfile] reports a non-negative number of frames
    and a positive sample rate never gets a negative or a NaN duration:
    whenever [get_duration_seconds] returns a duration for it, that duration
    is [>= 0] in binary64 arithmetic, so [assign_bucket] gives it a bucket
    and the record that [build_file_index] makes of the file is not left
    out of the folder and bucket dictionary. *)
Theorem measured_duration_has_bucket (w : Py.World)
    (audio_root folder_key f : string) (frames samplerate : Z)
    (d : Py.float) :
  Py.sf_info w f = inr (frames, samplerate) →
  0 ≤ frames → 0 < samplerate →
  Spec.duration_of w f = Some d →
  Py.ge d (Py.float_of_int 0) = true ∧
  is_Some (assign_bucket d) ∧
  is_Some (bucket (Spec.record_of w audio_root folder_key f d)) ∧
  is_Some (build_folder_bucket_map
             [Spec.record_of w audio_root folder_key f d] !! folder_key).
Proof.
  intros Hinfo Hframes Hrate. unfold Spec.duration_of, get_duration_seconds.
  rewrite Hinfo. destruct (Z.ltb_spec 0 samplerate) as [_|]; [|lia].
  destruct (Py.to_float frames) as [?|a] eqn:Ha; [done|].
  destruct (Py.to_float samplerate) as [?|b] eqn:Hb; [done|].
  simpl. intros [= <-].
  assert (Hge : Py.ge (Py.truediv a b) (Py.float_of_int 0) = true).
  { destruct (to_float_nonneg samplerate b ltac:(lia) Hb)
      as [[? _]|(_ & q & e & ->)]; [lia|].
    apply (truediv_nonneg a _ q e); [|done].
    destruct (to_float_nonneg _ _ Hframes Ha) as [[_ ->]|(_ & ? & ? & ->)];
      [by left | right; by eexists _, _]. }
  destruct (assign_bucket_some _ Hge) as [b0 Hb0].
  split; [done|]. split; [by eexists|]. split; [by eexists|].
  unfold build_folder_bucket_map, add_file. simpl. rewrite Hb0.
  rewrite lookup_insert_eq. by eexists.
Qed.

End Durations.

(** X16 on the sample world: the clip of 8000 frames at 16 kHz. *)
Lemma measured_duration_has_bucket_witness :
  Spec.duration_of Inputs.world "/data/podcastA/a.wav" = Some Inputs.d0_5 ∧
  Py.ge Inputs.d0_5 (Py.float_of_int 0) = true ∧
  is_Some (sample_tts_files.assign_bucket Inputs.d0_5).
Proof.
  destruct (measured_duration_has_bucket Inputs.world "/data" "podcastA"
              "/data/podcastA/a.wav" 8000 16000 Inputs.d0_5)
    as (Hge & Hbucket & _); [reflexivity | lia | lia | reflexivity |].
  split; [reflexivity|]. split; [exact Hge | exact Hbucket].
Defined.

(** ** What sampling a folder prints *)

Section FolderLog.

Import sample_tts_files.

Context {RNG : Type} `{!Py.Random RNG}.

Implicit Types (rng : RNG) (files : list FileInfo) (row : Py.Series)
  (folder_buckets : gmap string (list FileInfo))
  (requested : list (string * Z)).

Local Abbreviation labels := (BUCKET_DEFS.*1).



End FolderLog.


(** ** When the seed does not matter *)

Section Stateless.

Context {S W : Type}.

Implicit Types (s : S) (out : list W).

Lemma stateless_run {A} (m : Py.M S W A) s out (a : A) s1 :
  Spec.stateless m → m s = (out, inr (a, s1)) →
  s1 = s ∧ ∀ s', m s' = (out, inr (a, s')).
Proof.
  intros Hm Hs. split.
  - pose proof (Hm s s) as H. rewrite Hs in H. simpl in H. congruence.
  - intros s'. rewrite (Hm s s'), Hs. done.
Qed.

Lemma stateless_ret {A} (a : A) : Spec.stateless (mret a : Py.M S W A).
Proof. by intros s s'. Qed.

Lemma stateless_print (w : W) : Spec.stateless (Py.print w : Py.M S W ()).
Proof. by intros s s'. Qed.

Lemma stateless_raise {A} (e : Py.exn) :
  Spec.stateless (Py.raise e : Py.M S W A).
Proof. by intros s s'. Qed.

Lemma stateless_lift {A} (r : Py.exn + A) :
  Spec.stateless (Py.lift r : Py.M S W A).
Proof. destruct r; by intros s s'. Qed.

Lemma stateless_bind {A B} (m : Py.M S W A) (f : A → Py.M S W B) :
  Spec.stateless m →
  (∀ s out a s1, m s = (out, inr (a, s1)) → Spec.stateless (f a)) →
  Spec.stateless (m ≫= f).
Proof.
  intros Hm Hf s s'. rewrite !run_bind. rewrite (Hm s s').
  destruct (m s) as [out [e|[a s1]]] eqn:Hs; simpl; [done|].
  destruct (stateless_run m s out a s1 Hm Hs) as [-> _].
  rewrite (Hf s out a s Hs s s').
  by destruct (f a s) as [out2 [e|[b s2]]].
Qed.

Lemma stateless_for {A B} (body : B → A → Py.M S W B) (l : list A) (acc : B) :
  (∀ x acc, x ∈ l → Spec.stateless (body acc x)) →
  Spec.stateless (Py.for_ l body acc).
Proof.
  revert acc. induction l as [|x l IH]; intros acc Hbody.
  - apply stateless_ret.
  - simpl. apply stateless_bind; [apply Hbody; left|].
    intros _ _ acc' _ _. apply IH. intros y acc'' Hy. apply Hbody. by right.
Qed.

End Stateless.

Section SeedIrrelevant.

Import sample_tts_files.

Context {RNG : Type} `{!Py.Random RNG} (w : Py.World).

Implicit Types (rng : RNG) (row : Py.Series) (files : list FileInfo)
  (folder_bucket_map : gmap string (gmap string (list FileInfo))).

Local Abbreviation labels := (BUCKET_DEFS.*1).

Lemma load_sampling_plan_stateless {S} (plan_csv : string) :
  Spec.stateless (load_sampling_plan (S := S) w plan_csv).
Proof.
  unfold load_sampling_plan. apply stateless_bind; [apply stateless_lift|].
  intros _ _ df _ _. destruct (negb _);
    [apply stateless_raise | apply stateless_ret].
Qed.

Lemma get_duration_seconds_stateless {S} (f : string) :
  Spec.stateless (get_duration_seconds (S := S) w f).
Proof.
  unfold get_duration_seconds.
  destruct (Py.sf_info w f) as [e|[frames samplerate]].
  { apply stateless_bind; [apply stateless_print|].
    intros. apply stateless_ret. }
  destruct (0 <? samplerate); [|apply stateless_ret].
  destruct (Py.to_float frames), (Py.to_float samplerate);
    try apply stateless_ret;
    (apply stateless_bind; [apply stateless_print|];
     intros; apply stateless_ret).
Qed.

Lemma build_file_index_stateless {S} (audio_root : string)
    (plan_df : Py.DataFrame) :
  Spec.stateless (build_file_index (S := S) w audio_root plan_df).
Proof.
  unfold build_file_index. apply stateless_bind.
  - apply stateless_for. intros row all_files _. unfold index_folder.
    apply stateless_bind.
    { unfold folder_key_of. destruct (Py.series_get row "Folder");
        [apply stateless_ret | apply stateless_raise]. }
    intros _ _ key _ _. apply stateless_bind.
    { unfold find_files_in_folder. destruct (negb _); [|apply stateless_ret].
      apply stateless_bind; [apply stateless_print|].
      intros. apply stateless_ret. }
    intros _ _ found _ _. apply stateless_bind; [apply stateless_print|].
    intros _ _ _ _ _. apply stateless_for. intros f all_files' _.
    unfold index_file. apply stateless_bind;
      [apply get_duration_seconds_stateless|].
    intros _ _ [dur|] _ _; apply stateless_ret.
  - intros _ _ all_files _ _. apply stateless_bind; [apply stateless_print|].
    intros. apply stateless_ret.
Qed.

Lemma requested_counts_stateless {S} row :
  Spec.stateless (requested_counts (S := S) row).
Proof.
  unfold requested_counts. apply stateless_for. intros b requested _.
  unfold request_bucket.
  destruct (Py.series_has row _); [|apply stateless_ret].
  destruct (Py.series_get row _) as [c|]; [|apply stateless_raise].
  apply stateless_bind.
  { destruct (negb (Py.isna c)); [apply stateless_lift | apply stateless_ret]. }
  intros _ _ requested_count _ _.
  destruct (0 <? requested_count); apply stateless_ret.
Qed.

Lemma requested_counts_inv row rng out (requested : list (string * Z)) rng1 :
  requested_counts row rng = (out, inr (requested, rng1)) →
  requested = omap (Spec.request_of row) labels.
Proof.
  intros Hrun. destruct (cells_dichotomy row labels) as [Hconv|Hbad].
  - rewrite (requested_counts_run row rng Hconv) in Hrun. congruence.
  - destruct (request_loop_raises row labels [] rng Hbad) as [e He].
    fold (requested_counts row rng) in He. congruence.
Qed.

(** A pass over a row from whose requested buckets no draw is needed
    never touches the generator. *)
Lemma sample_row_stateless folder_bucket_map (all_selected : list FileInfo)
    row :
  (∀ key b K, Spec.folder_of w row = Some key → b ∈ labels →
     Spec.request_of row b = Some (b, K) →
     Z.of_nat (length (Spec.files_at folder_bucket_map key b)) ≤ K) →
  Spec.stateless (sample_row w folder_bucket_map all_selected row).
Proof.
  intros Hall. unfold sample_row. apply stateless_bind.
  { unfold folder_key_of. destruct (Py.series_get row "Folder");
      [apply stateless_ret | apply stateless_raise]. }
  intros rng0 out0 key rng1 Hkey.
  apply folder_key_of_inv in Hkey as (_ & _ & v & Hv & ->).
  assert (Hfolder : Spec.folder_of w row = Some (Py.str (Py.repr_float w) v)).
  { unfold Spec.folder_of. by rewrite Hv. }
  apply stateless_bind.
  { unfold target_of. destruct (Py.series_has row "Target Samples");
      [|apply stateless_ret].
    destruct (Py.series_get row "Target Samples") as [t|];
      [|apply stateless_raise].
    destruct (negb (Py.isna t)); [|apply stateless_ret].
    apply stateless_bind; [apply stateless_lift|]. intros. apply stateless_ret. }
  intros _ _ target _ _.
  destruct (bool_decide _).
  { apply stateless_bind; [apply stateless_print|]. intros. apply stateless_ret. }
  apply stateless_bind.
  - unfold sample_for_folder.
    apply stateless_bind; [apply requested_counts_stateless|].
    intros rng2 out2 requested rng3 Hreq.
    apply requested_counts_inv in Hreq as ->.
    apply stateless_for. intros [b K] selected Hin.
    apply list_elem_of_omap in Hin as (b' & Hb' & Hreq).
    apply request_of_Some in Hreq as Hreq'. destruct Hreq' as [-> _].
    pose proof (Hall _ _ _ Hfolder Hb' Hreq) as Hle.
    unfold Spec.files_at in Hle. unfold sample_bucket.
    destruct (default [] (default ∅ (folder_bucket_map
                !! Py.str (Py.repr_float w) v) !! b')) as [|fi l].
    { apply stateless_bind; [apply stateless_print|].
      intros. apply stateless_ret. }
    destruct (Z.leb_spec (Z.of_nat (length (fi :: l))) K); [|lia].
    apply stateless_bind; [apply stateless_print|].
    intros. apply stateless_ret.
  - intros _ _ selected _ _. apply stateless_bind.
    { destruct target as [target|]; [destruct (_ <? target)|];
        [apply stateless_print | apply stateless_ret | apply stateless_ret]. }
    intros. apply stateless_ret.
Qed.

(** X18. When every bucket that a row of the plan requests holds no more
    indexed files than the row asks for, the seed does not matter: a run of
    [run_sampling] that writes a manifest leaves the generator as
    [Random(seed)] made it, and the run from any other seed prints the same
    lines and writes the same manifest. *)
Theorem seed_irrelevant_when_taking_all
    (plan_csv audio_root output_csv : string) (seed : Z)
    (plan_df : Py.DataFrame) log1 files log manifest (rng' : RNG) :
  load_sampling_plan w plan_csv (Py.Random_seed seed)
  = ([], inr (plan_df, Py.Random_seed seed)) →
  build_file_index w audio_root plan_df (Py.Random_seed seed)
  = (log1, inr (files, Py.Random_seed seed)) →
  (∀ row key b K, row ∈ Py.iterrows plan_df →
     Spec.folder_of w row = Some key → b ∈ labels →
     Spec.request_of row b = Some (b, K) →
     Z.of_nat (length (Spec.available_in files key b)) ≤ K) →
  run_sampling w plan_csv audio_root output_csv seed
  = (log, inr (manifest, rng')) →
  rng' = Py.Random_seed seed ∧
  ∀ seed', run_sampling w plan_csv audio_root output_csv seed'
           = (log, inr (manifest, Py.Random_seed seed')).
Proof.
  intros Hload Hindex Hall Hrun.
  assert (Hstateless : Spec.stateless
    (run_sampling_with (RNG := RNG) w plan_csv audio_root output_csv)).
  { unfold run_sampling_with. apply stateless_bind.
    - unfold accumulate_selected. apply stateless_bind;
        [apply load_sampling_plan_stateless|].
      intros s0 out0 df s1 Hload'.
      destruct (stateless_run _ _ _ _ _ (load_sampling_plan_stateless plan_csv)
                  Hload) as [_ Hload0].
      rewrite Hload0 in Hload'. injection Hload' as _ <- _.
      apply stateless_bind; [apply stateless_print|]. intros _ _ _ _ _.
      apply stateless_bind; [apply build_file_index_stateless|].
      intros s2 out2 files2 s3 Hindex'.
      destruct (stateless_run _ _ _ _ _
                  (build_file_index_stateless audio_root plan_df) Hindex)
        as [_ Hindex0].
      rewrite Hindex0 in Hindex'. injection Hindex' as _ <- _.
      apply stateless_for. intros row all_selected Hrow.
      apply sample_row_stateless. intros key b K Hkey Hb Hreq.
      unfold Spec.files_at. rewrite build_folder_bucket_map_lookup.
      by apply (Hall row).
    - intros _ _ all_selected _ _.
      apply stateless_bind; [apply stateless_print|]. intros _ _ _ _ _.
      apply stateless_bind; [apply stateless_print|]. intros.
      apply stateless_ret. }
  unfold run_sampling in *.
  destruct (stateless_run _ _ _ _ _ Hstateless Hrun) as [-> Hany].
  split; [done|]. intros seed'. apply Hany.
Qed.

End SeedIrrelevant.

(** X18 on the sample world, for the plan asking for two clips of [[0, 1)]
    and one of [[5, 10)], of which there are two and one: seeds 42 and 43
    give the same manifest. *)
Lemma seed_irrelevant_when_taking_all_witness :
  ∃ log manifest,
    sample_tts_files.run_sampling Inputs.world
      "plan_all.csv" "/data" "out.csv" 42 = (log, inr (manifest, 42)) ∧
    sample_tts_files.run_sampling Inputs.world
      "plan_all.csv" "/data" "out.csv" 43 = (log, inr (manifest, 43)).
Proof.
  destruct (sample_tts_files.run_sampling Inputs.world
              "plan_all.csv" "/data" "out.csv" 42)
    as [log [e|[manifest rng']]] eqn:E; [by vm_compute in E|].
  destruct (seed_irrelevant_when_taking_all Inputs.world
              "plan_all.csv" "/data" "out.csv" 42
              {| Py.columns := Inputs.plan_columns;
                 Py.values := [Inputs.podcastA_row 2 1] |}
              [sample_tts_files.InfoFolderFound "podcastA" 3;
               sample_tts_files.InfoTotalIndexed 3]
              Inputs.files log manifest rng') as [Hrng Hany].
  - vm_compute. reflexivity.
  - vm_compute. reflexivity.
  - intros row key b K ->%list_elem_of_singleton [= <-] Hb Hreq.
    change (b ∈ ["[0, 1)"; "[1, 5)"; "[5, 10)"; "[10, 15)"; "[15, 20)";
                 "[20, 25)"; "[25, 30)"; "[30+)"]) in Hb.
    do 8 (apply elem_of_cons in Hb as [Hb|Hb];
          [subst b; vm_compute in Hreq; try discriminate Hreq;
           injection Hreq as <-; vm_compute; discriminate |]).
    apply elem_of_nil in Hb. destruct Hb.
  - exact E.
  - exists log, manifest. split.
    + rewrite Hrng. reflexivity.
    + apply (Hany 43).
Defined.

(** ** What can stop the report *)

Section ReportErrors.

Import audio_distribution.

Context (path_join : string → string → string).

Implicit Types (overall_buckets : list (string * Z)) (st : stats)
  (folder_stats : gmap string stats) (f : flac_file) (n : node).

Local Abbreviation key_error e :=
  (e = Py.KeyError "name" ∨ e = Py.KeyError "duration_seconds" ∨
   e = Py.KeyError "UNBUCKETED").

Local Abbreviation outcome r :=
  (match r with
   | (out, inl e) => out = [] ∧ key_error e
   | (out, inr (_, (folder_stats', overall_buckets'))) =>
       out = [] ∧ Spec.labelled folder_stats' overall_buckets'
   end).





End ReportErrors.

